(** * xTool laser integration: device protocol client and state coordinator

    A shallow embedding of [xtool_laser/api.py], [xtool_laser/coordinator.py]
    and the service dispatch of [custom_components/xtool_laser/__init__.py],
    together with the properties of the specification that concern them;
    then of the binary sensors, the configuration flow and the setup and
    unloading of entries, with further properties of the code.

    Python values are modelled by a JSON-shaped value type, exceptions by a
    sum type, dictionaries built by the code by [gmap string _], and the
    network, the socket and the event loop by explicit environments that
    the operations read and by effect traces that they write. *)

From Stdlib Require Import ZArith Ascii String List Floats.SpecFloat.
From stdpp Require Import base option list gmap strings pretty sorting.

Local Open Scope string_scope.
Local Open Scope Z_scope.
Local Open Scope list_scope.
Local Set Warnings "-register-all".

(** ** Exceptions and fallible computations *)

(** The exception classes that the modelled code raises or lets through. *)
Inductive exn : Type :=
| XToolApiError
| UpdateFailed
| HomeAssistantError (msg : string)
| AttributeError
| TypeError
| ValueError
| OverflowError
| OSError
| KeyError
| RecursionError.

Global Instance exn_eq_dec : EqDecision exn.
Proof. solve_decision. Defined.

Definition result (A : Type) : Type := (exn + A)%type.

Definition Ok {A} (a : A) : result A := inr a.
Definition Raise {A} (e : exn) : result A := inl e.

Definition rbind {A B} (m : result A) (k : A -> result B) : result B :=
  match m with
  | inl e => inl e
  | inr a => k a
  end.

Declare Scope result_scope.
Delimit Scope result_scope with result.
Notation "x <- m ;; k" := (rbind m (fun x => k))
  (at level 60, m at next level, right associativity) : result_scope.

Definition raises {A} (m : result A) : Prop := exists e, m = Raise e.
Definition returns {A} (m : result A) : Prop := exists a, m = Ok a.

(** ** Python values *)

(** Values as [json.loads] and [response.json()] produce them, over a type
    [F] of floating-point numbers. An object lists its fields in insertion
    order; keys are unique, and a lookup takes the first binding. *)
Inductive json (F : Type) : Type :=
| JNull
| JBool (b : bool)
| JInt (n : Z)
| JFloat (x : F)
| JStr (s : string)
| JArr (items : list (json F))
| JObj (fields : list (string * json F)).

Arguments JNull {F}.
Arguments JBool {F} b.
Arguments JInt {F} n.
Arguments JFloat {F} x.
Arguments JStr {F} s.
Arguments JArr {F} items.
Arguments JObj {F} fields.

(** The builtins of the Python runtime whose results the code passes on
    without inspecting them: float arithmetic, numeric parsing and
    printing, and [str.strip]. *)
Class PyRuntime : Type := {
  pyfloat : Type;
  float_zero : pyfloat;                       (* the literal 0.0 *)
  float_of_int : Z -> result pyfloat;         (* float(n), n an int *)
  float_of_str : string -> result pyfloat;    (* float(s), s a str *)
  int_of_float : pyfloat -> result Z;         (* int(x), x a float *)
  int_of_str : string -> result Z;            (* int(s), s a str *)
  float_eq_int : pyfloat -> Z -> bool;        (* x == n *)
  float_truthy : pyfloat -> bool;             (* bool(x) *)
  repr_float : pyfloat -> string;             (* str(x), x a float *)
  repr_compound : json pyfloat -> string;     (* str(v), v a list or dict *)
  str_strip : string -> string                (* s.strip() *)
}.

Section Builtins.
Context {R : PyRuntime}.

Definition value : Type := json pyfloat.

Fixpoint obj_lookup (k : string) (fields : list (string * value)) : option value :=
  match fields with
  | [] => None
  | (k', v) :: rest => if String.eqb k k' then Some v else obj_lookup k rest
  end.

(** [payload.get(key, default)]: only a dict has a [get] method. *)
Definition py_get (payload : value) (key : string) (dflt : value) : result value :=
  match payload with
  | JObj fields => Ok (default dflt (obj_lookup key fields))
  | _ => Raise AttributeError
  end.

(** [str(v)] *)
Definition py_str (v : value) : string :=
  match v with
  | JNull => "None"
  | JBool true => "True"
  | JBool false => "False"
  | JInt n => pretty n
  | JFloat x => repr_float x
  | JStr s => s
  | JArr _ | JObj _ => repr_compound v
  end.

(** [float(v)] *)
Definition py_float (v : value) : result pyfloat :=
  match v with
  | JFloat x => Ok x
  | JInt n => float_of_int n
  | JBool b => float_of_int (Z.b2z b)
  | JStr s => float_of_str s
  | JNull | JArr _ | JObj _ => Raise TypeError
  end.

(** [int(v)] *)
Definition py_int (v : value) : result Z :=
  match v with
  | JInt n => Ok n
  | JBool b => Ok (Z.b2z b)
  | JFloat x => int_of_float x
  | JStr s => int_of_str s
  | JNull | JArr _ | JObj _ => Raise TypeError
  end.

(** Truth value of [v], as tested by [if v]. *)
Definition py_truthy (v : value) : bool :=
  match v with
  | JNull => false
  | JBool b => b
  | JInt n => negb (n =? 0)
  | JFloat x => float_truthy x
  | JStr s => negb (String.eqb s "")
  | JArr items => match items with [] => false | _ => true end
  | JObj fields => match fields with [] => false | _ => true end
  end.

(** [v == s] for a string [s]. *)
Definition py_eq_str (v : value) (s : string) : bool :=
  match v with
  | JStr s' => String.eqb s' s
  | _ => false
  end.

(** [v == n] for an int [n]. *)
Definition py_eq_int (v : value) (n : Z) : bool :=
  match v with
  | JInt m => m =? n
  | JBool b => Z.b2z b =? n
  | JFloat x => float_eq_int x n
  | _ => false
  end.
End Builtins.

(** ** const.py *)

Definition DOMAIN : string := "xtool_laser".
Definition DEFAULT_PORT : Z := 8080.
Definition DEFAULT_WS_PORT : Z := 8081.
Definition ATTR_WS_STATE : string := "ws_state".

(** ** The HTTP side of the environment *)

(** The state of an [XToolApiClient]: its host, the identifier of its
    push-channel task in the event loop, and the stop signal [_ws_stop]. *)
Record XToolApiClient : Type := {
  _host : string;
  _ws_task : option nat;
  _ws_stop : bool
}.

Record request : Type := { url : string; query : list (string * string) }.

(** The exception classes caught by [_get_json]. *)
Inductive http_failure : Type :=
| HTimeoutError
| HClientError
| HContentTypeError
| HValueError.

(** What one [session.get] leads to: no response (time-out or transport
    failure), or a response with its status and what [response.json]
    does with its body (a decoded value, or a failure while reading or
    decoding it; an undecodable body is [HValueError]; an empty or blank
    body is the value [None]). *)
Inductive http_outcome {R : PyRuntime} : Type :=
| NoResponse (e : http_failure)
| Response (status : Z) (body : http_failure + value).

(** Observable actions, in the order in which they are performed. *)
Inductive effect : Type :=
| HttpGet (r : request)
| RefreshRequested (entry_id : string).

(** The world a coroutine runs in: the outcome of each request, and for a
    [gather] the rank in which its awaitables complete. *)
Record world {R : PyRuntime} : Type := {
  net : request -> http_outcome;
  finish : nat -> nat
}.

Declare Scope io_scope.
Delimit Scope io_scope with io.

Section Client.
Context {R : PyRuntime}.

(** Coroutines: they read the world, log their effects, and return or raise. *)
Definition io (A : Type) : Type := world -> result A * list effect.

Definition ret {A} (a : A) : io A := fun _ => (Ok a, []).
Definition throw {A} (e : exn) : io A := fun _ => (Raise e, []).
Definition lift {A} (m : result A) : io A := fun _ => (m, []).

Definition bind {A B} (m : io A) (k : A -> io B) : io B :=
  fun w =>
    match m w with
    | (inl e, t) => (inl e, t)
    | (inr a, t) => let '(r, t') := k a w in (r, t ++ t')
    end.

Notation "x <- m ;; k" := (bind m (fun x => k))
  (at level 60, m at next level, right associativity) : io_scope.

Definition outcome {A} (m : io A) (w : world) : result A := fst (m w).
Definition trace {A} (m : io A) (w : world) : list effect := snd (m w).

(** *** aiohttp *)

(** [response.raise_for_status()] raises [ClientResponseError], a
    [ClientError], when the status is 400 or above. *)
Definition raise_for_status (status : Z) : http_failure + unit :=
  if 400 <=? status then inl HClientError else inr tt.

(** The body of the [try] block of [_get_json]. *)
Definition http_exchange (out : http_outcome) : http_failure + value :=
  match out with
  | NoResponse e => inl e
  | Response status body =>
      match raise_for_status status with
      | inl e => inl e
      | inr _ => body
      end
  end.

(** *** api.py: XToolApiClient *)

Definition new_client (host : string) : XToolApiClient :=
  {| _host := str_strip host; _ws_task := None; _ws_stop := false |}.

Definition base_url (self : XToolApiClient) : string :=
  "http://" +:+ _host self +:+ ":" +:+ pretty DEFAULT_PORT.

Definition ws_url (self : XToolApiClient) : string :=
  "ws://" +:+ _host self +:+ ":" +:+ pretty DEFAULT_WS_PORT.

(** One GET; the time-out of 10 seconds of the request shows as
    [HTimeoutError]. *)
Definition _get_json (self : XToolApiClient) (path : string)
    (params : list (string * string)) : io value :=
  fun w =>
    let r := {| url := base_url self +:+ path; query := params |} in
    (match http_exchange (net w r) with
     | inl _ => Raise XToolApiError
     | inr payload => Ok payload
     end, [HttpGet r]).

Definition async_ping (self : XToolApiClient) : io bool :=
  (payload <- _get_json self "/ping" [] ;;
   r <- lift (py_get payload "result" JNull) ;;
   ret (py_eq_str r "ok"))%io.

Definition async_get_machine_type (self : XToolApiClient) : io string :=
  (payload <- _get_json self "/getmachinetype" [] ;;
   t <- lift (py_get payload "type" (JStr "Unknown xTool")) ;;
   ret (py_str t))%io.

Definition async_get_mac (self : XToolApiClient) : io (option string) :=
  (payload <- _get_json self "/system" [("action", "mac")] ;;
   mac <- lift (py_get payload "mac" JNull) ;;
   ret (if py_truthy mac then Some (py_str mac) else None))%io.

Definition async_get_progress (self : XToolApiClient) : io value :=
  _get_json self "/progress" [].

Definition async_get_working_state (self : XToolApiClient) : io string :=
  (payload <- _get_json self "/system" [("action", "get_working_sta")] ;;
   s <- lift (py_get payload "working" (JStr "0")) ;;
   ret (py_str s))%io.

Definition async_get_peripheral_status (self : XToolApiClient) : io value :=
  _get_json self "/peripherystatus" [].

Definition async_cnc_action (self : XToolApiClient) (action : string) : io bool :=
  (payload <- _get_json self "/cnc/data" [("action", action)] ;;
   r <- lift (py_get payload "result" JNull) ;;
   ret (py_eq_str r "ok"))%io.

(** [asyncio.gather] without [return_exceptions]: the awaitables all
    start, and the exception of the one that fails first, if any, is
    the one raised. [earliest rank i errs] is that failure, with its
    rank, among the awaitables numbered from [i]; equal ranks go to
    the earlier argument. *)
Fixpoint earliest (rank : nat -> nat) (i : nat) (errs : list (option exn))
  : option (nat * exn) :=
  match errs with
  | [] => None
  | o :: rest =>
      let later := earliest rank (S i) rest in
      match o with
      | None => later
      | Some e =>
          match later with
          | Some (r, e') =>
              if (r <? rank i)%nat then Some (r, e') else Some (rank i, e)
          | None => Some (rank i, e)
          end
      end
  end.

Definition failure {A} (r : result A) : option exn :=
  match r with
  | inl e => Some e
  | inr _ => None
  end.

Definition gather4 {A B C D} (a : io A) (b : io B) (c : io C) (d : io D)
  : io (A * B * C * D) :=
  fun w =>
    let '(ra, ta) := a w in
    let '(rb, tb) := b w in
    let '(rc, tc) := c w in
    let '(rd, td) := d w in
    (match earliest (finish w) 0 [failure ra; failure rb; failure rc; failure rd] with
     | Some (_, e) => Raise e
     | None =>
         match ra, rb, rc, rd with
         | inr x, inr y, inr z, inr u => Ok (x, y, z, u)
         | inl e, _, _, _ | _, inl e, _, _ | _, _, inl e, _ | _, _, _, inl e => Raise e
         end
     end, ta ++ tb ++ tc ++ td).

Definition async_get_snapshot (self : XToolApiClient) : io (gmap string value) :=
  bind (gather4 (async_get_progress self)
                (async_get_working_state self)
                (async_get_peripheral_status self)
                (async_get_machine_type self))
    (fun '(progress, working_state, peripheral, machine_type) =>
       (p <- lift (rbind (py_get progress "progress" (JFloat float_zero)) py_float) ;;
        working <- lift (rbind (py_get progress "working" (JInt 0)) py_int) ;;
        line <- lift (rbind (py_get progress "line" (JInt 0)) py_int) ;;
        ret (list_to_map
               [("progress", JFloat p);
                ("working", JInt working);
                ("line", JInt line);
                ("working_state", JStr working_state);
                ("machine_type", JStr machine_type);
                ("peripheral_status", peripheral)]))%io).
End Client.

Notation "x <- m ;; k" := (bind m (fun x => k))
  (at level 60, m at next level, right associativity) : io_scope.

(** ** coordinator.py *)

Definition WORKING_STATE_MAP : gmap string string :=
  list_to_map [("0", "idle"); ("1", "running_api"); ("2", "running_button")].

Section Coordinator.
Context {R : PyRuntime}.

(** An [XToolDataUpdateCoordinator]. [data] and [last_update_success]
    are the attributes of the [DataUpdateCoordinator] base class:
    [data] is [None] until the first successful refresh. *)
Record coordinator : Type := {
  api : XToolApiClient;
  entry_id : string;
  use_websocket : bool;
  data : option (gmap string value);
  last_update_success : bool
}.

Definition new_coordinator (client : XToolApiClient) (id : string) (ws : bool)
  : coordinator :=
  {| api := client; entry_id := id; use_websocket := ws;
     data := None; last_update_success := true |}.

(** Truth value of a dict: it is not empty. *)
Definition dict_truthy {V} (d : gmap string V) : bool := negb (size d =? 0)%nat.

(** [table.get(key, dflt)] on a dict with string keys, for any key value:
    a list or a dict is not hashable. *)
Definition table_get (table : gmap string string) (key : value) (dflt : string)
  : result string :=
  match key with
  | JStr s => Ok (default dflt (table !! s))
  | JArr _ | JObj _ => Raise TypeError
  | _ => Ok dflt
  end.

(** [try: ... except XToolApiError as err: raise UpdateFailed(str(err))] *)
Definition as_update_failed {A} (m : io A) : io A :=
  fun w =>
    match m w with
    | (inl XToolApiError, t) => (Raise UpdateFailed, t)
    | other => other
    end.

Definition _async_update_data (self : coordinator) : io (gmap string value) :=
  (fresh <- as_update_failed (async_get_snapshot (api self)) ;;
   label <- lift (table_get WORKING_STATE_MAP
                    (default (JStr "0") (fresh !! "working_state")) "unknown") ;;
   let labelled := <["working_state_label" := JStr label]> fresh in
   ret (match data self with
        | Some old =>
            if dict_truthy old then
              match old !! ATTR_WS_STATE with
              | Some ws => <[ATTR_WS_STATE := ws]> labelled
              | None => labelled
              end
            else labelled
        | None => labelled
        end))%io.

(** [DataUpdateCoordinator.async_set_updated_data] of Home Assistant. *)
Definition async_set_updated_data (self : coordinator) (d : gmap string value)
  : coordinator :=
  {| api := api self; entry_id := entry_id self; use_websocket := use_websocket self;
     data := Some d; last_update_success := true |}.

(** One refresh of the [DataUpdateCoordinator] base class of Home
    Assistant: [self.data = await self._async_update_data()] inside a
    [try] whose handlers record the failure and leave [data] alone. *)
Definition async_refresh (self : coordinator) (w : world) : coordinator * list effect :=
  match _async_update_data self w with
  | (inr d, t) => (async_set_updated_data self d, t)
  | (inl _, t) =>
      ({| api := api self; entry_id := entry_id self;
          use_websocket := use_websocket self;
          data := data self; last_update_success := false |}, t)
  end.

Definition _async_handle_ws_message (self : coordinator) (message : string)
  : coordinator :=
  let current :=
    match data self with
    | Some d => if dict_truthy d then d else ∅
    | None => ∅
    end in
  async_set_updated_data self (<[ATTR_WS_STATE := JStr message]> current).

(** What happens to a coordinator: a poll cycle in some world, or a
    message of the push channel. *)
Inductive event : Type :=
| Poll (w : world)
| Push (message : string).

Definition step (c : coordinator) (ev : event) : coordinator :=
  match ev with
  | Poll w => fst (async_refresh c w)
  | Push message => _async_handle_ws_message c message
  end.

Definition run (c : coordinator) (evs : list event) : coordinator :=
  fold_left step evs c.

(** The push-event field of the current snapshot. *)
Definition ws_state (c : coordinator) : option value :=
  d ← data c; d !! ATTR_WS_STATE.
End Coordinator.

(** ** api.py: UDP discovery *)

(** A discovered device: the dict with keys [host], [name] and [version]. *)
Record device : Type := { host : string; name : string; version : string }.

(** [d[k] = v] on a dict kept in insertion order: a key that is present
    keeps its place. *)
Fixpoint dict_set {V} (k : string) (v : V) (d : list (string * V)) : list (string * V) :=
  match d with
  | [] => [(k, v)]
  | (k', v') :: rest =>
      if String.eqb k k' then (k, v) :: rest else (k', v') :: dict_set k v rest
  end.

Definition dict_values {V} (d : list (string * V)) : list V := map snd d.
Definition dict_keys {V} (d : list (string * V)) : list string := map fst d.

Fixpoint dict_lookup {V} (k : string) (d : list (string * V)) : option V :=
  match d with
  | [] => None
  | (k', v) :: rest => if String.eqb k k' then Some v else dict_lookup k rest
  end.

(** The assignment [d[k] = v] for a pair [(k, v)]. *)
Definition dict_update {V} (d : list (string * V)) (entry : string * V)
  : list (string * V) :=
  dict_set entry.1 entry.2 d.

(** The socket calls made before the receive loop, inside the [try]. *)
Inductive setup_call : Type :=
| SetBroadcast
| SetReuseAddr
| Bind
| SendTo.

(** What one [sock.recvfrom] of the loop does: it delivers a datagram,
    given by what [json.loads] makes of it ([None] when it raises
    [JSONDecodeError]; [DatagramTooDeep] is a datagram on which it
    raises [RecursionError], its brackets being nested deeper than the
    recursion limit), it times out, or it raises another [OSError]. *)
Inductive recv_outcome {R : PyRuntime} : Type :=
| Datagram (message : option value)
| DatagramTooDeep
| RecvTimeout
| RecvOSError.

(** The world of one discovery. The clock is not modelled: the receive
    loop runs once for each element of [received] and finds its deadline
    passed when the list is exhausted. *)
Record udp {R : PyRuntime} : Type := {
  request_id : Z;                       (* random.randint(100000, 999999) *)
  socket_fails : bool;                  (* socket.socket raises OSError *)
  setup_failure : option setup_call;    (* the first call to raise OSError *)
  received : list recv_outcome
}.

Section Discovery.
Context {R : PyRuntime}.

(** The body of the loop once [message] is decoded: [None] stands for
    [continue], [Some (h, dev)] for the assignment [found[h] = dev]. *)
Definition accept (rid : Z) (message : value) : result (option (string * device)) :=
  (got <- py_get message "requestId" JNull ;;
   if negb (py_eq_int got rid) then Ok None else
   ip <- py_get message "ip" (JStr "") ;;
   let h := str_strip (py_str ip) in
   if String.eqb h "" then Ok None else
   n <- py_get message "name" (JStr "xTool Laser") ;;
   v <- py_get message "version" (JStr "") ;;
   Ok (Some (h, {| host := h; name := py_str n; version := py_str v |})))%result.

Fixpoint receive_loop (rid : Z) (found : list (string * device))
    (rs : list recv_outcome) : result (list (string * device)) :=
  match rs with
  | [] => Ok found
  | RecvTimeout :: _ => Ok found
  | RecvOSError :: _ => Raise OSError
  | DatagramTooDeep :: _ => Raise RecursionError
  | Datagram None :: rest => receive_loop rid found rest
  | Datagram (Some message) :: rest =>
      match accept rid message with
      | inl e => Raise e
      | inr None => receive_loop rid found rest
      | inr (Some (h, dev)) => receive_loop rid (dict_set h dev found) rest
      end
  end.

Definition _discover_devices_sync (u : udp) : result (list device) :=
  if socket_fails u then Raise OSError else
  match
    match setup_failure u with
    | Some _ => Raise OSError
    | None => receive_loop (request_id u) [] (received u)
    end
  with
  | inl OSError => Ok []
  | inl e => Raise e
  | inr found => Ok (dict_values found)
  end.
End Discovery.

(** ** api.py: the push channel *)

(** How a task ended. *)
Inductive task_result : Type :=
| Returned
| Cancelled
| Failed (e : exn).

(** Where the coroutine [_ws_loop] stands: created and not yet started,
    suspended in [ws_connect], in the [async for] over the connection,
    in the close of the connection that the [async with] statement
    awaits when its block is left, or in [asyncio.sleep(5)], or done. *)
Inductive ws_phase : Type :=
| Pending
| Connecting
| Receiving
| Closing
| Sleeping
| Done (r : task_result).

(** Message types of aiohttp that the loop tells apart. *)
Inductive ws_msg : Type :=
| TEXT (data : string)
| CLOSED
| ERROR
| OtherType.

(** What the event loop resumes the coroutine with. [Failure] is a
    [TimeoutError] or [ClientError] raised by the awaited operation,
    [Crash] any other exception it raises, [Closed] the end of the
    close of the connection, and [Cancel] the [CancelledError] thrown
    in after [task.cancel()]. *)
Inductive resumption : Type :=
| Start
| Connected
| Message (msg : ws_msg)
| StreamEnd
| Failure
| Crash (e : exn)
| Closed
| Wake
| Cancel.

Section PushChannel.
Context {R : PyRuntime}.

(** [while not self._ws_stop.is_set():] *)
Definition loop_head (stop : bool) : ws_phase :=
  if stop then Done Returned else Connecting.

(** After the [try] statement: [if self._ws_stop.is_set(): return],
    then [await asyncio.sleep(5)]. *)
Definition after_connection (stop : bool) : ws_phase :=
  if stop then Done Returned else Sleeping.

(** One resumption of [_ws_loop], with the value of the stop signal at
    that time; the second component lists the texts handed to
    [on_message]. A resumption that does not fit the phase is ignored.

    The block of the [async with] statement is left by a [break], by
    the end of the [async for], or by a [TimeoutError] or [ClientError]
    raised in it; the statement then awaits the close of the
    connection, which swallows its own failures, before the loop goes
    on after the [try] statement. A connection that is closed already
    makes that await come back at once. An exception of another class
    ends the task: the close that it passes on its way out is no phase
    of its own, nothing of the loop being run after it. *)
Definition ws_resume (stop : bool) (ph : ws_phase) (r : resumption)
  : ws_phase * list string :=
  match ph, r with
  | Done res, _ => (Done res, [])
  | _, Cancel => (Done Cancelled, [])
  | Pending, Start => (loop_head stop, [])
  | Pending, _ => (Pending, [])
  | Closing, Closed => (after_connection stop, [])
  | Closing, _ => (Closing, [])
  | _, Crash e => (Done (Failed e), [])
  | Connecting, Connected => (Receiving, [])
  | Connecting, Failure => (after_connection stop, [])
  | Receiving, Message msg =>
      if stop then (Closing, []) else
      match msg with
      | TEXT text => (Receiving, [str_strip text])
      | CLOSED | ERROR => (Closing, [])
      | OtherType => (Receiving, [])
      end
  | Receiving, StreamEnd => (Closing, [])
  | Receiving, Failure => (Closing, [])
  | Sleeping, Wake => (loop_head stop, [])
  | _, _ => (ph, [])
  end.

(** A task run through a series of resumptions under a fixed stop
    signal: where it stands, and the texts it has delivered. *)
Definition ws_run (stop : bool) (ph : ws_phase) (rs : list resumption)
  : ws_phase * list string :=
  foldl (fun acc r => let '(ph', out) := ws_resume stop acc.1 r in (ph', acc.2 ++ out))
        (ph, []) rs.

Definition task_done (ph : ws_phase) : bool :=
  match ph with
  | Done _ => true
  | _ => false
  end.

(** [self._ws_task and not self._ws_task.done()], the tasks of the
    event loop being numbered in the order of their creation. *)
Definition task_running (tasks : list ws_phase) (self : XToolApiClient) : bool :=
  match _ws_task self with
  | Some id =>
      match tasks !! id with
      | Some ph => negb (task_done ph)
      | None => false
      end
  | None => false
  end.

Definition async_start_ws (self : XToolApiClient) (tasks : list ws_phase)
  : XToolApiClient * list ws_phase :=
  if task_running tasks self then (self, tasks) else
  ({| _host := _host self; _ws_task := Some (length tasks); _ws_stop := false |},
   tasks ++ [Pending]).

(** [task.cancel()] followed by [await task]: the task is resumed with
    [CancelledError]; the await completes, with the result of the task,
    once the task is done. *)
Definition cancel_and_await (stop : bool) (ph : ws_phase) : ws_phase * option task_result :=
  let ph' := fst (ws_resume stop ph Cancel) in
  (ph', match ph' with Done r => Some r | _ => None end).

(** [async_stop_ws]; [None] when the call does not come back. *)
Definition async_stop_ws (self : XToolApiClient) (tasks : list ws_phase)
  : option (result unit * XToolApiClient * list ws_phase) :=
  let stopped := {| _host := _host self; _ws_task := _ws_task self; _ws_stop := true |} in
  match _ws_task self with
  | None => Some (Ok tt, stopped, tasks)
  | Some id =>
      match tasks !! id with
      | None => None
      | Some ph =>
          let '(ph', res) := cancel_and_await true ph in
          let tasks' := <[id := ph']> tasks in
          match res with
          | None => None
          | Some (Failed e) => Some (Raise e, stopped, tasks')
          | Some _ =>
              Some (Ok tt,
                    {| _host := _host self; _ws_task := None; _ws_stop := true |},
                    tasks')
          end
      end
  end.
End PushChannel.

(** ** __init__.py: the job services, and button.py *)

Section Services.
Context {R : PyRuntime}.

(** An item of [hass.data[DOMAIN]]. *)
Record item : Type := { item_api : XToolApiClient; item_coordinator : coordinator }.

(** [hass.data.get(DOMAIN)]: absent, or the loaded entries by entry id,
    in the order in which they were set up. *)
Definition registry : Type := option (list (string * item)).

Definition _get_target_entries (reg : registry) (entry_id : option string)
  : result (list string) :=
  match reg with
  | None | Some [] => Raise (HomeAssistantError "No xTool integrations are loaded")
  | Some entries =>
      match entry_id with
      | Some id =>
          if negb (String.eqb id "") then
            match dict_lookup id entries with
            | Some _ => Ok [id]
            | None => Raise (HomeAssistantError ("Unknown xTool entry_id: " +:+ id))
            end
          else Ok (dict_keys entries)
      | None => Ok (dict_keys entries)
      end
  end.

(** [await coordinator.async_request_refresh()] *)
Definition async_request_refresh (c : coordinator) : io unit :=
  fun _ => (Ok tt, [RefreshRequested (entry_id c)]).

(** The body of the [for] loop of [_async_handle_job_service]. *)
Definition dispatch (reg : registry) (action : string) (target : string) : io unit :=
  match dict_lookup target (default [] reg) with
  | None => throw KeyError
  | Some it =>
      (_ <- async_cnc_action (item_api it) action ;;
       async_request_refresh (item_coordinator it))%io
  end.

Fixpoint for_each {A} (body : A -> io unit) (xs : list A) : io unit :=
  match xs with
  | [] => ret tt
  | x :: rest => (_ <- body x ;; for_each body rest)%io
  end.

Definition _async_handle_job_service (reg : registry) (entry_id : option string)
    (action : string) : io unit :=
  (entries <- lift (_get_target_entries reg entry_id) ;;
   for_each (dispatch reg action) entries)%io.

End Services.

(** ** Vocabulary of the statements *)

Section Vocabulary.
Context {R : PyRuntime}.

(** A response that [_get_json] turns down: none at all, one with a
    status of 400 or above, or one whose body fails to decode. *)
Definition rejected (out : http_outcome) : Prop :=
  match out with
  | NoResponse _ => True
  | Response status body => 400 <= status \/ exists e, body = inl e
  end.

Definition request_of (self : XToolApiClient) (path : string)
    (params : list (string * string)) : request :=
  {| url := base_url self +:+ path; query := params |}.

(** A world in which every request is answered by [out]. *)
Definition answering (out : http_outcome) (rank : nat -> nat) : world :=
  {| net := fun _ => out; finish := rank |}.

(** The failures of the four sub-calls of [async_get_snapshot], in the
    order of the arguments of [gather], and their requests. *)
Definition subcall_failures (self : XToolApiClient) (w : world) : list (option exn) :=
  [failure (outcome (async_get_progress self) w);
   failure (outcome (async_get_working_state self) w);
   failure (outcome (async_get_peripheral_status self) w);
   failure (outcome (async_get_machine_type self) w)].

Definition subcall_requests (self : XToolApiClient) : list request :=
  [request_of self "/progress" [];
   request_of self "/system" [("action", "get_working_sta")];
   request_of self "/peripherystatus" [];
   request_of self "/getmachinetype" []].

(** The table of the specification for the working-state label. *)
Definition working_state_label (raw : string) : string :=
  if String.eqb raw "0" then "idle"
  else if String.eqb raw "1" then "running_api"
  else if String.eqb raw "2" then "running_button"
  else "unknown".
(** The message of the last push among [evs], if any. *)
Fixpoint last_push (evs : list event) : option string :=
  match evs with
  | [] => None
  | Poll _ :: rest => last_push rest
  | Push message :: rest =>
      match last_push rest with
      | Some later => Some later
      | None => Some message
      end
  end.
(** What one dispatch of a control action does: the request to
    [/cnc/data?action=<action>] of the entry's client, then the refresh
    request to the entry's coordinator. *)
Definition cnc_request (self : XToolApiClient) (action : string) : request :=
  request_of self "/cnc/data" [("action", action)].

Definition dispatch_effects (action : string) (it : item) : list effect :=
  [HttpGet (cnc_request (item_api it) action);
   RefreshRequested (entry_id (item_coordinator it))].
(** The outcomes of [recvfrom] that the receive loop gets to see: those
    before the first time-out. *)
Fixpoint heard (rs : list recv_outcome) : list recv_outcome :=
  match rs with
  | [] => []
  | RecvTimeout :: _ => []
  | r :: rest => r :: heard rest
  end.

(** A datagram on which [json.loads] raises [JSONDecodeError], or that
    decodes to a JSON object. *)
Definition object_or_garbage (r : recv_outcome) : Prop :=
  match r with
  | Datagram None | Datagram (Some (JObj _)) => True
  | _ => False
  end.

(** The host and device that a datagram contributes, if it is kept. *)
Definition kept (rid : Z) (r : recv_outcome) : option (string * device) :=
  match r with
  | Datagram (Some message) =>
      match accept rid message with
      | inr (Some entry) => Some entry
      | _ => None
      end
  | _ => None
  end.

(** The last binding of a key in a list of bindings. *)
Definition last_binding {V} (k : string) (l : list (string * V)) : option V :=
  dict_lookup k (reverse l).
(** The push-channel task of a client, if it has one, is a task of the
    event loop. *)
Definition client_wf (tasks : list ws_phase) (self : XToolApiClient) : Prop :=
  match _ws_task self with
  | Some id => is_Some (tasks !! id)
  | None => True
  end.
(** The resumptions that fit a phase: what the operation awaited in that
    phase can produce, and the cancellation. *)
Definition expects (ph : ws_phase) (r : resumption) : bool :=
  match ph, r with
  | Done _, _ => false
  | _, Cancel => true
  | Pending, Start => true
  | Connecting, (Connected | Failure | Crash _) => true
  | Receiving, (Message _ | StreamEnd | Failure | Crash _) => true
  | Closing, Closed => true
  | Sleeping, Wake => true
  | _, _ => false
  end.
(** A device whose bodies, when they decode, are JSON objects. *)
Definition object_bodies (w : world) : Prop :=
  forall r p, http_exchange (net w r) = inr p -> exists fields, p = JObj fields.
End Vocabulary.

(** ** A runtime to evaluate the model with

    Floats are IEEE binary64 numbers, as [spec_float]. Conversions from
    strings read plain decimal integers only, integral floats print as
    CPython prints them, and [strip] removes the ASCII blanks; the
    evaluations below stay within these. *)

Module Binary64.
Definition prec : Z := 53.
Definition emax : Z := 1024.

Definition of_int (n : Z) : result spec_float :=
  match binary_normalize prec emax n 0 false with
  | S754_infinity _ => Raise OverflowError
  | x => Ok x
  end.

Definition signed (s : bool) (mag : Z) : Z := if s then - mag else mag.

Definition to_int (x : spec_float) : result Z :=
  match x with
  | S754_zero _ => Ok 0
  | S754_infinity _ => Raise OverflowError
  | S754_nan => Raise ValueError
  | S754_finite s m e =>
      Ok (signed s (if 0 <=? e then Z.pos m * 2 ^ e else Z.pos m / 2 ^ (- e)))
  end.

Definition eq_int (x : spec_float) (n : Z) : bool :=
  match x with
  | S754_zero _ => n =? 0
  | S754_finite s m e =>
      if 0 <=? e then signed s (Z.pos m * 2 ^ e) =? n
      else (Z.pos m mod 2 ^ (- e) =? 0) && (signed s (Z.pos m / 2 ^ (- e)) =? n)
  | _ => false
  end.

Definition truthy (x : spec_float) : bool :=
  match x with
  | S754_zero _ => false
  | _ => true
  end.

Fixpoint digits (acc : Z) (s : string) : option Z :=
  match s with
  | EmptyString => Some acc
  | String c rest =>
      match Ascii.is_nat c with
      | Some d => digits (10 * acc + Z.of_nat d) rest
      | None => None
      end
  end.

Definition parse_int (s : string) : result Z :=
  match s with
  | EmptyString => Raise ValueError
  | String "-"%char (String _ _ as rest) =>
      match digits 0 rest with Some n => Ok (- n) | None => Raise ValueError end
  | _ => match digits 0 s with Some n => Ok n | None => Raise ValueError end
  end.

Definition repr (x : spec_float) : string :=
  match x with
  | S754_zero s => if s then "-0.0" else "0.0"
  | S754_infinity s => if s then "-inf" else "inf"
  | S754_nan => "nan"
  | S754_finite s m e =>
      if (0 <=? e) || (Z.pos m mod 2 ^ (- e) =? 0)
      then pretty (signed s (if 0 <=? e then Z.pos m * 2 ^ e else Z.pos m / 2 ^ (- e))) +:+ ".0"
      else pretty (signed s (Z.pos m)) +:+ "*2**" +:+ pretty e
  end.

Fixpoint repr_value (v : json spec_float) : string :=
  match v with
  | JNull => "None"
  | JBool true => "True"
  | JBool false => "False"
  | JInt n => pretty n
  | JFloat x => repr x
  | JStr s => "'" +:+ s +:+ "'"
  | JArr items =>
      "[" +:+ (fix go (l : list (json spec_float)) : string :=
                 match l with
                 | [] => ""
                 | [x] => repr_value x
                 | x :: rest => repr_value x +:+ ", " +:+ go rest
                 end) items +:+ "]"
  | JObj fields =>
      "{" +:+ (fix go (l : list (string * json spec_float)) : string :=
                 match l with
                 | [] => ""
                 | [(k, x)] => "'" +:+ k +:+ "': " +:+ repr_value x
                 | (k, x) :: rest => "'" +:+ k +:+ "': " +:+ repr_value x +:+ ", " +:+ go rest
                 end) fields +:+ "}"
  end.

Fixpoint lstrip (s : string) : string :=
  match s with
  | String c rest => if Ascii.is_space c then lstrip rest else s
  | EmptyString => EmptyString
  end.

Definition strip (s : string) : string := String.rev (lstrip (String.rev (lstrip s))).

#[global] Instance runtime : PyRuntime := {|
  pyfloat := spec_float;
  float_zero := S754_zero false;
  float_of_int := of_int;
  float_of_str := fun s => rbind (parse_int s) of_int;
  int_of_float := to_int;
  int_of_str := parse_int;
  float_eq_int := eq_int;
  float_truthy := truthy;
  repr_float := repr;
  repr_compound := repr_value;
  str_strip := strip
|}.
End Binary64.

(** ** Devices and registries to evaluate the model on *)

(** The float 45.0. *)
Definition f45 : spec_float := S754_finite false 6333186975989760 (-47).

(** A world in which the requests to the listed URLs get the listed
    outcomes, the others time out, and the awaitables of a [gather]
    complete in the order of its arguments. *)
Definition serving (answers : list (string * http_outcome)) : world :=
  {| net := fun r => default (NoResponse HTimeoutError) (dict_lookup (url r) answers);
     finish := id |}.

Definition laser : XToolApiClient := new_client "192.168.1.50".
Definition engraver : XToolApiClient := new_client "192.168.1.51".

(** The answers of a device at work, those of the end-to-end example of
    the specification. *)
Definition laser_answers : list (string * http_outcome) :=
  [("http://192.168.1.50:8080/progress",
    Response 200 (inr (JObj [("progress", JFloat f45); ("working", JInt 120000);
                             ("line", JInt 30)])));
   ("http://192.168.1.50:8080/system",
    Response 200 (inr (JObj [("result", JStr "ok"); ("working", JStr "1")])));
   ("http://192.168.1.50:8080/peripherystatus",
    Response 200 (inr (JObj [("sdCard", JInt 1); ("limitStopFlag", JInt 0)])));
   ("http://192.168.1.50:8080/getmachinetype",
    Response 200 (inr (JObj [("result", JStr "ok"); ("type", JStr "xTool D1")])));
   ("http://192.168.1.50:8080/cnc/data",
    Response 200 (inr (JObj [("result", JStr "ok")])))].

(** The same device, but answering [/getmachinetype] with a JSON array. *)
Definition array_answers : list (string * http_outcome) :=
  ("http://192.168.1.50:8080/getmachinetype", Response 200 (inr (JArr []))) :: laser_answers.

(** The same device, but not answering [/progress]. *)
Definition silent_answers : list (string * http_outcome) :=
  ("http://192.168.1.50:8080/progress", NoResponse HTimeoutError) :: laser_answers.

Definition laser_coordinator : coordinator := new_coordinator laser "entry-1" true.
Definition engraver_coordinator : coordinator := new_coordinator engraver "entry-2" true.

(** The snapshot of the end-to-end example. *)
Definition laser_snapshot : gmap string value :=
  list_to_map
    [("progress", JFloat f45); ("working", JInt 120000); ("line", JInt 30);
     ("working_state", JStr "1"); ("machine_type", JStr "xTool D1");
     ("peripheral_status", JObj [("sdCard", JInt 1); ("limitStopFlag", JInt 0)]);
     ("working_state_label", JStr "running_api")].

(** Two loaded entries; in [laser_answers] only the first device answers. *)
Definition laser_item : item :=
  {| item_api := laser; item_coordinator := laser_coordinator |}.
Definition engraver_item : item :=
  {| item_api := engraver; item_coordinator := engraver_coordinator |}.

Definition one_entry : list (string * item) := [("entry-1", laser_item)].
Definition two_entries : list (string * item) :=
  [("entry-2", engraver_item); ("entry-1", laser_item)].

(** Answers of both devices to a control action. *)
Definition both_answers : list (string * http_outcome) :=
  ("http://192.168.1.51:8080/cnc/data",
   Response 200 (inr (JObj [("result", JStr "fail")]))) :: laser_answers.

(** An advertisement of a device, as discovery receives it. *)
Definition advert (id : Z) (ip name : string) : recv_outcome :=
  Datagram (Some (JObj [("requestId", JInt id); ("ip", JStr ip); ("name", JStr name);
                        ("version", JStr "1.0")])).

Definition quiet_udp (rs : list recv_outcome) : udp :=
  {| request_id := 123456; socket_fails := false; setup_failure := None; received := rs |}.

(** A client whose push-channel task waits for the next message. *)
Definition listening : XToolApiClient :=
  {| _host := "192.168.1.50"; _ws_task := Some 0%nat; _ws_stop := false |}.

(** * Further parts of the integration *)

(** ** coordinator.py: the background listener *)

Section Listener.
Context {R : PyRuntime}.

Definition with_api (c : coordinator) (client : XToolApiClient) : coordinator :=
  {| api := client; entry_id := entry_id c; use_websocket := use_websocket c;
     data := data c; last_update_success := last_update_success c |}.

(** [XToolDataUpdateCoordinator.async_start] *)
Definition async_start (c : coordinator) (tasks : list ws_phase)
  : coordinator * list ws_phase :=
  if use_websocket c then
    let '(client, tasks') := async_start_ws (api c) tasks in (with_api c client, tasks')
  else (c, tasks).

(** [XToolDataUpdateCoordinator.async_stop]; [None] when the call does
    not come back. *)
Definition async_stop (c : coordinator) (tasks : list ws_phase)
  : option (result unit * coordinator * list ws_phase) :=
  match async_stop_ws (api c) tasks with
  | Some (r, client, tasks') => Some (r, with_api c client, tasks')
  | None => None
  end.

(** What happens on the event loop of one client: a call of
    [async_start_ws], a call of [async_stop_ws], or the resumption of
    one of the tasks, which reads the stop signal of the client. *)
Inductive client_op : Type :=
| DoStart
| DoStop
| DoResume (id : nat) (r : resumption).

Definition client_step (st : XToolApiClient * list ws_phase) (op : client_op)
  : XToolApiClient * list ws_phase :=
  match op with
  | DoStart => async_start_ws st.1 st.2
  | DoStop =>
      match async_stop_ws st.1 st.2 with
      | Some (_, self', tasks') => (self', tasks')
      | None => st
      end
  | DoResume id r =>
      match st.2 !! id with
      | Some ph => (st.1, <[id := (ws_resume (_ws_stop st.1) ph r).1]> st.2)
      | None => st
      end
  end.

Definition client_run (host : string) (ops : list client_op)
  : XToolApiClient * list ws_phase :=
  foldl client_step (new_client host, []) ops.

(** The texts of the frames of a connection up to its first close or
    error frame, each trimmed. *)
Fixpoint texts_before_close (msgs : list ws_msg) : list string :=
  match msgs with
  | [] => []
  | TEXT text :: rest => str_strip text :: texts_before_close rest
  | OtherType :: rest => texts_before_close rest
  | (CLOSED | ERROR) :: _ => []
  end.

(** The number of connection attempts that a task makes when it is run
    through a series of resumptions: the resumptions that fit its phase
    and take it into [ws_connect], from whatever phase, that of an
    earlier attempt included. *)
Fixpoint attempts (stop : bool) (ph : ws_phase) (rs : list resumption) : nat :=
  match rs with
  | [] => 0
  | r :: rest =>
      let ph' := (ws_resume stop ph r).1 in
      ((match ph' with
        | Connecting => if expects ph r then 1 else 0
        | _ => 0
        end) + attempts stop ph' rest)%nat
  end.

(** The number of times the task wakes from [asyncio.sleep]: the [Wake]
    resumptions that find it sleeping. *)
Fixpoint wakes (stop : bool) (ph : ws_phase) (rs : list resumption) : nat :=
  match rs with
  | [] => 0
  | r :: rest =>
      ((match ph, r with
        | Sleeping, Wake => 1
        | _, _ => 0
        end) + wakes stop (ws_resume stop ph r).1 rest)%nat
  end.



(** The client has a push-channel task that is running: [_ws_task]
    names a task of the loop that is not done. *)
Definition has_live_task (tasks : list ws_phase) (self : XToolApiClient) : Prop :=
  exists (id : nat) (ph : ws_phase),
    _ws_task self = Some id /\ tasks !! id = Some ph /\ forall res, ph ≠ Done res.

(** Every task that is not done is the client's. *)
Definition no_orphans (st : XToolApiClient * list ws_phase) : Prop :=
  client_wf st.2 st.1 /\
  forall j ph, st.2 !! j = Some ph -> task_done ph = false -> _ws_task st.1 = Some j.

(** A resumption that ends the task whatever the stop signal says. *)
Definition fatal (r : resumption) : bool :=
  match r with
  | Cancel | Crash _ => true
  | _ => false
  end.
End Listener.

(** ** Vocabulary of the further properties *)

Section PollVocabulary.
Context {R : PyRuntime}.

(** The keys of the dict that a poll cycle builds. *)
Definition POLL_KEYS : list string :=
  ["progress"; "working"; "line"; "working_state"; "machine_type";
   "peripheral_status"; "working_state_label"].

(** The snapshot of a coordinator as the entities read it:
    [coordinator.data or {}]. *)
Definition current_data (c : coordinator) : gmap string value :=
  match data c with
  | Some d => d
  | None => ∅
  end.
End PollVocabulary.

Section DiscoveryVocabulary.
Context {R : PyRuntime}.

(** The discovery whose socket delivers [rs]. *)
Definition hearing (u : udp) (rs : list recv_outcome) : udp :=
  {| request_id := request_id u; socket_fails := socket_fails u;
     setup_failure := setup_failure u; received := rs |}.

(** [dev] is what the loop makes of the reply [fields] to request [rid]. *)
Definition reply_of (rid : Z) (fields : list (string * value)) (dev : device) : Prop :=
  py_eq_int (default JNull (obj_lookup "requestId" fields)) rid = true /\
  host dev = str_strip (py_str (default (JStr "") (obj_lookup "ip" fields))) /\
  host dev ≠ "" /\
  name dev = py_str (default (JStr "xTool Laser") (obj_lookup "name" fields)) /\
  version dev = py_str (default (JStr "") (obj_lookup "version" fields)).

(** What the receive loop keeps: distinct hosts, each with a device of
    that host, none of them empty. *)
Definition found_wf (found : list (string * device)) : Prop :=
  NoDup (dict_keys found) /\
  Forall (fun entry => host entry.2 = entry.1 /\ entry.1 ≠ "") found.
End DiscoveryVocabulary.

(** ** binary_sensor.py *)

Section BinarySensors.
Context {R : PyRuntime}.

(** [x or {}] for the result [x] of a [dict.get]: [None] when the key is
    missing. *)
Definition or_empty_dict (x : option value) : value :=
  match x with
  | Some v => if py_truthy v then v else JObj []
  | None => JObj []
  end.

(** The [value_fn] of the binary sensor of [flag]:
    [bool((data.get("peripheral_status") or {}).get(flag, 0))]. *)
Definition flag_value_fn (flag : string) (d : gmap string value) : result bool :=
  (v <- py_get (or_empty_dict (d !! "peripheral_status")) flag (JInt 0) ;;
   Ok (py_truthy v))%result.

(** The descriptions: key and flag. *)
Definition BINARY_SENSORS : list (string * string) :=
  [("sd_card_inserted", "sdCard");
   ("limit_stop_enabled", "limitStopFlag");
   ("tilt_stop_enabled", "tiltStopFlag");
   ("moving_stop_enabled", "movingStopFlag")].

(** [XToolBinarySensor.is_on], for the sensor of [flag]: [bool] of a
    [bool] is that [bool]. *)
Definition is_on (c : coordinator) (flag : string) : result bool :=
  (b <- flag_value_fn flag (current_data c) ;; Ok b)%result.
End BinarySensors.

(** ** config_flow.py *)

Definition DEFAULT_NAME : string := "xTool Laser".
Definition DEFAULT_SCAN_INTERVAL : Z := 3.
Definition CONF_HOST : string := "host".
Definition CONF_NAME : string := "name".

(** The exceptions of the flow beside those of the library:
    [CannotConnect] of config_flow.py and [AbortFlow] of Home Assistant,
    both subclasses of [Exception]. A coroutine of the flow raises one
    of them by returning it on the left. *)
Inductive flow_exn : Type :=
| CannotConnect
| AbortFlow (reason : string).

(** The dict that [_validate_input] returns. *)
Record info : Type := {
  info_title : string;
  info_machine_type : string;
  info_mac : option string
}.

(** The results of a step. A form is given by its step, the choices of
    its host field when it has some ([vol.In]), the defaults of its
    fields and its errors; a created entry by the unique id of the flow
    at that moment, its title, its data and its two options. *)
Inductive FlowResult : Type :=
| ShowMenu (step_id : string) (menu_options : list string)
| ShowForm (step_id : string) (choices : option (list string))
           (defaults : list (string * string)) (errors : list (string * string))
| CreateEntry (unique_id title : string) (entry_data : list (string * string))
              (scan_interval : Z) (websocket : bool)
| AbortResult (reason : string).

(** What Home Assistant knows of the other flows and entries of the
    domain: the unique ids of the flows in progress and of the entries
    already configured. *)
Record flows : Type := { in_progress : list string; configured : list string }.

Section ConfigFlow.
Context {R : PyRuntime}.

Definition _validate_input (host_input name_input : string) : io (flow_exn + info) :=
  let client := new_client host_input in
  (ok <- async_ping client ;;
   if negb ok then ret (inl CannotConnect) else
   machine_type <- async_get_machine_type client ;;
   mac <- async_get_mac client ;;
   ret (inr {| info_title := name_input; info_machine_type := machine_type;
               info_mac := mac |}))%io.

(** The [try] statement around [_validate_input], up to its [else]:
    the value of [errors["base"]], or the validated information. *)
Definition try_validate (host_input name_input : string) (w : world)
  : (string + info) * list effect :=
  match _validate_input host_input name_input w with
  | (inr (inr i), t) => (inr i, t)
  | (inr (inl CannotConnect), t) => (inl "cannot_connect", t)
  | (inl XToolApiError, t) => (inl "cannot_connect", t)
  | (inr (inl (AbortFlow _)), t) | (inl _, t) => (inl "unknown", t)
  end.

(** [a or b] on strings. *)
Definition str_or (a b : string) : string := if String.eqb a "" then b else a.

(** [info["mac"] or host] *)
Definition mac_or (mac : option string) (host_input : string) : string :=
  match mac with
  | Some s => str_or s host_input
  | None => host_input
  end.

(** [async_set_unique_id], which aborts a flow whose unique id is that
    of a flow in progress, then [_abort_if_unique_id_configured]. *)
Definition set_unique_id (fl : flows) (uid : string) : option flow_exn :=
  if bool_decide (uid ∈ in_progress fl) then Some (AbortFlow "already_in_progress")
  else if bool_decide (uid ∈ configured fl) then Some (AbortFlow "already_configured")
  else None.

(** The [else] branch of the [try] statement. *)
Definition create_entry (fl : flows) (host_input name_input : string) (i : info)
  : flow_exn + FlowResult :=
  let uid := mac_or (info_mac i) host_input in
  match set_unique_id fl uid with
  | Some e => inl e
  | None =>
      inr (CreateEntry uid (name_input +:+ " (" +:+ info_machine_type i +:+ ")")
             [(CONF_HOST, host_input); (CONF_NAME, name_input)]
             DEFAULT_SCAN_INTERVAL true)
  end.

Definition async_step_user : FlowResult := ShowMenu "user" ["discover"; "manual"].

Definition manual_form (errors : list (string * string)) : FlowResult :=
  ShowForm "manual" None [(CONF_NAME, DEFAULT_NAME)] errors.

(** [user_input], when given, has its host and, by the default of the
    schema, its name. *)
Definition async_step_manual (fl : flows) (user_input : option (string * string))
  : io (flow_exn + FlowResult) :=
  fun w =>
    match user_input with
    | Some (host_input, name_input) =>
        match try_validate host_input name_input w with
        | (inr i, t) => (Ok (create_entry fl host_input name_input i), t)
        | (inl err, t) => (Ok (inr (manual_form [("base", err)])), t)
        end
    | None => (Ok (inr (manual_form [])), [])
    end.

(** [{item["host"]: item for item in devices if item.get("host")}] *)
Definition index_by_host (devices : list device) : list (string * device) :=
  foldl (fun found item =>
           if negb (String.eqb (host item) "") then dict_set (host item) item found
           else found)
        [] devices.

(** [sorted] on strings: the order of the code points, which on UTF-8
    encoded strings is that of the bytes. *)
Definition str_le (a b : string) : Prop := String.leb a b = true.

#[global] Instance str_le_dec (a b : string) : Decision (str_le a b) :=
  bool_eq_dec (String.leb a b) true.

Definition sorted (keys : list string) : list string := merge_sort str_le keys.

(** One call of [async_step_discover] on a flow whose [_discovered] is
    [discovered], with the socket behaving as [u] says if a discovery
    is made: what the call returns or raises, its effects, and
    [_discovered] afterwards. [user_input], when given, has its host
    and perhaps a name. *)
Definition async_step_discover (discovered : list (string * device)) (fl : flows)
    (u : udp) (user_input : option (string * option string)) (w : world)
  : result (flow_exn + FlowResult) * list effect * list (string * device) :=
  match
    match discovered with
    | [] => rbind (_discover_devices_sync u) (fun devices => Ok (index_by_host devices))
    | _ => Ok discovered
    end
  with
  | inl e => (Raise e, [], discovered)
  | inr [] => (Ok (inr (AbortResult "no_devices_found")), [], [])
  | inr ((h0, d0) :: rest) =>
      let found := (h0, d0) :: rest in
      let hosts := sorted (dict_keys found) in
      let form (errors : list (string * string)) : result (flow_exn + FlowResult) :=
        let default_host := hd h0 hosts in
        match dict_lookup default_host found with
        | None => Raise KeyError
        | Some dev =>
            Ok (inr (ShowForm "discover" (Some hosts)
                       [(CONF_HOST, default_host);
                        (CONF_NAME, str_or (name dev) DEFAULT_NAME)]
                       errors))
        end in
      match user_input with
      | None => (form [], [], found)
      | Some (chosen_host, given_name) =>
          let discovered_name : result string :=
            match dict_lookup chosen_host found with
            | None => Raise KeyError
            | Some dev => Ok (str_or (name dev) DEFAULT_NAME)
            end in
          match
            match given_name with
            | Some n => if String.eqb n "" then discovered_name else Ok n
            | None => discovered_name
            end
          with
          | inl e => (Raise e, [], found)
          | inr chosen_name =>
              match try_validate chosen_host chosen_name w with
              | (inr i, t) => (Ok (create_entry fl chosen_host chosen_name i), t, found)
              | (inl err, t) => (form [("base", err)], t, found)
              end
          end
      end
  end.
End ConfigFlow.

(** ** __init__.py: setting up and unloading an entry *)

Definition SERVICE_PAUSE_JOB : string := "pause_job".
Definition SERVICE_RESUME_JOB : string := "resume_job".
Definition SERVICE_STOP_JOB : string := "stop_job".

Definition JOB_SERVICES : list string :=
  [SERVICE_PAUSE_JOB; SERVICE_RESUME_JOB; SERVICE_STOP_JOB].

(** A config entry: its id, [entry.data["host"]] and
    [entry.options.get("use_websocket")]. The scan interval only sets
    the period of the poll cycles. *)
Record ConfigEntry : Type := {
  config_entry_id : string;
  config_host : string;
  option_use_websocket : option bool
}.

(** What the integration keeps in Home Assistant: [hass.data.get(DOMAIN)],
    the services of the domain, and the tasks of the event loop. *)
Record hass {R : PyRuntime} : Type := {
  hass_data : registry;
  services : list string;
  loop_tasks : list ws_phase
}.

(** How [async_setup_entry] ends: it returns [True], or the first
    refresh raises [ConfigEntryNotReady]. *)
Inductive setup_result : Type :=
| SetupDone
| ConfigEntryNotReady.

(** One thing that happens to the integration: an entry is set up in
    some world, or unloaded, Home Assistant unloading its platforms or
    failing to. *)
Inductive hass_op {R : PyRuntime} : Type :=
| SetUp (entry : ConfigEntry) (w : world)
| Unload (entry : ConfigEntry) (unload_ok : bool).

Section Setup.
Context {R : PyRuntime}.

Definition no_hass : hass := {| hass_data := None; services := []; loop_tasks := [] |}.

(** The item of a coordinator: [{"api": api, "coordinator": coordinator}],
    [api] being the client of the coordinator. *)
Definition item_of (c : coordinator) : item :=
  {| item_api := api c; item_coordinator := c |}.

(** [hass.services.async_register] unless [hass.services.has_service]. *)
Definition register_service (registered : list string) (service : string) : list string :=
  if bool_decide (service ∈ registered) then registered else registered ++ [service].

Definition _async_register_services (registered : list string) : list string :=
  foldl register_service registered JOB_SERVICES.

Fixpoint remove_service (service : string) (registered : list string) : list string :=
  match registered with
  | [] => []
  | s :: rest =>
      if String.eqb s service then remove_service service rest
      else s :: remove_service service rest
  end.

Definition _async_unregister_services (registered : list string) : list string :=
  foldl (fun acc service =>
           if bool_decide (service ∈ acc) then remove_service service acc else acc)
        registered JOB_SERVICES.

(** [d.pop(k)] for a key that is there. *)
Fixpoint dict_pop {V} (k : string) (d : list (string * V)) : list (string * V) :=
  match d with
  | [] => []
  | (k', v) :: rest => if String.eqb k k' then rest else (k', v) :: dict_pop k rest
  end.

(** [async_setup_entry]. The coordinator in [hass.data] is the object
    that is refreshed and started afterwards: the item holds it as it is
    when the call ends. [async_config_entry_first_refresh] raises
    [ConfigEntryNotReady] when the refresh fails. Forwarding the setup
    to the platforms and adding the update listener change nothing of
    what is kept here. *)
Definition async_setup_entry (h : hass) (entry : ConfigEntry) (w : world)
  : setup_result * hass * list effect :=
  let entries := default [] (hass_data h) in
  let use_ws := default true (option_use_websocket entry) in
  let client := new_client (config_host entry) in
  let c := new_coordinator client (config_entry_id entry) use_ws in
  let registered := _async_register_services (services h) in
  let '(c1, t) := async_refresh c w in
  if last_update_success c1 then
    let '(c2, tasks') := async_start c1 (loop_tasks h) in
    (SetupDone,
     {| hass_data := Some (dict_set (config_entry_id entry) (item_of c2) entries);
        services := registered; loop_tasks := tasks' |}, t)
  else
    (ConfigEntryNotReady,
     {| hass_data := Some (dict_set (config_entry_id entry) (item_of c1) entries);
        services := registered; loop_tasks := loop_tasks h |}, t).

(** [async_unload_entry], [unload_ok] being what
    [async_unload_platforms] returns; [None] when the call does not
    come back. *)
Definition async_unload_entry (h : hass) (entry : ConfigEntry) (unload_ok : bool)
  : option (result bool * hass) :=
  let entries := default [] (hass_data h) in
  match dict_lookup (config_entry_id entry) entries with
  | None => Some (Raise KeyError, h)
  | Some it =>
      match async_stop (item_coordinator it) (loop_tasks h) with
      | None => None
      | Some (r, c', tasks') =>
          let stopped := dict_set (config_entry_id entry) (item_of c') entries in
          match r with
          | inl e =>
              Some (Raise e, {| hass_data := Some stopped; services := services h;
                                loop_tasks := tasks' |})
          | inr _ =>
              if unload_ok then
                let remaining := dict_pop (config_entry_id entry) stopped in
                Some (Ok true,
                      {| hass_data := Some remaining;
                         services := match remaining with
                                     | [] => _async_unregister_services (services h)
                                     | _ => services h
                                     end;
                         loop_tasks := tasks' |})
              else
                Some (Ok false, {| hass_data := Some stopped; services := services h;
                                   loop_tasks := tasks' |})
          end
      end
  end.

Definition hass_step (h : hass) (op : hass_op) : hass :=
  match op with
  | SetUp entry w => (async_setup_entry h entry w).1.2
  | Unload entry unload_ok =>
      match async_unload_entry h entry unload_ok with
      | Some (_, h') => h'
      | None => h
      end
  end.

Definition hass_run (ops : list hass_op) : hass := foldl hass_step no_hass ops.

(** The entries that are loaded. *)
Definition loaded (h : hass) : list (string * item) := default [] (hass_data h).
End Setup.

(** ** Further devices and entries to evaluate the model on *)

(** The device at work, answering the ping as well. *)
Definition validating_answers : list (string * http_outcome) :=
  ("http://192.168.1.50:8080/ping",
   Response 200 (inr (JObj [("result", JStr "ok")]))) :: laser_answers.

Definition laser_entry : ConfigEntry :=
  {| config_entry_id := "entry-1"; config_host := "192.168.1.50";
     option_use_websocket := None |}.

Definition laser_device : device :=
  {| host := "192.168.1.50"; name := "first"; version := "1.0" |}.

Definition no_flows : flows := {| in_progress := []; configured := [] |}.

(** A discovery that hears one advertisement before the time-out. *)
Definition one_advert : udp := quiet_udp [advert 123456 "192.168.1.50" "first"; RecvTimeout].

(** ** aiohttp: the body of a response *)

(** What a body is to [response.json(content_type=None)]: it cannot be
    read; it is empty or blank, for which aiohttp returns [None]
    without calling [json.loads]; it is not blank and [json.loads]
    turns it down; or it is the text of a JSON value. *)
Inductive body_text {R : PyRuntime} : Type :=
| Unreadable (e : http_failure)
| Blank
| NotJson
| Json (v : value).

Section Bodies.
Context {R : PyRuntime}.

Definition response_json (b : body_text) : http_failure + value :=
  match b with
  | Unreadable e => inl e
  | Blank => inr JNull
  | NotJson => inl HValueError
  | Json v => inr v
  end.

(** A response with status [status] and body [b]. *)
Definition responds (status : Z) (b : body_text) : http_outcome :=
  Response status (response_json b).
End Bodies.

(** ** Home Assistant: the refresh requests of a coordinator *)




Section RefreshRequests.
Context {R : PyRuntime}.






End RefreshRequests.
(** * Properties *)

Lemma rbind_ok {A B} (a : A) (k : A -> result B) : rbind (Ok a) k = k a.
Proof. reflexivity. Qed.

Lemma rbind_raise {A B} (e : exn) (k : A -> result B) : rbind (Raise e) k = Raise e.
Proof. reflexivity. Qed.

(** ** Coroutines *)

Section IoFacts.
Context {R : PyRuntime}.

Lemma outcome_bind {A B} (m : io A) (k : A -> io B) (w : world) :
  outcome (bind m k) w = rbind (outcome m w) (fun a => outcome (k a) w).
Proof.
  unfold outcome, bind. destruct (m w) as [[e|a] t]; simpl; [done|].
  by destruct (k a w).
Qed.

Lemma trace_bind_raise {A B} (m : io A) (k : A -> io B) (w : world) e :
  outcome m w = Raise e -> trace (bind m k) w = trace m w.
Proof.
  unfold outcome, trace, bind, Raise. destruct (m w) as [[e'|a] t]; simpl; [done|].
  discriminate.
Qed.

Lemma trace_bind_ok {A B} (m : io A) (k : A -> io B) (w : world) a :
  outcome m w = Ok a -> trace (bind m k) w = trace m w ++ trace (k a) w.
Proof.
  unfold outcome, trace, bind, Ok. destruct (m w) as [[e'|a'] t]; simpl; [discriminate|].
  intros [= ->]. by destruct (k a w).
Qed.

Lemma io_eta {A} (m : io A) (w : world) : m w = (outcome m w, trace m w).
Proof. unfold outcome, trace. by destruct (m w). Qed.

Lemma outcome_lift {A} (r : result A) (w : world) : outcome (lift r) w = r.
Proof. done. Qed.

Lemma outcome_ret {A} (a : A) (w : world) : outcome (ret a) w = Ok a.
Proof. done. Qed.

Lemma http_exchange_rejected out :
  rejected out <-> exists e, http_exchange out = inl e.
Proof.
  destruct out as [e|status body]; simpl.
  - split; eauto.
  - unfold raise_for_status. destruct (Z.leb_spec 400 status) as [Hs|Hs].
    + split; eauto.
    + split.
      * intros [?|[e ->]]; [lia|eauto].
      * intros [e ->]. eauto.
Qed.

Lemma get_json_trace self path params w :
  trace (_get_json self path params) w = [HttpGet (request_of self path params)].
Proof. done. Qed.

Lemma get_json_rejected self path params w :
  rejected (net w (request_of self path params)) ->
  outcome (_get_json self path params) w = Raise XToolApiError.
Proof.
  intros [e He]%http_exchange_rejected. unfold outcome, _get_json; simpl.
  fold (request_of self path params). by rewrite He.
Qed.

Lemma get_json_accepted self path params w payload :
  outcome (_get_json self path params) w = Ok payload <->
  http_exchange (net w (request_of self path params)) = inr payload.
Proof.
  unfold outcome, _get_json; simpl. fold (request_of self path params).
  destruct (http_exchange _) as [e|p]; unfold Ok, Raise; split; congruence.
Qed.

(** [_get_json] raises nothing but [XToolApiError]. *)
Lemma get_json_raises self path params w e :
  outcome (_get_json self path params) w = Raise e -> e = XToolApiError.
Proof.
  unfold outcome, _get_json; simpl.
  destruct (http_exchange _); unfold Ok, Raise; congruence.
Qed.

(** A method that starts with a request fails as the request does. *)
Lemma request_then_rejected {A} self path params (k : value -> io A) w :
  rejected (net w (request_of self path params)) ->
  outcome (bind (_get_json self path params) k) w = Raise XToolApiError.
Proof. intros H. by rewrite outcome_bind, get_json_rejected. Qed.
End IoFacts.

(** ** gather *)

Section GatherFacts.
Context {R : PyRuntime}.

Lemma earliest_failure rank errs : forall i r e,
  earliest rank i errs = Some (r, e) ->
  exists k, errs !! k = Some (Some e) /\ r = rank (i + k)%nat /\
    forall j e', errs !! j = Some (Some e') -> (rank (i + k) <= rank (i + j))%nat.
Proof.
  induction errs as [|o rest IH]; intros i r e; simpl; [done|].
  destruct o as [e0|].
  - destruct (earliest rank (S i) rest) as [[r1 e1]|] eqn:Hlater.
    + destruct (IH _ _ _ Hlater) as (k & Hk & -> & Hmin).
      destruct (Nat.ltb_spec (rank (S i + k)%nat) (rank i)) as [Hlt|Hge]; intros [= <- <-].
      * exists (S k). split; [done|]. split; [f_equal; lia|].
        intros [|j] e' Hj; simpl in Hj.
        -- replace (i + 0)%nat with i by lia.
           replace (i + S k)%nat with (S i + k)%nat by lia. lia.
        -- replace (i + S k)%nat with (S i + k)%nat by lia.
           replace (i + S j)%nat with (S i + j)%nat by lia. eauto.
      * exists 0%nat. split; [done|]. split; [f_equal; lia|].
        intros [|j] e' Hj; simpl in Hj; [done|].
        specialize (Hmin j e' Hj).
        replace (i + 0)%nat with i by lia.
        replace (i + S j)%nat with (S i + j)%nat by lia. lia.
    + intros [= <- <-]. exists 0%nat. split; [done|]. split; [f_equal; lia|].
      intros [|j] e' Hj; simpl in Hj; [done|]. exfalso.
      clear -Hlater Hj. revert i j Hlater Hj.
      induction rest as [|o rest IH]; intros i j; [by destruct j|]. simpl.
      destruct o as [e1|].
      * destruct (earliest rank (S (S i)) rest) as [[r2 e2]|]; [|done].
        by destruct (r2 <? rank (S i))%nat.
      * destruct j as [|j]; simpl; [done|]. eauto.
  - intros Hlater. destruct (IH _ _ _ Hlater) as (k & Hk & -> & Hmin).
    exists (S k). split; [done|]. split; [f_equal; lia|].
    intros [|j] e' Hj; simpl in Hj; [done|].
    replace (i + S k)%nat with (S i + k)%nat by lia.
    replace (i + S j)%nat with (S i + j)%nat by lia. eauto.
Qed.

Lemma earliest_none rank errs : forall i,
  earliest rank i errs = None -> forall k e, errs !! k ≠ Some (Some e).
Proof.
  induction errs as [|o rest IH]; intros i Hnone k e; [by destruct k|].
  simpl in Hnone. destruct o as [e0|].
  - destruct (earliest rank (S i) rest) as [[r1 e1]|]; [|done].
    by destruct (r1 <? rank i)%nat.
  - destruct k as [|k]; simpl; [done|]. eauto.
Qed.

Lemma gather4_outcome {A B C D} (a : io A) (b : io B) (c : io C) (d : io D) w :
  outcome (gather4 a b c d) w =
  match earliest (finish w) 0
          [failure (outcome a w); failure (outcome b w);
           failure (outcome c w); failure (outcome d w)] with
  | Some (_, e) => Raise e
  | None =>
      match outcome a w, outcome b w, outcome c w, outcome d w with
      | inr x, inr y, inr z, inr u => Ok (x, y, z, u)
      | inl e, _, _, _ | _, inl e, _, _ | _, _, inl e, _ | _, _, _, inl e => Raise e
      end
  end.
Proof.
  unfold outcome, gather4.
  destruct (a w) as [ra ta], (b w) as [rb tb], (c w) as [rc tc], (d w) as [rd td].
  done.
Qed.

Lemma gather4_trace {A B C D} (a : io A) (b : io B) (c : io C) (d : io D) w :
  trace (gather4 a b c d) w = trace a w ++ trace b w ++ trace c w ++ trace d w.
Proof.
  unfold trace, gather4.
  destruct (a w) as [ra ta], (b w) as [rb tb], (c w) as [rc tc], (d w) as [rd td].
  done.
Qed.

(** When all four return, [gather] returns their results. *)
Lemma gather4_returns {A B C D} (a : io A) (b : io B) (c : io C) (d : io D) w x y z u :
  outcome a w = Ok x -> outcome b w = Ok y -> outcome c w = Ok z -> outcome d w = Ok u ->
  outcome (gather4 a b c d) w = Ok (x, y, z, u).
Proof. intros Ha Hb Hc Hd. rewrite gather4_outcome, Ha, Hb, Hc, Hd. done. Qed.

(** When one of them raises, [gather] raises the exception of the one
    that is first to fail. *)
Lemma gather4_raises {A B C D} (a : io A) (b : io B) (c : io C) (d : io D) w :
  let failures := [failure (outcome a w); failure (outcome b w);
                   failure (outcome c w); failure (outcome d w)] in
  (exists i e, failures !! i = Some (Some e)) ->
  exists i e, failures !! i = Some (Some e) /\
    (forall j e', failures !! j = Some (Some e') -> (finish w i <= finish w j)%nat) /\
    outcome (gather4 a b c d) w = Raise e.
Proof.
  intros failures (i & e & Hi). rewrite gather4_outcome. fold failures.
  destruct (earliest (finish w) 0 failures) as [[r e1]|] eqn:Hearliest.
  - destruct (earliest_failure _ _ _ _ _ Hearliest) as (k & Hk & _ & Hmin).
    exists k, e1. eauto.
  - by destruct (earliest_none _ _ _ Hearliest i e).
Qed.

(** It returns only if all four do. *)
Lemma gather4_returned {A B C D} (a : io A) (b : io B) (c : io C) (d : io D) w x y z u :
  outcome (gather4 a b c d) w = Ok (x, y, z, u) ->
  outcome a w = Ok x /\ outcome b w = Ok y /\ outcome c w = Ok z /\ outcome d w = Ok u.
Proof.
  rewrite gather4_outcome.
  destruct (earliest _ _ _) as [[r e]|]; [discriminate|].
  destruct (outcome a w), (outcome b w), (outcome c w), (outcome d w);
    unfold Ok, Raise; try discriminate.
  by intros [= -> -> -> ->].
Qed.
End GatherFacts.

(** ** The HTTP methods *)

Section MethodFacts.
Context {R : PyRuntime}.

Lemma snapshot_of_gather self w e :
  outcome (gather4 (async_get_progress self) (async_get_working_state self)
             (async_get_peripheral_status self) (async_get_machine_type self)) w
    = Raise e ->
  outcome (async_get_snapshot self) w = Raise e.
Proof. intros H. unfold async_get_snapshot. by rewrite outcome_bind, H. Qed.

(** [async_get_snapshot] raises as soon as a sub-call does, and then it
    raises the exception of the sub-call that is first to fail. *)
Lemma snapshot_raises self w :
  (exists i e, subcall_failures self w !! i = Some (Some e)) ->
  exists i e, subcall_failures self w !! i = Some (Some e) /\
    (forall j e', subcall_failures self w !! j = Some (Some e') ->
                  (finish w i <= finish w j)%nat) /\
    outcome (async_get_snapshot self) w = Raise e.
Proof.
  intros H. destruct (gather4_raises _ _ _ _ w H) as (i & e & Hi & Hmin & Hraise).
  exists i, e. split; [done|]. split; [done|]. by apply snapshot_of_gather.
Qed.

Lemma get_json_failure self path params w e :
  failure (outcome (_get_json self path params) w) = Some e ->
  e = XToolApiError /\ rejected (net w (request_of self path params)).
Proof.
  destruct (outcome (_get_json self path params) w) as [e1|p] eqn:Hj; simpl; [|discriminate].
  intros [= <-]. apply get_json_raises in Hj as Heq. subst e1. split; [done|].
  apply http_exchange_rejected. unfold outcome, _get_json in Hj. simpl in Hj.
  fold (request_of self path params) in Hj.
  destruct (http_exchange _); [eauto|discriminate].
Qed.

(** The methods that read a field off the payload and print it. *)
Lemma get_field_failure self path params key dflt w e :
  failure (outcome (bind (_get_json self path params) (fun payload =>
                    bind (lift (py_get payload key dflt)) (fun t =>
                    ret (py_str t)))) w) = Some e ->
  (e = XToolApiError /\ rejected (net w (request_of self path params))) \/
  (e = AttributeError /\ ~ rejected (net w (request_of self path params)) /\
   exists p, http_exchange (net w (request_of self path params)) = inr p /\
             forall fields, p ≠ JObj fields).
Proof.
  rewrite outcome_bind.
  destruct (outcome (_get_json self path params) w) as [e1|p] eqn:Hj; simpl.
  - intros [= <-]. left. apply get_json_failure. by rewrite Hj.
  - apply get_json_accepted in Hj. rewrite outcome_bind, outcome_lift.
    destruct p; simpl; try discriminate; intros [= <-]; right; (split; [done|]);
      (split; [intros [e' He']%http_exchange_rejected; congruence|]);
      eexists; (split; [exact Hj|done]).
Qed.

(** A sub-call raises [XToolApiError] exactly when its request is
    turned down; the other failure is that of [payload.get] on a
    payload that is not a dict. *)
Lemma subcall_failure_kind self w i e req :
  subcall_failures self w !! i = Some (Some e) ->
  subcall_requests self !! i = Some req ->
  (e = XToolApiError /\ rejected (net w req)) \/
  (e = AttributeError /\ ~ rejected (net w req) /\
   exists p, http_exchange (net w req) = inr p /\ forall fields, p ≠ JObj fields).
Proof.
  intros Hi Hreq.
  destruct i as [|[|[|[|i]]]]; simpl in Hi, Hreq; try discriminate;
    injection Hi as Hi; injection Hreq as <-.
  - left. by apply get_json_failure.
  - by apply get_field_failure in Hi.
  - left. by apply get_json_failure.
  - by apply get_field_failure in Hi.
Qed.
End MethodFacts.

(** ** The poll cycle *)

Section PollFacts.
Context {R : PyRuntime}.

Lemma as_update_failed_outcome {A} (m : io A) w :
  outcome (as_update_failed m) w =
  match outcome m w with
  | inl XToolApiError => Raise UpdateFailed
  | other => other
  end.
Proof.
  unfold outcome, as_update_failed. destruct (m w) as [[e|a] t]; [|done].
  by destruct e.
Qed.

(** A poll cycle whose snapshot fails raises: [UpdateFailed] for an
    [XToolApiError], the exception itself otherwise. *)
Lemma update_data_raises c w e :
  outcome (async_get_snapshot (api c)) w = Raise e ->
  outcome (_async_update_data c) w =
  Raise (if decide (e = XToolApiError) then UpdateFailed else e).
Proof.
  intros H. unfold _async_update_data.
  rewrite outcome_bind, as_update_failed_outcome, H. by destruct e.
Qed.

(** A refresh whose poll cycle raises leaves the snapshot as it was. *)
Lemma refresh_failed c w :
  raises (outcome (_async_update_data c) w) ->
  data (fst (async_refresh c w)) = data c /\
  last_update_success (fst (async_refresh c w)) = false.
Proof.
  intros [e He]. unfold async_refresh. rewrite (io_eta (_async_update_data c) w), He. done.
Qed.

Lemma refresh_succeeded c w d :
  outcome (_async_update_data c) w = Ok d ->
  data (fst (async_refresh c w)) = Some d /\
  last_update_success (fst (async_refresh c w)) = true.
Proof.
  intros He. unfold async_refresh. rewrite (io_eta (_async_update_data c) w), He. done.
Qed.

(** The shape of a snapshot that [async_get_snapshot] returns. *)
Lemma snapshot_returned self w fresh :
  outcome (async_get_snapshot self) w = Ok fresh ->
  exists p working line working_state machine_type peripheral,
    outcome (async_get_working_state self) w = Ok working_state /\
    outcome (async_get_machine_type self) w = Ok machine_type /\
    outcome (async_get_peripheral_status self) w = Ok peripheral /\
    fresh = list_to_map
              [("progress", JFloat p); ("working", JInt working); ("line", JInt line);
               ("working_state", JStr working_state);
               ("machine_type", JStr machine_type);
               ("peripheral_status", peripheral)].
Proof.
  unfold async_get_snapshot. rewrite outcome_bind.
  destruct (outcome (gather4 _ _ _ _) w) as [e|[[[progress ws] per] mt]] eqn:Hg;
    [discriminate|].
  apply gather4_returned in Hg as (_ & Hws & Hper & Hmt). simpl.
  rewrite outcome_bind, outcome_lift.
  destruct (rbind (py_get progress "progress" _) py_float) as [e|p]; [discriminate|]. simpl.
  rewrite outcome_bind, outcome_lift.
  destruct (rbind (py_get progress "working" _) py_int) as [e|wk]; [discriminate|]. simpl.
  rewrite outcome_bind, outcome_lift.
  destruct (rbind (py_get progress "line" _) py_int) as [e|ln]; [discriminate|]. simpl.
  rewrite outcome_ret. intros [= <-]. by exists p, wk, ln, ws, mt, per.
Qed.

Lemma working_state_map_get raw :
  table_get WORKING_STATE_MAP (JStr raw) "unknown" = Ok (working_state_label raw).
Proof.
  unfold table_get, WORKING_STATE_MAP, working_state_label. simpl. f_equal.
  destruct (String.eqb_spec raw "0") as [->|H0]; [done|].
  rewrite lookup_insert_ne by done.
  destruct (String.eqb_spec raw "1") as [->|H1]; [done|].
  rewrite lookup_insert_ne by done.
  destruct (String.eqb_spec raw "2") as [->|H2]; [done|].
  rewrite lookup_insert_ne by done. done.
Qed.

(** What a successful poll cycle returns: the fresh snapshot with its
    label, and with the push-event field of the current snapshot when
    there is one. *)
Lemma update_data_returned c w d :
  outcome (_async_update_data c) w = Ok d ->
  exists fresh raw,
    outcome (async_get_snapshot (api c)) w = Ok fresh /\
    fresh !! "working_state" = Some (JStr raw) /\
    fresh !! ATTR_WS_STATE = None /\
    let labelled := <["working_state_label" := JStr (working_state_label raw)]> fresh in
    d = match ws_state c with
        | Some ws => <[ATTR_WS_STATE := ws]> labelled
        | None => labelled
        end.
Proof.
  unfold _async_update_data. rewrite outcome_bind, as_update_failed_outcome.
  destruct (outcome (async_get_snapshot (api c)) w) as [e|fresh] eqn:Hs;
    [by destruct e|].
  cbn [rbind]. destruct (snapshot_returned _ _ _ Hs) as (p & wk & ln & ws & mt & per & _ & _ & _ & ->).
  rewrite outcome_bind, outcome_lift.
  set (fresh := list_to_map _ : gmap string value).
  assert (Hraw : fresh !! "working_state" = Some (JStr ws)) by done.
  rewrite Hraw. cbn [default from_option id]. rewrite working_state_map_get, rbind_ok.
  rewrite outcome_ret. intros [= <-].
  exists fresh, ws. split; [done|]. split; [done|]. split; [done|].
  unfold ws_state. simpl. destruct (data c) as [old|]; simpl; [|done].
  unfold dict_truthy. destruct (old !! ATTR_WS_STATE) as [v|] eqn:Hold.
  - destruct (Nat.eqb_spec (size old) 0) as [Hsz|Hsz]; [|done].
    apply map_size_empty_iff in Hsz. subst old. by rewrite lookup_empty in Hold.
  - by destruct (negb _).
Qed.
End PollFacts.

(** ** Failures of the HTTP methods *)

Section ErrorFacts.
Context {R : PyRuntime}.

Lemma answering_rejected out rank r : rejected out -> rejected (net (answering out rank) r).
Proof. done. Qed.

(** When every request is turned down, all four sub-calls of the
    snapshot raise [XToolApiError], and so does the snapshot. *)
Lemma snapshot_all_rejected self w :
  (forall r, rejected (net w r)) ->
  outcome (async_get_snapshot self) w = Raise XToolApiError.
Proof.
  intros Hrej.
  assert (Hall : subcall_failures self w =
                 [Some XToolApiError; Some XToolApiError;
                  Some XToolApiError; Some XToolApiError]).
  { unfold subcall_failures, async_get_progress, async_get_working_state,
      async_get_peripheral_status, async_get_machine_type.
    by rewrite !request_then_rejected, !get_json_rejected by apply Hrej. }
  destruct (snapshot_raises self w) as (i & e & Hi & _ & Hraise).
  { exists 0%nat, XToolApiError. by rewrite Hall. }
  rewrite Hall in Hi.
  destruct i as [|[|[|[|i]]]]; simpl in Hi; try discriminate; by injection Hi as <-.
Qed.

(** A sub-call of the snapshot whose request is turned down fails with
    [XToolApiError]. *)
Lemma subcall_rejected self w i req :
  subcall_requests self !! i = Some req ->
  rejected (net w req) ->
  subcall_failures self w !! i = Some (Some XToolApiError).
Proof.
  intros Hreq Hrej.
  destruct i as [|[|[|[|i]]]]; simpl in Hreq; try discriminate;
    injection Hreq as <-; simpl;
    unfold async_get_progress, async_get_working_state, async_get_peripheral_status,
      async_get_machine_type;
    by rewrite ?request_then_rejected, ?get_json_rejected.
Qed.

(** C3, as amended. The responses that [_get_json] turns down are the
    time-outs and transport failures, the responses of status 400 or
    above, and those whose body cannot be read or is not blank and
    fails to decode; an empty or blank body is not among them. In any
    world, whatever the other requests get, every method of the client
    that makes one request (ping, machine type, MAC, progress, working
    state, peripheral status, control action) raises [XToolApiError],
    and so returns no value, when its request is turned down. The
    snapshot raises, and returns no value, as soon as one of its four
    requests is turned down; it raises [XToolApiError] when moreover
    the bodies of its requests that do decode are JSON objects, and in
    particular when all four requests are turned down. *)
Theorem C3_rejected_response_raises_api_error
    (self : XToolApiClient) (action : string) (w : world) :
  let turned_down path params := rejected (net w (request_of self path params)) in
  (turned_down "/ping" [] -> outcome (async_ping self) w = Raise XToolApiError) /\
  (turned_down "/getmachinetype" [] ->
   outcome (async_get_machine_type self) w = Raise XToolApiError) /\
  (turned_down "/system" [("action", "mac")] ->
   outcome (async_get_mac self) w = Raise XToolApiError) /\
  (turned_down "/progress" [] -> outcome (async_get_progress self) w = Raise XToolApiError) /\
  (turned_down "/system" [("action", "get_working_sta")] ->
   outcome (async_get_working_state self) w = Raise XToolApiError) /\
  (turned_down "/peripherystatus" [] ->
   outcome (async_get_peripheral_status self) w = Raise XToolApiError) /\
  (turned_down "/cnc/data" [("action", action)] ->
   outcome (async_cnc_action self action) w = Raise XToolApiError) /\
  ((exists req, req ∈ subcall_requests self /\ rejected (net w req)) ->
   raises (outcome (async_get_snapshot self) w) /\
   ((forall req p, req ∈ subcall_requests self -> http_exchange (net w req) = inr p ->
                   exists fields, p = JObj fields) ->
    outcome (async_get_snapshot self) w = Raise XToolApiError) /\
   ((forall req, req ∈ subcall_requests self -> rejected (net w req)) ->
    outcome (async_get_snapshot self) w = Raise XToolApiError)) /\
  (forall status b,
     rejected (responds status b) <->
     400 <= status \/ b = NotJson \/ exists e, b = Unreadable e) /\
  (forall e, rejected (NoResponse e)).
Proof.
  intros turned_down. unfold turned_down.
  split; [by apply request_then_rejected|]. split; [by apply request_then_rejected|].
  split; [by apply request_then_rejected|]. split; [by apply get_json_rejected|].
  split; [by apply request_then_rejected|]. split; [by apply get_json_rejected|].
  split; [by apply request_then_rejected|].
  split; [|split; [|done]].
  - intros (req & Hin & Hrej).
    apply list_elem_of_lookup in Hin as [i Hi].
    pose proof (subcall_rejected self w i req Hi Hrej) as Hfail.
    destruct (snapshot_raises self w) as (k & e & Hk & _ & Hraise); [by eauto|].
    assert (Hreq : exists req', subcall_requests self !! k = Some req').
    { destruct k as [|[|[|[|k]]]]; simpl in *; eauto; discriminate. }
    destruct Hreq as [req' Hreq'].
    split; [by exists e|]. split.
    + intros Hobj.
      destruct (subcall_failure_kind _ _ _ _ _ Hk Hreq') as [[-> _]|(_ & _ & p & Hp & Hno)];
        [done|].
      destruct (Hobj req' p) as [fields ->]; [by eapply list_elem_of_lookup_2|done|].
      by destruct (Hno fields).
    + intros Hall.
      destruct (subcall_failure_kind _ _ _ _ _ Hk Hreq') as [[-> _]|(_ & Hnot & _)]; [done|].
      destruct Hnot. apply Hall. by eapply list_elem_of_lookup_2.
  - intros status b. unfold responds. simpl. split.
    + intros [Hs|[e He]]; [by left|]. right.
      destruct b; simpl in He; try discriminate; [right; by eexists|by left].
    + intros [Hs|[->|[e ->]]]; [by left| |]; right; by eexists.
Qed.

(** C1, as amended. Whenever one of the four sub-calls of the snapshot
    fails, [async_get_snapshot] raises the exception of the sub-call that
    is first to fail and returns no snapshot; that exception is
    [XToolApiError], and the poll cycle raises [UpdateFailed], when the
    request of that sub-call was turned down; and in every case the poll
    cycle raises and the refresh leaves the coordinator's snapshot as it
    was. *)
Theorem C1_snapshot_all_or_nothing (c : coordinator) (w : world) :
  (exists i e, subcall_failures (api c) w !! i = Some (Some e)) ->
  exists i e req,
    subcall_failures (api c) w !! i = Some (Some e) /\
    subcall_requests (api c) !! i = Some req /\
    (forall j e', subcall_failures (api c) w !! j = Some (Some e') ->
                  (finish w i <= finish w j)%nat) /\
    outcome (async_get_snapshot (api c)) w = Raise e /\
    (rejected (net w req) ->
     e = XToolApiError /\ outcome (_async_update_data c) w = Raise UpdateFailed) /\
    raises (outcome (_async_update_data c) w) /\
    data (fst (async_refresh c w)) = data c.
Proof.
  intros Hfail.
  destruct (snapshot_raises _ _ Hfail) as (i & e & Hi & Hmin & Hraise).
  assert (Hreq : exists req, subcall_requests (api c) !! i = Some req).
  { destruct i as [|[|[|[|i]]]]; simpl in *; eauto; discriminate. }
  destruct Hreq as [req Hreq]. exists i, e, req.
  pose proof (update_data_raises _ _ _ Hraise) as Hupd.
  assert (Hraises : raises (outcome (_async_update_data c) w)) by (eexists; exact Hupd).
  split; [done|]. split; [done|]. split; [done|]. split; [done|].
  split; [|split; [done|by apply refresh_failed]].
  intros Hrej.
  destruct (subcall_failure_kind _ _ _ _ _ Hi Hreq) as [[-> _]|[_ [Hn _]]]; [|done].
  split; [done|]. by rewrite Hupd.
Qed.

(** With a device whose decodable bodies are all JSON objects, as the
    return type of [_get_json] has it, a failed sub-call always shows as
    [XToolApiError] and the poll cycle as [UpdateFailed]. *)
Corollary snapshot_failure_on_object_bodies (c : coordinator) (w : world) :
  object_bodies w ->
  (exists i e, subcall_failures (api c) w !! i = Some (Some e)) ->
  outcome (async_get_snapshot (api c)) w = Raise XToolApiError /\
  outcome (_async_update_data c) w = Raise UpdateFailed /\
  data (fst (async_refresh c w)) = data c.
Proof.
  intros Hobj Hfail.
  destruct (snapshot_raises _ _ Hfail) as (i & e & Hi & _ & Hraise).
  assert (Hreq : exists req, subcall_requests (api c) !! i = Some req).
  { destruct i as [|[|[|[|i]]]]; simpl in *; eauto; discriminate. }
  destruct Hreq as [req Hreq].
  destruct (subcall_failure_kind _ _ _ _ _ Hi Hreq) as [[-> _]|(_ & _ & p & Hp & Hno)].
  - pose proof (update_data_raises _ _ _ Hraise) as Hupd. simpl in Hupd.
    split; [done|]. split; [done|]. apply refresh_failed. by eexists.
  - destruct (Hobj _ _ Hp) as [fields ->]. by destruct (Hno fields).
Qed.

(** C4. After every successful poll cycle the snapshot holds the raw
    working state as a string, and its label is that string mapped
    through the table "0" to "idle", "1" to "running_api", "2" to
    "running_button", anything else to "unknown". *)
Theorem C4_working_state_label (c : coordinator) (w : world) (d : gmap string value) :
  outcome (_async_update_data c) w = Ok d ->
  data (fst (async_refresh c w)) = Some d /\
  exists raw,
    d !! "working_state" = Some (JStr raw) /\
    d !! "working_state_label" = Some (JStr (working_state_label raw)) /\
    working_state_label "0" = "idle" /\
    working_state_label "1" = "running_api" /\
    working_state_label "2" = "running_button" /\
    (raw ≠ "0" -> raw ≠ "1" -> raw ≠ "2" -> working_state_label raw = "unknown").
Proof.
  intros Hok. split; [by apply refresh_succeeded|].
  destruct (update_data_returned _ _ _ Hok) as (fresh & raw & _ & Hraw & _ & Hd).
  exists raw. cbv zeta in Hd.
  assert (Hlab : forall raw', raw' ≠ "0" -> raw' ≠ "1" -> raw' ≠ "2" ->
                 working_state_label raw' = "unknown").
  { intros raw' H0 H1 H2. unfold working_state_label.
    destruct (String.eqb_spec raw' "0"); [done|].
    destruct (String.eqb_spec raw' "1"); [done|].
    by destruct (String.eqb_spec raw' "2"). }
  split; [|split; [|by auto]].
  - subst d. destruct (ws_state c); by rewrite !lookup_insert_ne.
  - subst d. destruct (ws_state c) as [v|].
    + rewrite lookup_insert_ne by done. by rewrite lookup_insert_eq.
    + by rewrite lookup_insert_eq.
Qed.
End ErrorFacts.

(** ** The push-event field *)

Section StickyFacts.
Context {R : PyRuntime}.

Lemma push_sets_ws_state c message :
  ws_state (_async_handle_ws_message c message) = Some (JStr message).
Proof. unfold ws_state, _async_handle_ws_message. simpl. by rewrite lookup_insert_eq. Qed.

(** A successful poll cycle carries the push-event field forward. *)
Lemma update_data_keeps_ws_state c w d v :
  ws_state c = Some v ->
  outcome (_async_update_data c) w = Ok d ->
  d !! ATTR_WS_STATE = Some v.
Proof.
  intros Hv Hok.
  destruct (update_data_returned _ _ _ Hok) as (fresh & raw & _ & _ & _ & ->).
  rewrite Hv. by rewrite lookup_insert_eq.
Qed.

(** So does a refresh, whether its poll cycle succeeds or fails. *)
Lemma refresh_keeps_ws_state c w v :
  ws_state c = Some v -> ws_state (fst (async_refresh c w)) = Some v.
Proof.
  intros Hv. destruct (outcome (_async_update_data c) w) as [e|d] eqn:Hout.
  - destruct (refresh_failed c w) as [Hdata _]; [by exists e|].
    unfold ws_state. by rewrite Hdata.
  - destruct (refresh_succeeded c w d Hout) as [Hdata _].
    unfold ws_state. rewrite Hdata. simpl. by eapply update_data_keeps_ws_state.
Qed.

Lemma polls_keep_ws_state polls : forall c v,
  ws_state c = Some v -> ws_state (run c (Poll <$> polls)) = Some v.
Proof.
  induction polls as [|w rest IH]; intros c v Hv; [done|].
  simpl. apply IH. by apply refresh_keeps_ws_state.
Qed.

Lemma run_app c evs evs' : run c (evs ++ evs') = run (run c evs) evs'.
Proof. apply fold_left_app. Qed.

(** After any history the push-event field is the last message pushed. *)
Lemma ws_state_is_last_push evs : forall c message,
  last_push evs = Some message -> ws_state (run c evs) = Some (JStr message).
Proof.
  induction evs as [|ev rest IH]; intros c message; [done|].
  destruct ev as [w|m]; simpl; [by apply IH|].
  destruct (last_push rest) as [later|] eqn:Hlater.
  - intros [= <-]. by apply IH.
  - intros [= <-]. clear IH.
    assert (Hpolls : exists polls, rest = Poll <$> polls).
    { clear -Hlater. induction rest as [|[w|m] rest IH]; simpl in Hlater.
      - by exists [].
      - destruct (IH Hlater) as [polls ->]. by exists (w :: polls).
      - by destruct (last_push rest). }
    destruct Hpolls as [polls ->].
    apply polls_keep_ws_state, push_sets_ws_state.
Qed.

(** C2. Once a push message is merged into the snapshot, the push-event
    field holds it after every later poll cycle, successful or not, and
    a later push message replaces it. *)
Theorem C2_push_event_is_sticky (c : coordinator) (message : string)
    (polls : list world) (newer : string) :
  ws_state (run c (Push message :: (Poll <$> polls))) = Some (JStr message) /\
  ws_state (run c (Push message :: (Poll <$> polls) ++ [Push newer])) = Some (JStr newer).
Proof.
  split.
  - simpl. apply polls_keep_ws_state, push_sets_ws_state.
  - rewrite app_comm_cons, run_app. simpl. apply push_sets_ws_state.
Qed.
End StickyFacts.

(** ** Control actions *)

Section ServiceFacts.
Context {R : PyRuntime}.

Lemma cnc_action_trace self action w :
  trace (async_cnc_action self action) w = [HttpGet (cnc_request self action)].
Proof.
  unfold async_cnc_action.
  destruct (outcome (_get_json self "/cnc/data" [("action", action)]) w) as [e|p] eqn:Hj.
  - by rewrite (trace_bind_raise _ _ _ _ Hj), get_json_trace.
  - rewrite (trace_bind_ok _ _ _ _ Hj), get_json_trace.
    unfold trace, bind, lift, ret. by destruct (py_get p "result" JNull).
Qed.



Lemma dispatch_succeeds entries action target it w b :
  dict_lookup target entries = Some it ->
  outcome (async_cnc_action (item_api it) action) w = Ok b ->
  dispatch (Some entries) action target w = (Ok tt, dispatch_effects action it).
Proof.
  intros Hit Hok. unfold dispatch. simpl. rewrite Hit, io_eta.
  rewrite outcome_bind, Hok, (trace_bind_ok _ _ _ _ Hok), cnc_action_trace. done.
Qed.

Lemma dispatch_fails entries action target it w e :
  dict_lookup target entries = Some it ->
  outcome (async_cnc_action (item_api it) action) w = Raise e ->
  dispatch (Some entries) action target w =
  (Raise e, [HttpGet (cnc_request (item_api it) action)]).
Proof.
  intros Hit Hf. unfold dispatch. simpl. rewrite Hit, io_eta.
  rewrite outcome_bind, Hf, (trace_bind_raise _ _ _ _ Hf), cnc_action_trace. done.
Qed.

(** A loop all of whose iterations return. *)
Lemma for_each_returns {A B} (body : A -> io unit) (effects : B -> list effect) w :
  forall xs ys,
  Forall2 (fun x y => body x w = (Ok tt, effects y)) xs ys ->
  for_each body xs w = (Ok tt, concat (effects <$> ys)).
Proof.
  induction 1 as [|x y xs ys Hx _ IH]; [done|].
  simpl. unfold bind. rewrite Hx, IH. done.
Qed.

(** A loop whose iteration on [x] is the first to raise. *)
Lemma for_each_raises {A B} (body : A -> io unit) (effects : B -> list effect) w x e t :
  forall xs ys rest,
  Forall2 (fun x y => body x w = (Ok tt, effects y)) xs ys ->
  body x w = (Raise e, t) ->
  for_each body (xs ++ x :: rest) w = (Raise e, concat (effects <$> ys) ++ t).
Proof.
  intros xs ys rest Hall Hx. induction Hall as [|x' y xs ys Hx' _ IH].
  - simpl. unfold bind. by rewrite Hx.
  - simpl. unfold bind. rewrite Hx'.
    change (for_each body (xs ++ x :: rest) w) with (for_each body (xs ++ x :: rest) w).
    rewrite IH. by rewrite app_assoc.
Qed.

(** In a registry without duplicate keys each key leads to its item. *)
Lemma dict_lookup_own {V} (d : list (string * V)) :
  NoDup (dict_keys d) ->
  Forall2 (fun k v => dict_lookup k d = Some v) (dict_keys d) (dict_values d).
Proof.
  induction d as [|[k v] rest IH]; intros Hnd; [constructor|].
  apply NoDup_cons in Hnd as [Hk Hnd]. constructor.
  - simpl. by rewrite String.eqb_refl.
  - eapply Forall2_impl; [by apply IH|].
    intros k' v' Hk'. simpl.
    destruct (String.eqb_spec k' k) as [->|Hne]; [|done].
    exfalso. apply Hk. clear -Hk'. unfold dict_keys.
    induction rest as [|[k1 v1] rest IH]; [done|]. simpl in *.
    destruct (String.eqb_spec k k1) as [->|Hne]; [left|right; by apply IH].
Qed.

Lemma dict_lookup_elem {V} (d : list (string * V)) k :
  k ∈ dict_keys d <-> is_Some (dict_lookup k d).
Proof.
  induction d as [|[k1 v1] rest IH]; simpl.
  - split; [by intros ?%elem_of_nil|by intros [? ?]].
  - rewrite elem_of_cons. destruct (String.eqb_spec k k1) as [->|Hne].
    + split; eauto.
    + rewrite IH. split; [by intros [?|?]|by right].
Qed.

(** Which entries a service call targets. *)
Lemma target_entries_spec (reg : registry) (id : option string) :
  match _get_target_entries reg id with
  | inr targets =>
      exists entries, reg = Some entries /\ entries ≠ [] /\
        match id with
        | Some i => if String.eqb i "" then targets = dict_keys entries
                    else targets = [i] /\ i ∈ dict_keys entries
        | None => targets = dict_keys entries
        end
  | inl e =>
      ((reg = None \/ reg = Some []) /\
       e = HomeAssistantError "No xTool integrations are loaded")
      \/ (exists entries i, reg = Some entries /\ entries ≠ [] /\ id = Some i /\
            i ≠ "" /\ (i ∉ dict_keys entries) /\
            e = HomeAssistantError ("Unknown xTool entry_id: " +:+ i))
  end.
Proof.
  unfold _get_target_entries, Raise, Ok.
  destruct reg as [[|entry entries]|]; [left; by eauto|..|left; by eauto].
  destruct id as [i|].
  - destruct (String.eqb_spec i "") as [->|Hne]; cbn [negb].
    + by eexists.
    + destruct (dict_lookup i (entry :: entries)) as [it|] eqn:Hit.
      * eexists. split; [done|]. split; [done|]. split; [done|].
        apply dict_lookup_elem. by rewrite Hit.
      * right. exists (entry :: entries), i. repeat split; try done.
        intros Hin%dict_lookup_elem. rewrite Hit in Hin. by destruct Hin.
  - by eexists.
Qed.
End ServiceFacts.

Section DispatchTheorems.
Context {R : PyRuntime}.

Lemma Forall2_impl_elem {A B} (P Q : A -> B -> Prop) xs ys :
  Forall2 P xs ys -> (forall x y, y ∈ ys -> P x y -> Q x y) -> Forall2 Q xs ys.
Proof.
  induction 1 as [|x y xs ys Hxy _ IH]; intros Himp; constructor.
  - apply Himp; [by left|done].
  - apply IH. intros x' y' Hin. apply Himp. by right.
Qed.

(** The entries whose dispatch succeeds each give their two effects. *)
Lemma dispatch_all entries action w keys items :
  Forall2 (fun k it => dict_lookup k entries = Some it) keys items ->
  (forall it, it ∈ items -> returns (outcome (async_cnc_action (item_api it) action) w)) ->
  Forall2 (fun k it => dispatch (Some entries) action k w = (Ok tt, dispatch_effects action it))
          keys items.
Proof.
  intros Hlookup Hok. eapply Forall2_impl_elem; [exact Hlookup|].
  intros k it Hin Hk. destruct (Hok it Hin) as [b Hb]. by eapply dispatch_succeeds.
Qed.

(** Once the targets are resolved the handler is its loop. *)
Lemma handler_targets (reg : registry) id action targets w :
  _get_target_entries reg id = Ok targets ->
  _async_handle_job_service reg id action w = for_each (dispatch reg action) targets w.
Proof.
  intros Ht. unfold _async_handle_job_service. rewrite Ht.
  unfold bind, lift, Ok. by destruct (for_each _ _ w).
Qed.

(** C10, as amended. When the entry id is omitted and entries are
    loaded, the call targets every loaded entry, in the order of the
    registry. If the request of every entry succeeds, each entry gets
    the action followed by a refresh request and the call returns. If
    the request of an entry fails, the entries before it have got the
    action and their refresh request, that entry has got the action
    only, the call raises the exception of the failed request, and the
    entries after it get nothing. Resolving the targets raises only when
    no entry is loaded or when a non-empty entry id is given that is not
    loaded. *)
Theorem C10_omitted_entry_id_targets_every_entry
    (entries : list (string * item)) (action : string) (w : world) :
  entries ≠ [] ->
  NoDup (dict_keys entries) ->
  _get_target_entries (Some entries) None = Ok (dict_keys entries) /\
  ((forall it, it ∈ dict_values entries ->
      returns (outcome (async_cnc_action (item_api it) action) w)) ->
   _async_handle_job_service (Some entries) None action w =
     (Ok tt, concat (dispatch_effects action <$> dict_values entries))) /\
  (forall before id it after e,
     entries = before ++ (id, it) :: after ->
     (forall it', it' ∈ dict_values before ->
        returns (outcome (async_cnc_action (item_api it') action) w)) ->
     outcome (async_cnc_action (item_api it) action) w = Raise e ->
     _async_handle_job_service (Some entries) None action w =
       (Raise e, concat (dispatch_effects action <$> dict_values before) ++
                 [HttpGet (cnc_request (item_api it) action)])) /\
  (forall (reg : registry) (id : option string) e,
     _get_target_entries reg id = Raise e ->
     reg = None \/ reg = Some [] \/
     exists i loaded, id = Some i /\ i ≠ "" /\ reg = Some loaded /\ i ∉ dict_keys loaded).
Proof.
  intros Hne Hnd.
  assert (Htargets : _get_target_entries (Some entries) None = Ok (dict_keys entries)).
  { by destruct entries. }
  assert (Hhandler : forall r : result unit * list effect,
    for_each (dispatch (Some entries) action) (dict_keys entries) w = r ->
    _async_handle_job_service (Some entries) None action w = r).
  { intros r <-. by apply handler_targets. }
  pose proof (dict_lookup_own entries Hnd) as Hown.
  split; [done|]. split; [|split].
  - intros Hok. apply Hhandler.
    apply (for_each_returns _ (dispatch_effects action)). by apply dispatch_all.
  - intros before id it after e -> Hbefore Hfail. apply Hhandler.
    unfold dict_keys, dict_values in *. rewrite !map_app in *. simpl in *.
    apply Forall2_app_inv in Hown as [Hown1 Hown2]; [|by rewrite !length_map].
    apply Forall2_cons_1 in Hown2 as [Hit _].
    apply (for_each_raises _ (dispatch_effects action)).
    + by apply dispatch_all.
    + by eapply dispatch_fails.
  - intros reg id e He. pose proof (target_entries_spec reg id) as Hspec.
    rewrite He in Hspec.
    destruct Hspec as [[[->| ->] _]|(loaded & i & -> & _ & -> & Hi & Hnotin & _)]; eauto 10.
Qed.
End DispatchTheorems.

(** ** Dicts in insertion order *)

Section DictFacts.
Context {V : Type}.
Implicit Types (d : list (string * V)) (k : string) (v : V).

Lemma dict_keys_set k v d :
  dict_keys (dict_set k v d) =
  if bool_decide (k ∈ dict_keys d) then dict_keys d else dict_keys d ++ [k].
Proof.
  induction d as [|[k1 v1] rest IH]; simpl; [done|].
  destruct (String.eqb_spec k k1) as [->|Hne]; simpl.
  - rewrite bool_decide_eq_true_2; [done|by left].
  - rewrite IH. destruct (bool_decide_reflect (k ∈ dict_keys rest)) as [Hin|Hout].
    + rewrite bool_decide_eq_true_2; [done|by right].
    + rewrite bool_decide_eq_false_2; [done|]. by intros [?|?]%elem_of_cons.
Qed.

Lemma dict_set_nodup k v d : NoDup (dict_keys d) -> NoDup (dict_keys (dict_set k v d)).
Proof.
  intros Hnd. rewrite dict_keys_set. case_bool_decide as Hin; [done|].
  apply NoDup_app. split; [done|]. split; [|apply NoDup_singleton].
  intros k' Hk' ->%list_elem_of_singleton. done.
Qed.

Lemma dict_lookup_set k k' v d :
  dict_lookup k' (dict_set k v d) = if String.eqb k' k then Some v else dict_lookup k' d.
Proof.
  induction d as [|[k1 v1] rest IH]; simpl.
  - by destruct (String.eqb_spec k' k).
  - destruct (String.eqb_spec k k1) as [->|Hne]; simpl.
    + by destruct (String.eqb_spec k' k1).
    + rewrite IH. destruct (String.eqb_spec k' k1) as [->|Hne'].
      * destruct (String.eqb_spec k1 k); [by subst|done].
      * done.
Qed.

Lemma dict_lookup_app k d d' :
  dict_lookup k (d ++ d') =
  match dict_lookup k d with Some v => Some v | None => dict_lookup k d' end.
Proof.
  induction d as [|[k1 v1] rest IH]; simpl; [done|].
  by destruct (String.eqb k k1).
Qed.

(** After a run of assignments a dict has no duplicate key, and each
    key is bound as the last assignment to it says, or as before. *)
Lemma dict_updates_nodup l : forall d,
  NoDup (dict_keys d) -> NoDup (dict_keys (foldl dict_update d l)).
Proof.
  induction l as [|[k v] rest IH]; intros d Hnd; [done|].
  simpl. apply IH. by apply dict_set_nodup.
Qed.

Lemma dict_updates_lookup l : forall d k,
  dict_lookup k (foldl dict_update d l) =
  match last_binding k l with Some v => Some v | None => dict_lookup k d end.
Proof.
  unfold last_binding.
  induction l as [|[k1 v1] rest IH]; intros d k; [done|].
  simpl. rewrite IH, reverse_cons, dict_lookup_app. unfold dict_update. simpl.
  rewrite dict_lookup_set. destruct (dict_lookup k (reverse rest)); [done|].
  by destruct (String.eqb k k1).
Qed.
End DictFacts.

(** ** Discovery *)

Section DiscoveryFacts.
Context {R : PyRuntime}.

(** On a JSON object the body of the loop does not raise. *)
Lemma accept_object rid fields : returns (accept rid (JObj fields)).
Proof.
  unfold accept. cbn [py_get]. rewrite !rbind_ok.
  destruct (negb _); [by eexists|].
  destruct (String.eqb _ ""); by eexists.
Qed.

(** On anything else it raises [AttributeError]. *)
Lemma accept_non_object rid message :
  (forall fields, message ≠ JObj fields) -> accept rid message = Raise AttributeError.
Proof. intros Hno. destruct message; try done. by destruct (Hno fields). Qed.

(** A datagram is kept only under its own, non-empty host. *)
Lemma kept_host rid r h dev : kept rid r = Some (h, dev) -> host dev = h /\ h ≠ "".
Proof.
  destruct r as [[message|]| | |]; simpl; try done.
  destruct message; simpl; try done.
  unfold accept. cbn [py_get]. unfold Ok. cbn [rbind].
  destruct (negb _); [done|].
  match goal with
  | |- context [String.eqb ?s ""] => destruct (String.eqb_spec s "") as [Heq|Hne]
  end; [by simpl|].
  simpl. by intros [= <- <-].
Qed.

(** When every datagram is undecodable or an object and no [recvfrom]
    raises, the loop ends with the kept datagrams assigned in order. *)
Lemma receive_loop_returns rid rs : forall found,
  Forall object_or_garbage (heard rs) ->
  (RecvOSError ∉ heard rs) ->
  receive_loop rid found rs = Ok (foldl dict_update found (omap (kept rid) (heard rs))).
Proof.
  induction rs as [|r rest IH]; intros found Hwf Hok; [done|].
  destruct r as [[message|]| | |]; simpl in *.
  - apply Forall_cons in Hwf as [Hr Hwf].
    destruct message; try done. destruct (accept_object rid fields) as [[[h dev]|] Ha];
      rewrite Ha; simpl; apply IH; try done;
      intros Hin; apply Hok; by right.
  - apply Forall_cons in Hwf as [_ Hwf]. apply IH; [done|].
    intros Hin; apply Hok; by right.
  - by apply Forall_cons in Hwf as [[] _].
  - done.
  - exfalso. apply Hok. by left.
Qed.

(** A [recvfrom] that raises [OSError] makes the loop raise it, whatever
    was found before. *)
Lemma receive_loop_oserror rid before after : forall found,
  Forall object_or_garbage before ->
  receive_loop rid found (before ++ RecvOSError :: after) = Raise OSError.
Proof.
  induction before as [|r before IH]; intros found Hwf; [done|].
  apply Forall_cons in Hwf as [Hr Hwf].
  destruct r as [[message|]| | |]; simpl in *; try done.
  - destruct message; try done.
    destruct (accept_object rid fields) as [[[h dev]|] Ha]; rewrite Ha; by apply IH.
  - by apply IH.
Qed.

(** A datagram that decodes to something else than an object makes the
    loop, and discovery, raise [AttributeError]. *)
Lemma receive_loop_non_object rid before message after : forall found,
  Forall object_or_garbage before ->
  (forall fields, message ≠ JObj fields) ->
  receive_loop rid found (before ++ Datagram (Some message) :: after) = Raise AttributeError.
Proof.
  induction before as [|r before IH]; intros found Hwf Hno.
  - simpl. by rewrite accept_non_object.
  - apply Forall_cons in Hwf as [Hr Hwf].
    destruct r as [[m|]| | |]; simpl in *; try done.
    + destruct m; try done.
      destruct (accept_object rid fields) as [[[h dev]|] Ha]; rewrite Ha; by apply IH.
    + by apply IH.
Qed.

Lemma discovery_raises_on_non_object (u : udp) before message after :
  socket_fails u = false ->
  setup_failure u = None ->
  received u = before ++ Datagram (Some message) :: after ->
  Forall object_or_garbage before ->
  (forall fields, message ≠ JObj fields) ->
  _discover_devices_sync u = Raise AttributeError.
Proof.
  intros Hsock Hsetup Hrecv Hwf Hno. unfold _discover_devices_sync.
  by rewrite Hsock, Hsetup, Hrecv, receive_loop_non_object.
Qed.

(** Once the socket exists, every [OSError] of a socket call makes
    discovery return the empty list. *)
Lemma discovery_swallows_oserror (u : udp) :
  socket_fails u = false ->
  (is_Some (setup_failure u) \/
   exists before after,
     received u = before ++ RecvOSError :: after /\ Forall object_or_garbage before) ->
  _discover_devices_sync u = Ok [].
Proof.
  intros Hsock Herr. unfold _discover_devices_sync. rewrite Hsock.
  destruct Herr as [[call ->]|(before & after & -> & Hwf)]; [done|].
  destruct (setup_failure u); [done|]. by rewrite receive_loop_oserror.
Qed.

(** A datagram on which [json.loads] raises [RecursionError] makes the
    loop, and discovery, raise it: no handler of the loop catches it. *)
Lemma discovery_raises_on_deep_datagram (u : udp) before after :
  socket_fails u = false ->
  setup_failure u = None ->
  received u = before ++ DatagramTooDeep :: after ->
  Forall object_or_garbage before ->
  _discover_devices_sync u = Raise RecursionError.
Proof.
  intros Hsock Hsetup Hrecv Hwf. unfold _discover_devices_sync.
  rewrite Hsock, Hsetup, Hrecv.
  assert (Hloop : forall found,
    receive_loop (request_id u) found (before ++ DatagramTooDeep :: after)
    = Raise RecursionError).
  { clear Hrecv. induction Hwf as [|r rest Hr _ IH]; intros found; [done|].
    destruct r as [[message|]| | |]; simpl in *; try done.
    destruct message; try done.
    destruct (accept_object (request_id u) fields) as [[[h dev]|] Ha]; rewrite Ha; apply IH. }
  by rewrite Hloop.
Qed.

(** X19. Discovery over datagrams each of which makes [json.loads]
    raise [JSONDecodeError] or decodes to a JSON object, with no socket
    error: the result has one device per host, the hosts are those of
    the kept datagrams, and the device of a host is that of the last
    kept datagram of the host. *)
Lemma discovery_keeps_last_per_host (u : udp) :
  socket_fails u = false ->
  setup_failure u = None ->
  Forall object_or_garbage (heard (received u)) ->
  (RecvOSError ∉ heard (received u)) ->
  let entries := omap (kept (request_id u)) (heard (received u)) in
  exists found,
    _discover_devices_sync u = Ok (dict_values found) /\
    NoDup (dict_keys found) /\
    (forall h, dict_lookup h found = last_binding h entries) /\
    (forall h dev, dict_lookup h found = Some dev -> host dev = h /\ h ≠ "").
Proof.
  intros Hsock Hsetup Hwf Hok entries.
  exists (foldl dict_update [] entries).
  assert (Hlook : forall h, dict_lookup h (foldl dict_update [] entries) = last_binding h entries).
  { intros h. rewrite dict_updates_lookup. by destruct (last_binding h entries). }
  split; [|split; [|split]].
  - unfold _discover_devices_sync. rewrite Hsock, Hsetup.
    by rewrite receive_loop_returns.
  - apply dict_updates_nodup. constructor.
  - done.
  - intros h dev. rewrite Hlook. unfold last_binding.
    assert (Hall : Forall (fun entry => host entry.2 = entry.1 /\ entry.1 ≠ "") (reverse entries)).
    { apply Forall_reverse, Forall_forall. intros [h' dev'] Hin.
      apply list_elem_of_omap in Hin as (r & _ & Hr). by apply kept_host in Hr. }
    induction Hall as [|[h1 dev1] rest Hhd _ IH]; simpl; [done|].
    destruct (String.eqb_spec h h1) as [->|Hne]; [|done].
    by intros [= <-].
Qed.
End DiscoveryFacts.

(** ** The push channel *)

Section PushChannelFacts.
Context {R : PyRuntime}.

(** [_ws_loop] has no handler for [CancelledError]: resumed with it at
    any suspension point, the task is done, and nothing is delivered. *)
Lemma ws_resume_cancel stop ph :
  exists res, ws_resume stop ph Cancel = (Done res, []).
Proof. destruct ph; simpl; eauto. Qed.

Lemma cancel_and_await_done stop ph :
  exists res, cancel_and_await stop ph = (Done res, Some res).
Proof.
  unfold cancel_and_await. destruct (ws_resume_cancel stop ph) as [res ->]. eauto.
Qed.


(** C8. Whatever the state of the channel (no task, a task not yet
    started, one suspended in the connection attempt, in the receive
    wait, in the close of the connection or in the back-off sleep, or
    one that is done),
    [async_stop_ws] comes back, and when it does the stop signal is set,
    the task that was the client's is done, no task of the client is
    running, and the other tasks of the loop are untouched; unless the
    task had failed, the client no longer refers to it. *)
Theorem C8_stop_awaits_the_task (self : XToolApiClient) (tasks : list ws_phase) :
  client_wf tasks self ->
  exists r self' tasks',
    async_stop_ws self tasks = Some (r, self', tasks') /\
    _ws_stop self' = true /\
    (forall id, _ws_task self = Some id -> exists res, tasks' !! id = Some (Done res)) /\
    task_running tasks' self' = false /\
    (forall j, _ws_task self ≠ Some j -> tasks' !! j = tasks !! j) /\
    length tasks' = length tasks /\
    (r = Ok tt -> _ws_task self' = None).
Proof.
  unfold client_wf, async_stop_ws. destruct (_ws_task self) as [id|] eqn:Htask.
  - intros [ph Hph]. rewrite Hph.
    destruct (cancel_and_await_done true ph) as [res ->].
    assert (Hid : (<[id := Done res]> tasks) !! id = Some (Done res)).
    { apply list_lookup_insert_eq. by eapply lookup_lt_Some. }
    assert (Hother : forall j, Some id ≠ Some j ->
              (<[id := Done res]> tasks) !! j = tasks !! j).
    { intros j Hj. apply list_lookup_insert_ne. congruence. }
    destruct res as [| |e]; eexists _, _, _; (split; [reflexivity|]);
      (split; [done|]); (split; [intros ? [= <-]; eauto|]);
      (split; [unfold task_running; simpl; by rewrite ?Htask, ?Hid|]);
      (split; [done|]); (split; [by rewrite length_insert|]); done.
  - intros _. eexists _, _, _. split; [reflexivity|].
    split; [done|]. split; [done|].
    split; [unfold task_running; simpl; by rewrite ?Htask|]. done.
Qed.

(** C9. When the client has a push-channel task that is running, that
    is, when [_ws_task] names a task of the loop that is not done,
    [async_start_ws] changes nothing: neither the client, with its task
    and stop signal, nor the tasks of the loop. In every other case (no
    task yet, or a task that is done) it clears the stop signal and
    adds exactly one task to the loop, not yet started, which becomes
    the client's. In both cases the client has a running task
    afterwards, and starting again changes nothing. *)
Theorem C9_start_is_idempotent (self : XToolApiClient) (tasks : list ws_phase) :
  let self' := (async_start_ws self tasks).1 in
  let tasks' := (async_start_ws self tasks).2 in
  (has_live_task tasks self -> self' = self /\ tasks' = tasks) /\
  (~ has_live_task tasks self ->
   _host self' = _host self /\ _ws_stop self' = false /\
   _ws_task self' = Some (length tasks) /\ tasks' = tasks ++ [Pending]) /\
  has_live_task tasks' self' /\
  async_start_ws self' tasks' = (self', tasks').
Proof.
  assert (Hrun : forall ts c, task_running ts c = true <-> has_live_task ts c).
  { intros ts c. unfold task_running, has_live_task. split.
    - destruct (_ws_task c) as [id|]; [|discriminate].
      destruct (ts !! id) as [ph|] eqn:Hid; [|discriminate].
      intros Hph. exists id, ph. split; [done|]. split; [done|].
      intros res ->. discriminate.
    - intros (id & ph & -> & -> & Hph). destruct ph; try done. by destruct (Hph r). }
  unfold async_start_ws. destruct (task_running tasks self) eqn:Hlive; simpl.
  - split; [done|]. split; [intros Hno; destruct Hno; by apply Hrun|].
    split; [by apply Hrun|]. by rewrite Hlive.
  - assert (Hnew : task_running (tasks ++ [Pending])
        {| _host := _host self; _ws_task := Some (length tasks); _ws_stop := false |} = true).
    { unfold task_running. simpl. by rewrite lookup_app_r, Nat.sub_diag. }
    split; [intros Hyes%Hrun; congruence|]. split; [done|].
    split; [by apply Hrun|]. by rewrite Hnew.
Qed.
End PushChannelFacts.

(** * The theorems at work *)

(** The snapshot of the end-to-end example of the specification. *)
Example poll_end_to_end :
  outcome (_async_update_data laser_coordinator) (serving laser_answers) = Ok laser_snapshot.
Proof. vm_compute. reflexivity. Qed.

(** C1 at a device that does not answer [/progress]. *)
Lemma C1_witness :
  (exists i e, subcall_failures (api laser_coordinator) (serving silent_answers) !! i
               = Some (Some e)) /\
  exists i e req,
    subcall_failures (api laser_coordinator) (serving silent_answers) !! i = Some (Some e) /\
    subcall_requests (api laser_coordinator) !! i = Some req /\
    (forall j e', subcall_failures (api laser_coordinator) (serving silent_answers) !! j
                  = Some (Some e') ->
                  (finish (serving silent_answers) i <= finish (serving silent_answers) j)%nat) /\
    outcome (async_get_snapshot (api laser_coordinator)) (serving silent_answers) = Raise e /\
    (rejected (net (serving silent_answers) req) ->
     e = XToolApiError /\
     outcome (_async_update_data laser_coordinator) (serving silent_answers)
       = Raise UpdateFailed) /\
    raises (outcome (_async_update_data laser_coordinator) (serving silent_answers)) /\
    data (fst (async_refresh laser_coordinator (serving silent_answers)))
      = data laser_coordinator.
Proof.
  split.
  - exists 0%nat, XToolApiError. vm_compute. reflexivity.
  - apply (C1_snapshot_all_or_nothing laser_coordinator (serving silent_answers)).
    exists 0%nat, XToolApiError. vm_compute. reflexivity.
Defined.

(** C1 as stated fails at a device that answers [/getmachinetype] with a
    JSON array: the machine-type sub-call fails, and the snapshot fails
    with [AttributeError], which is not [XToolApiError]; the poll cycle
    raises it as it is, not as [UpdateFailed]. *)
Lemma C1_counterexample :
  subcall_failures laser (serving array_answers) !! 3%nat = Some (Some AttributeError) /\
  outcome (async_get_snapshot laser) (serving array_answers) = Raise AttributeError /\
  outcome (async_get_snapshot laser) (serving array_answers) ≠ Raise XToolApiError /\
  outcome (_async_update_data laser_coordinator) (serving array_answers)
    = Raise AttributeError.
Proof.
  split; [vm_compute; reflexivity|].
  split; [vm_compute; reflexivity|].
  split; [vm_compute; discriminate|].
  vm_compute; reflexivity.
Qed.

(** C3 at a device that does not answer [/progress], nor the ping, and
    answers the other requests of the snapshot. *)
Lemma C3_witness :
  rejected (net (serving silent_answers) (request_of laser "/ping" [])) /\
  outcome (async_ping laser) (serving silent_answers) = Raise XToolApiError /\
  rejected (net (serving silent_answers) (request_of laser "/progress" [])) /\
  outcome (async_get_progress laser) (serving silent_answers) = Raise XToolApiError /\
  outcome (async_get_snapshot laser) (serving silent_answers) = Raise XToolApiError.
Proof.
  pose proof (C3_rejected_response_raises_api_error laser "pause" (serving silent_answers))
    as H.
  cbv zeta in H. destruct H as (Hping & _ & _ & Hprogress & _ & _ & _ & Hsnapshot & _).
  split; [exact I|]. split; [apply Hping; exact I|]. split; [exact I|].
  split; [apply Hprogress; exact I|].
  destruct Hsnapshot as (_ & Hobjects & _).
  - exists (request_of laser "/progress" []). split; [by left|exact I].
  - apply Hobjects. intros req p Hin.
    repeat (apply elem_of_cons in Hin as [->|Hin]);
      [| | | |by apply elem_of_nil in Hin]; vm_compute; intros [= <-]; by eexists.
Defined.

(** C3 as stated fails at a response with status 300, which is not a
    2xx status: [raise_for_status] lets it through, and [async_ping]
    returns [True]. It also fails at a response with an empty body,
    which is no JSON: [response.json] returns [None] for it, which
    [async_get_progress] returns as its value and on which [async_ping]
    raises [AttributeError]. *)
Lemma C3_counterexample :
  let multiple := responds 300 (Json (JObj [("result", JStr "ok")])) in
  let empty := responds 200 Blank in
  ~ (200 <= 300 < 300) /\
  outcome (async_ping laser) (answering multiple id) = Ok true /\
  outcome (async_ping laser) (answering multiple id) ≠ Raise XToolApiError /\
  outcome (async_get_progress laser) (answering empty id) = Ok JNull /\
  outcome (async_ping laser) (answering empty id) = Raise AttributeError /\
  outcome (async_ping laser) (answering empty id) ≠ Raise XToolApiError.
Proof.
  split; [lia|]. split; [vm_compute; reflexivity|]. split; [vm_compute; discriminate|].
  split; [vm_compute; reflexivity|]. split; [vm_compute; reflexivity|vm_compute; discriminate].
Qed.

(** C4 at the end-to-end example of the specification. *)
Lemma C4_witness :
  outcome (_async_update_data laser_coordinator) (serving laser_answers) = Ok laser_snapshot /\
  data (fst (async_refresh laser_coordinator (serving laser_answers))) = Some laser_snapshot /\
  exists raw,
    laser_snapshot !! "working_state" = Some (JStr raw) /\
    laser_snapshot !! "working_state_label" = Some (JStr (working_state_label raw)) /\
    working_state_label "0" = "idle" /\
    working_state_label "1" = "running_api" /\
    working_state_label "2" = "running_button" /\
    (raw ≠ "0" -> raw ≠ "1" -> raw ≠ "2" -> working_state_label raw = "unknown").
Proof.
  split.
  - vm_compute. reflexivity.
  - apply (C4_working_state_label laser_coordinator (serving laser_answers) laser_snapshot).
    vm_compute. reflexivity.
Defined.

(** The reconnect loop: after a failed connection attempt the task sleeps
    once, connects again, and delivers the text it then receives,
    trimmed; nothing is delivered during the failed attempt. *)
Example reconnect_after_failure :
  ws_run false Pending [Start; Failure] = (Sleeping, []) /\
  ws_run false Pending [Start; Failure; Wake; Connected; Message (TEXT " M ")]
    = (Receiving, ["M"]).
Proof. split; reflexivity. Qed.

(** A text frame reaches the coordinator trimmed, and stays in the
    snapshot through the next poll cycle. *)
Example push_then_poll :
  let delivered := (ws_run false Receiving [Message (TEXT " M ")]).2 in
  delivered = ["M"] /\
  ws_state (run laser_coordinator ((Push <$> delivered) ++ [Poll (serving laser_answers)]))
    = Some (JStr "M").
Proof. split; vm_compute; reflexivity. Qed.

(** C8 at a client whose task is in its receive wait. *)
Lemma C8_witness :
  client_wf [Receiving] listening /\
  exists r self' tasks',
    async_stop_ws listening [Receiving] = Some (r, self', tasks') /\
    _ws_stop self' = true /\
    (forall id, _ws_task listening = Some id -> exists res, tasks' !! id = Some (Done res)) /\
    task_running tasks' self' = false /\
    (forall j, _ws_task listening ≠ Some j -> tasks' !! j = [Receiving] !! j) /\
    length tasks' = length [Receiving] /\
    (r = Ok tt -> _ws_task self' = None).
Proof.
  split.
  - exists Receiving. reflexivity.
  - apply (C8_stop_awaits_the_task listening [Receiving]).
    exists Receiving. reflexivity.
Defined.

(** Stopping that client cancels its task, and a new start then spawns
    a second task. *)
Example stop_then_start :
  async_stop_ws listening [Receiving] =
    Some (Ok tt, {| _host := "192.168.1.50"; _ws_task := None; _ws_stop := true |},
          [Done Cancelled]) /\
  async_start_ws {| _host := "192.168.1.50"; _ws_task := None; _ws_stop := true |}
                 [Done Cancelled] =
    ({| _host := "192.168.1.50"; _ws_task := Some 1%nat; _ws_stop := false |},
     [Done Cancelled; Pending]).
Proof. split; reflexivity. Qed.

(** C10 at two loaded entries of which the first, the engraver, does
    not answer. *)
Lemma C10_witness :
  two_entries ≠ [] /\
  NoDup (dict_keys two_entries) /\
  _get_target_entries (Some two_entries) None = Ok (dict_keys two_entries) /\
  ((forall it, it ∈ dict_values two_entries ->
      returns (outcome (async_cnc_action (item_api it) "stop") (serving laser_answers))) ->
   _async_handle_job_service (Some two_entries) None "stop" (serving laser_answers) =
     (Ok tt, concat (dispatch_effects "stop" <$> dict_values two_entries))) /\
  (forall before id it after e,
     two_entries = before ++ (id, it) :: after ->
     (forall it', it' ∈ dict_values before ->
        returns (outcome (async_cnc_action (item_api it') "stop") (serving laser_answers))) ->
     outcome (async_cnc_action (item_api it) "stop") (serving laser_answers) = Raise e ->
     _async_handle_job_service (Some two_entries) None "stop" (serving laser_answers) =
       (Raise e, concat (dispatch_effects "stop" <$> dict_values before) ++
                 [HttpGet (cnc_request (item_api it) "stop")])) /\
  (forall (reg : registry) (id : option string) e,
     _get_target_entries reg id = Raise e ->
     reg = None \/ reg = Some [] \/
     exists i loaded, id = Some i /\ i ≠ "" /\ reg = Some loaded /\ i ∉ dict_keys loaded).
Proof.
  assert (Hnd : NoDup (dict_keys two_entries)).
  { apply (bool_decide_unpack _). vm_compute. reflexivity. }
  split; [discriminate|]. split; [exact Hnd|].
  apply (C10_omitted_entry_id_targets_every_entry two_entries "stop" (serving laser_answers)).
  - discriminate.
  - exact Hnd.
Defined.

(** With both devices answering, both entries get the action and a
    refresh request, in the order of the registry; the answer of the
    engraver, which is not "ok", changes nothing to that. *)
Example stop_all_entries :
  _async_handle_job_service (Some two_entries) None "stop" (serving both_answers) =
  (Ok tt,
   [HttpGet {| url := "http://192.168.1.51:8080/cnc/data"; query := [("action", "stop")] |};
    RefreshRequested "entry-2";
    HttpGet {| url := "http://192.168.1.50:8080/cnc/data"; query := [("action", "stop")] |};
    RefreshRequested "entry-1"]).
Proof. vm_compute. reflexivity. Qed.

(** C10 as stated fails at those two entries: the call omits the entry
    id and entries are loaded, yet it raises [XToolApiError], and the
    second entry, the laser, gets neither the action nor a refresh
    request. *)
Lemma C10_counterexample :
  _get_target_entries (Some two_entries) None = Ok ["entry-2"; "entry-1"] /\
  _async_handle_job_service (Some two_entries) None "pause" (serving laser_answers) =
    (Raise XToolApiError,
     [HttpGet {| url := "http://192.168.1.51:8080/cnc/data";
                 query := [("action", "pause")] |}]).
Proof. split; vm_compute; reflexivity. Qed.

(** Discovery keeps one device per host, the last one heard, and drops
    the datagrams that are undecodable, that carry another request id,
    or whose [ip] is empty. *)
Example discovery_end_to_end :
  _discover_devices_sync
    (quiet_udp [advert 123456 "192.168.1.50" "first"; Datagram None;
                advert 999 "192.168.1.77" "stranger"; advert 123456 "" "nameless";
                advert 123456 " 192.168.1.50 " "second"; RecvTimeout;
                advert 123456 "192.168.1.60" "late"]) =
  Ok [{| host := "192.168.1.50"; name := "second"; version := "1.0" |}].
Proof. vm_compute. reflexivity. Qed.

(** C6, the failing input. A datagram that decodes to a JSON value other
    than an object, here the array [[]], is not discarded: [message.get]
    raises [AttributeError], which no handler of the loop catches, and
    discovery raises it to its caller, losing the device heard before. *)
Lemma C6_array_datagram_raises :
  _discover_devices_sync
    (quiet_udp [advert 123456 "192.168.1.50" "first"; Datagram (Some (JArr []));
                RecvTimeout]) =
  Raise AttributeError.
Proof. vm_compute. reflexivity. Qed.

(** A socket call that fails inside the [try] gives the empty list. *)
Example discovery_bind_failure :
  _discover_devices_sync
    {| request_id := 123456; socket_fails := false; setup_failure := Some Bind;
       received := [advert 123456 "192.168.1.50" "first"] |} = Ok [].
Proof. reflexivity. Qed.

(** C7, the failing input. The socket is created before the [try]: when
    [socket.socket] raises [OSError], discovery raises it to its caller
    instead of returning the empty list. *)
Lemma C7_socket_creation_error_escapes :
  _discover_devices_sync
    {| request_id := 123456; socket_fails := true; setup_failure := None;
       received := [] |} = Raise OSError.
Proof. reflexivity. Qed.

(** * Further properties *)

(** ** The reconnect loop *)

Section LoopFacts.
Context {R : PyRuntime}.

Lemma ws_run_cons stop ph r rs :
  ws_run stop ph (r :: rs) =
  let '(ph', out) := ws_resume stop ph r in
  let '(ph'', out') := ws_run stop ph' rs in (ph'', out ++ out').
Proof.
  unfold ws_run. simpl. destruct (ws_resume stop ph r) as [ph' out].
  assert (Hgen : forall rs acc out0,
    foldl (fun acc r => let '(p, o) := ws_resume stop acc.1 r in (p, acc.2 ++ o))
          (acc, out0) rs =
    let '(p, o) := foldl (fun acc r => let '(p, o) := ws_resume stop acc.1 r in (p, acc.2 ++ o))
                         (acc, []) rs in (p, out0 ++ o)).
  { clear. induction rs as [|r rs IH]; intros acc out0; simpl.
    - by rewrite app_nil_r.
    - destruct (ws_resume stop acc r) as [p o]. rewrite (IH p (out0 ++ o)), (IH p o).
      destruct (foldl _ (p, []) rs) as [p' o']. by rewrite app_assoc. }
  simpl. rewrite (Hgen rs ph' out). by destruct (foldl _ (ph', []) rs).
Qed.

Lemma ws_run_nil stop ph : ws_run stop ph [] = (ph, []).
Proof. done. Qed.

(** X10. Once the stop signal is set, no frame reaches [on_message]
    any more, whatever the task is resumed with and wherever it stands. *)
Theorem no_delivery_after_stop (ph : ws_phase) (rs : list resumption) :
  (ws_run true ph rs).2 = [].
Proof.
  revert ph. induction rs as [|r rs IH]; intros ph; [done|].
  rewrite ws_run_cons.
  assert (Hstep : (ws_resume true ph r).2 = []).
  { destruct ph, r; simpl; try done. }
  destruct (ws_resume true ph r) as [ph' out]. simpl in Hstep. subst out.
  specialize (IH ph'). destruct (ws_run true ph' rs) as [ph'' out']. simpl in *. done.
Qed.

(** X11. While the stop signal is not set, time-outs, transport
    failures, close and error frames never end the task: it is done only
    after a cancellation or an exception of another class. *)
Theorem loop_outlives_failures (ph : ws_phase) (rs : list resumption) :
  task_done ph = false ->
  Forall (fun r => fatal r = false) rs ->
  task_done (ws_run false ph rs).1 = false.
Proof.
  intros Hph Hrs. revert ph Hph. induction Hrs as [|r rs Hr _ IH]; intros ph Hph; [done|].
  rewrite ws_run_cons.
  assert (Hstep : task_done (ws_resume false ph r).1 = false).
  { destruct ph, r; simpl in *; try done; by destruct msg. }
  destruct (ws_resume false ph r) as [ph' out]. simpl in Hstep.
  specialize (IH ph' Hstep). by destruct (ws_run false ph' rs).
Qed.

(** X12. On one connection the loop hands to [on_message] the text
    frames in the order of their arrival, each trimmed, up to the first
    close or error frame; frames of other types and whatever arrives
    after the close are not delivered. *)
Theorem texts_delivered_in_order (msgs : list ws_msg) :
  (ws_run false Receiving (Message <$> msgs)).2 = texts_before_close msgs.
Proof.
  assert (Hidle : forall msgs', ws_run false Closing (Message <$> msgs') = (Closing, [])).
  { induction msgs' as [|m rest IH]; [done|].
    rewrite fmap_cons, ws_run_cons. simpl. by rewrite IH. }
  induction msgs as [|m rest IH]; [done|].
  rewrite fmap_cons, ws_run_cons.
  destruct m as [text| | |]; simpl.
  - destruct (ws_run false Receiving (Message <$> rest)) as [ph out]. simpl in *.
    by rewrite IH.
  - by rewrite Hidle.
  - by rewrite Hidle.
  - destruct (ws_run false Receiving (Message <$> rest)) as [ph out]. simpl in *. done.
Qed.

(** A connection attempt starts only when the task starts or when it
    wakes from its back-off sleep. *)
Lemma connecting_entered (stop : bool) (ph : ws_phase) (r : resumption) :
  expects ph r = true ->
  (ws_resume stop ph r).1 = Connecting ->
  stop = false /\ ((ph = Pending /\ r = Start) \/ (ph = Sleeping /\ r = Wake)).
Proof.
  intros Hfit Hres.
  destruct ph, r; simpl in *; try done;
    destruct stop; simpl in *; try done; auto; destruct msg; done.
Qed.

(** X13. The loop pays for every reconnection with a back-off sleep: a
    task run from its creation through any series of resumptions makes
    at most one connection attempt more than the number of times it
    woke from its back-off sleep, and at least as many attempts as
    that number; it makes none at all when the stop signal is set. A
    resumption that finds the task in another phase than the sleep is
    no waking, and an attempt that would follow a failed one directly
    counts as an attempt. *)
Theorem one_attempt_per_sleep (stop : bool) (rs : list resumption) :
  (wakes stop Pending rs <= attempts stop Pending rs)%nat /\
  (attempts stop Pending rs <= 1 + wakes stop Pending rs)%nat /\
  (stop = true -> attempts stop Pending rs = 0%nat).
Proof.
  assert (Hupper : forall rs ph,
    (attempts stop ph rs <= match ph with Pending => 1 | _ => 0 end + wakes stop ph rs)%nat).
  { clear rs. induction rs as [|r rs IH]; intros ph; simpl; [lia|].
    specialize (IH (ws_resume stop ph r).1).
    destruct ph, r; simpl in *; try lia;
      destruct stop; simpl in *; try lia;
      destruct msg; simpl in *; lia. }
  assert (Hstopped : forall rs ph, ph = Pending \/ task_done ph = true ->
    attempts true ph rs = 0%nat /\ wakes true ph rs = 0%nat).
  { clear. induction rs as [|r rs IH]; intros ph Hph; [done|]. simpl.
    assert (Hnext : (ws_resume true ph r).1 = Pending \/
                    task_done (ws_resume true ph r).1 = true).
    { destruct Hph as [->|Hdone]; [destruct r; simpl; auto|].
      destruct ph as [| | | | |res]; try discriminate. by right. }
    destruct (IH _ Hnext) as [-> ->].
    destruct Hph as [->|Hdone]; [by destruct r|]. by destruct ph as [| | | | |res]. }
  assert (Hlower : forall rs ph, (wakes false ph rs <= attempts false ph rs)%nat).
  { clear. induction rs as [|r rs IH]; intros ph; simpl; [lia|].
    specialize (IH (ws_resume false ph r).1).
    destruct ph, r; simpl in *; try lia; destruct msg; simpl in *; lia. }
  split; [|split].
  - destruct stop; [|apply Hlower].
    destruct (Hstopped rs Pending) as [-> ->]; [by left|]. lia.
  - apply (Hupper rs Pending).
  - intros ->. destruct (Hstopped rs Pending) as [-> _]; [by left|]. done.
Qed.



End LoopFacts.

(** ** The life of the push-channel task *)

Section LifecycleFacts.
Context {R : PyRuntime}.

Lemma ws_resume_stays_done stop ph r :
  task_done ph = true -> task_done (ws_resume stop ph r).1 = true.
Proof. by destruct ph. Qed.

Lemma no_orphans_step st op : no_orphans st -> no_orphans (client_step st op).
Proof.
  destruct st as [self tasks]. intros [Hwf Hinv]. simpl in *.
  destruct op as [| |id r]; simpl.
  - unfold async_start_ws. destruct (task_running tasks self) eqn:Hrun; [done|].
    split; simpl.
    + unfold client_wf. simpl. rewrite lookup_app_r, Nat.sub_diag by done. by eexists.
    + intros j ph Hj Hph. destruct (decide (j < length tasks)%nat) as [Hlt|Hge].
      * rewrite lookup_app_l in Hj by done.
        specialize (Hinv j ph Hj Hph). unfold task_running in Hrun.
        rewrite Hinv, Hj, Hph in Hrun. done.
      * apply lookup_lt_Some in Hj as Hlen. rewrite length_app in Hlen. simpl in Hlen.
        f_equal. lia.
  - unfold async_stop_ws. unfold client_wf in Hwf.
    destruct (_ws_task self) as [id|] eqn:Htask.
    + destruct Hwf as [ph Hph]. rewrite Hph.
      destruct (cancel_and_await_done true ph) as [res ->].
      assert (Hid : (<[id := Done res]> tasks) !! id = Some (Done res)).
      { apply list_lookup_insert_eq. by eapply lookup_lt_Some. }
      assert (Hrest : forall j ph', (<[id := Done res]> tasks) !! j = Some ph' ->
                task_done ph' = false -> False).
      { intros j ph' Hj Hph'. destruct (decide (j = id)) as [->|Hne].
        - rewrite Hid in Hj. by injection Hj as <-.
        - rewrite list_lookup_insert_ne in Hj by done.
          specialize (Hinv j ph' Hj Hph'). congruence. }
      destruct res as [| |e]; split; simpl;
        try (unfold client_wf; simpl; by rewrite ?Hid);
        intros j ph' Hj Hph'; by destruct (Hrest j ph' Hj Hph').
    + split; simpl; [unfold client_wf; simpl; by rewrite ?Htask|].
      intros j ph Hj Hph. specialize (Hinv j ph Hj Hph). congruence.
  - destruct (tasks !! id) as [ph|] eqn:Hph; [|done]. split; simpl.
    + unfold client_wf in *. destruct (_ws_task self) as [k|]; [|done].
      destruct Hwf as [phk Hk]. apply lookup_lt_is_Some. rewrite length_insert.
      by eapply lookup_lt_Some.
    + intros j ph' Hj Hph'. destruct (decide (j = id)) as [->|Hne].
      * rewrite list_lookup_insert_eq in Hj by (by eapply lookup_lt_Some).
        injection Hj as <-. apply (Hinv id ph Hph).
        destruct (task_done ph) eqn:Hd; [|done].
        by rewrite ws_resume_stays_done in Hph'.
      * rewrite list_lookup_insert_ne in Hj by done. by apply (Hinv j ph').
Qed.

(** X15. Whatever the client goes through (starts, stops, and
    resumptions of its tasks in any order), every task of the loop that
    is still running is the client's current push-channel task: no task
    is orphaned, and two tasks never run at the same time. *)
Theorem no_orphaned_task (host : string) (ops : list client_op) :
  let st := client_run host ops in
  (forall j ph, st.2 !! j = Some ph -> task_done ph = false -> _ws_task st.1 = Some j) /\
  (forall j k ph ph', st.2 !! j = Some ph -> st.2 !! k = Some ph' ->
     task_done ph = false -> task_done ph' = false -> j = k).
Proof.
  assert (Hgen : forall ops st0, no_orphans st0 -> no_orphans (foldl client_step st0 ops)).
  { clear. induction ops as [|op ops IH]; intros st0 H0; [done|].
    simpl. apply IH. by apply no_orphans_step. }
  assert (Hinv : no_orphans (client_run host ops)).
  { apply Hgen. split; [done|]. intros j ph Hj. by destruct j. }
  destruct Hinv as [_ Hinv]. simpl. split; [exact Hinv|].
  intros j k ph ph' Hj Hk Hph Hph'.
  pose proof (Hinv j ph Hj Hph) as H1. pose proof (Hinv k ph' Hk Hph') as H2. congruence.
Qed.

(** X16. Stopping is idempotent: after a stop that came back without
    an exception, a second stop comes back at once and changes
    nothing. *)
Theorem stop_twice (self self' : XToolApiClient) (tasks tasks' : list ws_phase) :
  async_stop_ws self tasks = Some (Ok tt, self', tasks') ->
  async_stop_ws self' tasks' = Some (Ok tt, self', tasks').
Proof.
  unfold async_stop_ws. destruct (_ws_task self) as [id|] eqn:Htask.
  - destruct (tasks !! id) as [ph|]; [|done].
    destruct (cancel_and_await_done true ph) as [res ->].
    destruct res; [| |done]; by intros [= <- <-].
  - intros [= <- <-]. simpl. by rewrite ?Htask.
Qed.
End LifecycleFacts.

(** ** Requests and answers *)

Section AnswerFacts.
Context {R : PyRuntime}.

(** A method that makes one request and then only computes. *)
Lemma one_request_trace {A} self path params (k : value -> io A) w :
  (forall p, trace (k p) w = []) ->
  trace (bind (_get_json self path params) k) w = [HttpGet (request_of self path params)].
Proof.
  intros Hk.
  destruct (outcome (_get_json self path params) w) as [e|p] eqn:Hj.
  - by rewrite (trace_bind_raise _ _ _ _ Hj), get_json_trace.
  - by rewrite (trace_bind_ok _ _ _ _ Hj), get_json_trace, Hk.
Qed.

Lemma field_trace {A} (p : value) key dflt (f : value -> A) w :
  trace (bind (lift (py_get p key dflt)) (fun t => ret (f t))) w = [].
Proof. unfold trace, bind, lift, ret. by destruct (py_get p key dflt). Qed.

Lemma snapshot_trace self w :
  trace (async_get_snapshot self) w = HttpGet <$> subcall_requests self.
Proof.
  assert (Hg : trace (gather4 (async_get_progress self) (async_get_working_state self)
                        (async_get_peripheral_status self) (async_get_machine_type self)) w
               = HttpGet <$> subcall_requests self).
  { rewrite gather4_trace. unfold async_get_progress, async_get_peripheral_status,
      async_get_working_state, async_get_machine_type.
    rewrite !get_json_trace.
    rewrite !one_request_trace by (intros p; apply field_trace). done. }
  unfold async_get_snapshot.
  destruct (outcome (gather4 (async_get_progress self) (async_get_working_state self)
              (async_get_peripheral_status self) (async_get_machine_type self)) w)
    as [e|[[[progress ws] per] mt]] eqn:Hout.
  - by rewrite (trace_bind_raise _ _ _ _ Hout).
  - rewrite (trace_bind_ok _ _ _ _ Hout), Hg.
    rewrite <- (app_nil_r (HttpGet <$> subcall_requests self)) at 2. f_equal.
    unfold trace, bind, lift, ret. simpl.
    destruct (rbind (py_get progress "progress" _) py_float); [done|].
    destruct (rbind (py_get progress "working" _) py_int); [done|].
    by destruct (rbind (py_get progress "line" _) py_int).
Qed.

(** X1. A poll cycle makes the same four requests whether it succeeds
    or fails, and no other: [/progress],
    [/system?action=get_working_sta], [/peripherystatus] and
    [/getmachinetype] of the coordinator's device, in this order. *)
Theorem poll_makes_four_requests (c : coordinator) (w : world) :
  let requests :=
    [HttpGet {| url := base_url (api c) +:+ "/progress"; query := [] |};
     HttpGet {| url := base_url (api c) +:+ "/system";
                query := [("action", "get_working_sta")] |};
     HttpGet {| url := base_url (api c) +:+ "/peripherystatus"; query := [] |};
     HttpGet {| url := base_url (api c) +:+ "/getmachinetype"; query := [] |}] in
  trace (async_get_snapshot (api c)) w = requests /\
  trace (_async_update_data c) w = requests /\
  (async_refresh c w).2 = requests.
Proof.
  intros requests.
  assert (Hs : trace (async_get_snapshot (api c)) w = requests) by apply snapshot_trace.
  assert (Hu : trace (_async_update_data c) w = requests).
  { unfold _async_update_data.
    assert (Ht : trace (as_update_failed (async_get_snapshot (api c))) w = requests).
    { rewrite <- Hs. unfold trace, as_update_failed.
      destruct (async_get_snapshot (api c) w) as [[e|a] t]; [|done]. by destruct e. }
    destruct (outcome (as_update_failed (async_get_snapshot (api c))) w) as [e|fresh] eqn:Hout.
    - by rewrite (trace_bind_raise _ _ _ _ Hout).
    - rewrite (trace_bind_ok _ _ _ _ Hout), Ht.
      rewrite <- (app_nil_r requests) at 2. f_equal.
      unfold trace, bind, lift, ret. by destruct (table_get _ _ _). }
  split; [done|]. split; [done|].
  unfold async_refresh. rewrite (io_eta (_async_update_data c) w), Hu.
  by destruct (outcome (_async_update_data c) w).
Qed.
End AnswerFacts.

Section SnapshotFacts.
Context {R : PyRuntime}.

(** A method that reads one field off an accepted object. *)
Lemma get_field_outcome {A} self path params key dflt (f : value -> A) w fields :
  http_exchange (net w (request_of self path params)) = inr (JObj fields) ->
  outcome (bind (_get_json self path params) (fun payload =>
           bind (lift (py_get payload key dflt)) (fun t => ret (f t)))) w
  = Ok (f (default dflt (obj_lookup key fields))).
Proof.
  intros H. apply get_json_accepted in H.
  by rewrite outcome_bind, H, rbind_ok, outcome_bind, outcome_lift.
Qed.

(** The methods that compare the [result] field with ["ok"]. *)
Lemma result_is_ok_iff self path params w :
  outcome (bind (_get_json self path params) (fun payload =>
           bind (lift (py_get payload "result" JNull)) (fun r =>
           ret (py_eq_str r "ok")))) w = Ok true <->
  exists fields,
    http_exchange (net w (request_of self path params)) = inr (JObj fields) /\
    obj_lookup "result" fields = Some (JStr "ok").
Proof.
  split.
  - rewrite outcome_bind.
    destruct (outcome (_get_json self path params) w) as [e|p] eqn:Hj; [discriminate|].
    apply get_json_accepted in Hj. rewrite rbind_ok, outcome_bind, outcome_lift.
    destruct p as [| | | | |items|fields]; try discriminate.
    cbn [py_get]. rewrite rbind_ok, outcome_ret.
    destruct (obj_lookup "result" fields) as [v|] eqn:Hv; cbn [default from_option id];
      [|discriminate].
    destruct v as [| | | |s| |]; try discriminate. cbn [py_eq_str].
    intros [= Hs]. apply String.eqb_eq in Hs as ->. by exists fields.
  - intros (fields & Hacc & Hres).
    by rewrite get_field_outcome with (fields := fields), Hres.
Qed.

(** X2. [async_ping] and [async_cnc_action] return [True] exactly when
    the device accepts the request and answers with a JSON object whose
    [result] field is the string ["ok"]. *)
Theorem true_only_on_result_ok (self : XToolApiClient) (action : string) (w : world) :
  (outcome (async_ping self) w = Ok true <->
   exists fields,
     http_exchange (net w (request_of self "/ping" [])) = inr (JObj fields) /\
     obj_lookup "result" fields = Some (JStr "ok")) /\
  (outcome (async_cnc_action self action) w = Ok true <->
   exists fields,
     http_exchange (net w (cnc_request self action)) = inr (JObj fields) /\
     obj_lookup "result" fields = Some (JStr "ok")).
Proof.
  split.
  - unfold async_ping. apply result_is_ok_iff.
  - unfold async_cnc_action, cnc_request. apply result_is_ok_iff.
Qed.

(** The snapshot built from four accepted answers. *)
Lemma snapshot_assembled self w pf wf per mf p wk ln :
  http_exchange (net w (request_of self "/progress" [])) = inr (JObj pf) ->
  http_exchange (net w (request_of self "/system" [("action", "get_working_sta")]))
    = inr (JObj wf) ->
  http_exchange (net w (request_of self "/peripherystatus" [])) = inr per ->
  http_exchange (net w (request_of self "/getmachinetype" [])) = inr (JObj mf) ->
  py_float (default (JFloat float_zero) (obj_lookup "progress" pf)) = Ok p ->
  py_int (default (JInt 0) (obj_lookup "working" pf)) = Ok wk ->
  py_int (default (JInt 0) (obj_lookup "line" pf)) = Ok ln ->
  outcome (async_get_snapshot self) w =
  Ok (list_to_map
        [("progress", JFloat p); ("working", JInt wk); ("line", JInt ln);
         ("working_state", JStr (py_str (default (JStr "0") (obj_lookup "working" wf))));
         ("machine_type",
          JStr (py_str (default (JStr "Unknown xTool") (obj_lookup "type" mf))));
         ("peripheral_status", per)]).
Proof.
  intros Hp Hw Hper Hm Hpf Hwk Hln.
  unfold async_get_snapshot. rewrite outcome_bind.
  rewrite (gather4_returns _ _ _ _ w (JObj pf)
             (py_str (default (JStr "0") (obj_lookup "working" wf))) per
             (py_str (default (JStr "Unknown xTool") (obj_lookup "type" mf)))).
  - assert (H1 : rbind (py_get (JObj pf) "progress" (JFloat float_zero)) py_float = Ok p)
      by exact Hpf.
    assert (H2 : rbind (py_get (JObj pf) "working" (JInt 0)) py_int = Ok wk) by exact Hwk.
    assert (H3 : rbind (py_get (JObj pf) "line" (JInt 0)) py_int = Ok ln) by exact Hln.
    rewrite rbind_ok. cbv beta iota.
    rewrite outcome_bind, outcome_lift, H1, rbind_ok.
    rewrite outcome_bind, outcome_lift, H2, rbind_ok.
    rewrite outcome_bind, outcome_lift, H3, rbind_ok.
    by rewrite outcome_ret.
  - by apply get_json_accepted.
  - unfold async_get_working_state. by apply get_field_outcome.
  - by apply get_json_accepted.
  - unfold async_get_machine_type. by apply get_field_outcome.
Qed.

(** X3. When the four requests of a snapshot are accepted, with JSON
    objects for the progress, the working state and the machine type,
    and the [progress], [working] and [line] fields of the progress
    object (or their defaults [0.0], [0], [0]) convert to a float and
    two ints, [async_get_snapshot] returns the dict with these numbers,
    the working state and the machine type as strings (["0"] and
    ["Unknown xTool"] when the field is missing), and the peripheral
    payload as it came, whatever its type. *)
Theorem snapshot_assembles_the_answers (self : XToolApiClient) (w : world)
    (pf wf mf : list (string * value)) (per : value) (p : pyfloat) (wk ln : Z) :
  http_exchange (net w (request_of self "/progress" [])) = inr (JObj pf) ->
  http_exchange (net w (request_of self "/system" [("action", "get_working_sta")]))
    = inr (JObj wf) ->
  http_exchange (net w (request_of self "/peripherystatus" [])) = inr per ->
  http_exchange (net w (request_of self "/getmachinetype" [])) = inr (JObj mf) ->
  py_float (default (JFloat float_zero) (obj_lookup "progress" pf)) = Ok p ->
  py_int (default (JInt 0) (obj_lookup "working" pf)) = Ok wk ->
  py_int (default (JInt 0) (obj_lookup "line" pf)) = Ok ln ->
  exists fresh,
    outcome (async_get_snapshot self) w = Ok fresh /\
    fresh !! "progress" = Some (JFloat p) /\
    fresh !! "working" = Some (JInt wk) /\
    fresh !! "line" = Some (JInt ln) /\
    fresh !! "working_state" =
      Some (JStr (py_str (default (JStr "0") (obj_lookup "working" wf)))) /\
    fresh !! "machine_type" =
      Some (JStr (py_str (default (JStr "Unknown xTool") (obj_lookup "type" mf)))) /\
    fresh !! "peripheral_status" = Some per /\
    size fresh = 6%nat.
Proof.
  intros Hp Hw Hper Hm Hpf Hwk Hln.
  eexists. split; [by eapply snapshot_assembled|].
  repeat (split; [done|]).
  cbn [list_to_map foldr uncurry fst snd].
  rewrite !map_size_insert, map_size_empty.
  rewrite !lookup_insert_ne by done. by rewrite lookup_empty.
Qed.
End SnapshotFacts.

(** ** What a poll cycle leaves in the coordinator *)

Section DataFacts.
Context {R : PyRuntime}.

(** Labelling and merging never fail. *)
Lemma update_data_of_snapshot c w fresh :
  outcome (async_get_snapshot (api c)) w = Ok fresh ->
  returns (outcome (_async_update_data c) w).
Proof.
  intros Hs. unfold _async_update_data.
  rewrite outcome_bind, as_update_failed_outcome.
  destruct (outcome (async_get_snapshot (api c)) w) as [e|fresh'] eqn:Hs'; [discriminate|].
  clear Hs fresh. cbn [rbind].
  destruct (snapshot_returned _ _ _ Hs') as (p & wk & ln & ws & mt & per & _ & _ & _ & ->).
  rewrite outcome_bind, outcome_lift.
  set (fresh := list_to_map _ : gmap string value).
  assert (Hraw : fresh !! "working_state" = Some (JStr ws)) by done.
  rewrite Hraw. cbn [default from_option id]. rewrite working_state_map_get, rbind_ok.
  rewrite outcome_ret. by eexists.
Qed.

(** X5. A poll cycle succeeds exactly when the snapshot request does:
    labelling the working state and merging the push-event field never
    fail. The refresh then records success, and failure otherwise. *)
Theorem poll_succeeds_iff_snapshot (c : coordinator) (w : world) :
  (returns (outcome (_async_update_data c) w) <->
   returns (outcome (async_get_snapshot (api c)) w)) /\
  (last_update_success (fst (async_refresh c w)) = true <->
   returns (outcome (async_get_snapshot (api c)) w)).
Proof.
  assert (Hiff : returns (outcome (_async_update_data c) w) <->
                 returns (outcome (async_get_snapshot (api c)) w)).
  { split.
    - intros [d Hd]. destruct (update_data_returned _ _ _ Hd) as (fresh & _ & Hs & _).
      by exists fresh.
    - intros [fresh Hs]. by eapply update_data_of_snapshot. }
  split; [done|]. rewrite <- Hiff.
  destruct (outcome (_async_update_data c) w) as [e|d] eqn:Hout.
  - destruct (refresh_failed c w) as [_ ->]; [by exists e|].
    split; [done|]. intros [d Hd]. discriminate.
  - destruct (refresh_succeeded c w d Hout) as [_ ->]. split; [by exists d|done].
Qed.

(** The fields of a poll result. *)
Lemma update_data_fields c w d :
  outcome (_async_update_data c) w = Ok d ->
  exists p wk ln raw mt per,
    d = (let polled : gmap string value :=
           <["working_state_label" := JStr (working_state_label raw)]>
             (list_to_map
                [("progress", JFloat p); ("working", JInt wk); ("line", JInt ln);
                 ("working_state", JStr raw); ("machine_type", JStr mt);
                 ("peripheral_status", per)]) in
         match ws_state c with
         | Some ws => <[ATTR_WS_STATE := ws]> polled
         | None => polled
         end).
Proof.
  intros Hok.
  destruct (update_data_returned _ _ _ Hok) as (fresh & raw & Hs & Hraw & _ & ->).
  destruct (snapshot_returned _ _ _ Hs) as (p & wk & ln & ws & mt & per & _ & _ & _ & ->).
  assert (ws = raw) as -> by (by injection Hraw).
  by exists p, wk, ln, raw, mt, per.
Qed.

Lemma update_data_has_poll_keys c w d k :
  outcome (_async_update_data c) w = Ok d -> k ∈ POLL_KEYS -> is_Some (d !! k).
Proof.
  intros Hok Hk.
  destruct (update_data_fields _ _ _ Hok) as (p & wk & ln & raw & mt & per & ->).
  cbv zeta. unfold POLL_KEYS in Hk.
  assert (Hne : k ≠ ATTR_WS_STATE).
  { intros ->. repeat (apply elem_of_cons in Hk as [Hk|Hk]; [discriminate|]).
    by apply elem_of_nil in Hk. }
  destruct (ws_state c); rewrite ?(lookup_insert_ne _ ATTR_WS_STATE) by done;
    repeat (apply elem_of_cons in Hk as [->|Hk]; [by eexists|]);
    by apply elem_of_nil in Hk.
Qed.

(** X6. The dict of a successful poll cycle has the seven keys
    [progress], [working], [line], [working_state], [machine_type],
    [peripheral_status] and [working_state_label], the key [ws_state]
    exactly when the previous snapshot had it, and no other: nothing
    else of the previous snapshot survives. [progress] is a float,
    [working] and [line] are ints, [working_state] and [machine_type]
    are strings. *)
Theorem poll_result_shape (c : coordinator) (w : world) (d : gmap string value) :
  outcome (_async_update_data c) w = Ok d ->
  dom d = list_to_set POLL_KEYS ∪
          (match ws_state c with
           | Some _ => {[ATTR_WS_STATE]}
           | None => ∅
           end : gset string) /\
  d !! ATTR_WS_STATE = ws_state c /\
  (exists p, d !! "progress" = Some (JFloat p)) /\
  (exists n, d !! "working" = Some (JInt n)) /\
  (exists n, d !! "line" = Some (JInt n)) /\
  (exists s, d !! "working_state" = Some (JStr s)) /\
  (exists s, d !! "machine_type" = Some (JStr s)).
Proof.
  intros Hok.
  destruct (update_data_fields _ _ _ Hok) as (p & wk & ln & raw & mt & per & ->).
  cbv zeta. cbn [list_to_map foldr uncurry fst snd].
  split.
  { destruct (ws_state c); rewrite !dom_insert_L, dom_empty_L;
      unfold POLL_KEYS; cbn [list_to_set foldr]; set_solver. }
  split.
  { destruct (ws_state c) as [v|].
    - by rewrite lookup_insert_eq.
    - by rewrite !lookup_insert_ne, lookup_empty. }
  destruct (ws_state c); rewrite ?(lookup_insert_ne _ ATTR_WS_STATE) by done;
    (split; [by exists p|]); (split; [by exists wk|]); (split; [by exists ln|]);
    (split; [by exists raw|by exists mt]).
Qed.
End DataFacts.

(** ** Push messages and poll cycles together *)

Section HistoryFacts.
Context {R : PyRuntime}.

Lemma falsy_dict_is_empty {V} (d : gmap string V) : dict_truthy d = false -> d = ∅.
Proof.
  unfold dict_truthy. destruct (Nat.eqb_spec (size d) 0) as [Hsz|Hsz]; [|done].
  intros _. by apply map_size_empty_iff.
Qed.

(** X7. A push message changes the snapshot in one place only: the new
    snapshot is the current one, or the empty dict before the first
    refresh, with [ws_state] set to the message. It also marks the
    coordinator as successfully updated, whatever the last poll cycle
    did. *)
Theorem push_changes_one_field (c : coordinator) (message : string) :
  let c' := _async_handle_ws_message c message in
  current_data c' = <[ATTR_WS_STATE := JStr message]> (current_data c) /\
  (forall k, k ≠ ATTR_WS_STATE -> current_data c' !! k = current_data c !! k) /\
  last_update_success c' = true.
Proof.
  intros c'.
  assert (Hd : current_data c' = <[ATTR_WS_STATE := JStr message]> (current_data c)).
  { unfold c', _async_handle_ws_message, current_data. simpl.
    destruct (data c) as [d|]; [|done].
    destruct (dict_truthy d) eqn:Ht; [done|]. by rewrite (falsy_dict_is_empty d Ht). }
  split; [done|]. split; [|done].
  intros k Hk. by rewrite Hd, lookup_insert_ne.
Qed.

(** A refresh leaves the push-event field as it was. *)
Lemma refresh_ws_state c w : ws_state (fst (async_refresh c w)) = ws_state c.
Proof.
  destruct (ws_state c) as [v|] eqn:Hv; [by apply refresh_keeps_ws_state|].
  destruct (outcome (_async_update_data c) w) as [e|d] eqn:Hout.
  - destruct (refresh_failed c w) as [Hdata _]; [by exists e|].
    unfold ws_state in *. by rewrite Hdata.
  - destruct (refresh_succeeded c w d Hout) as [Hdata _].
    destruct (update_data_returned _ _ _ Hout) as (fresh & raw & _ & _ & Hnone & Hd).
    unfold ws_state at 1. rewrite Hdata. simpl. rewrite Hd, Hv.
    by rewrite lookup_insert_ne.
Qed.

(** X8. After any sequence of poll cycles and push messages, the
    [ws_state] field of the snapshot is the last message pushed; when
    none was pushed it is what it was at the start, so that poll
    cycles, successful or not, never create, change or remove it. *)
Theorem ws_state_after_history (c : coordinator) (evs : list event) :
  ws_state (run c evs) =
  match last_push evs with
  | Some message => Some (JStr message)
  | None => ws_state c
  end.
Proof.
  revert c. induction evs as [|ev rest IH]; intros c; [done|].
  change (run c (ev :: rest)) with (run (step c ev) rest). rewrite IH.
  destruct ev as [w|m]; simpl.
  - destruct (last_push rest); [done|]. apply refresh_ws_state.
  - destruct (last_push rest); [done|]. apply push_sets_ws_state.
Qed.

Lemma step_keeps_poll_key c ev k :
  k ∈ POLL_KEYS -> is_Some (current_data c !! k) -> is_Some (current_data (step c ev) !! k).
Proof.
  intros Hk Hc. destruct ev as [w|m]; simpl.
  - destruct (outcome (_async_update_data c) w) as [e|d] eqn:Hout.
    + destruct (refresh_failed c w) as [Hdata _]; [by exists e|].
      unfold current_data in *. by rewrite Hdata.
    + destruct (refresh_succeeded c w d Hout) as [Hdata _].
      unfold current_data at 1. rewrite Hdata.
      by eapply update_data_has_poll_keys.
  - assert (Hne : k ≠ ATTR_WS_STATE).
    { intros ->. unfold POLL_KEYS in Hk.
      repeat (apply elem_of_cons in Hk as [Hk|Hk]; [discriminate|]).
      by apply elem_of_nil in Hk. }
    unfold _async_handle_ws_message, current_data in *. simpl.
    destruct (data c) as [d|]; [|by rewrite lookup_empty in Hc; destruct Hc].
    destruct (dict_truthy d) eqn:Ht.
    + by rewrite lookup_insert_ne.
    + rewrite (falsy_dict_is_empty d Ht), lookup_empty in Hc. by destruct Hc.
Qed.

(** X9. Once a poll cycle has succeeded, the snapshot keeps every one
    of the seven polled keys through all later poll cycles, failed or
    not, and all later push messages. *)
Theorem poll_fields_persist (c : coordinator) (w : world) (evs : list event) (k : string) :
  returns (outcome (_async_update_data c) w) ->
  k ∈ POLL_KEYS ->
  is_Some (current_data (run c (Poll w :: evs)) !! k).
Proof.
  intros [d Hd] Hk.
  change (run c (Poll w :: evs)) with (run (fst (async_refresh c w)) evs).
  assert (Hstart : is_Some (current_data (fst (async_refresh c w)) !! k)).
  { destruct (refresh_succeeded c w d Hd) as [Hdata _].
    unfold current_data. rewrite Hdata. by eapply update_data_has_poll_keys. }
  revert Hstart. generalize (fst (async_refresh c w)). clear Hd.
  induction evs as [|ev rest IH]; intros c0 Hc0; [done|].
  change (run c0 (ev :: rest)) with (run (step c0 ev) rest).
  by apply IH, step_keeps_poll_key.
Qed.
End HistoryFacts.

Section DefaultFacts.
Context {R : PyRuntime}.

Lemma http_exchange_accepted status body :
  status < 400 -> http_exchange (Response status body) = body.
Proof.
  intros Hs. unfold http_exchange, raise_for_status.
  by destruct (Z.leb_spec 400 status); [lia|].
Qed.

(** X4. A device that answers every request with a JSON object lacking
    the fields [type], [mac], [working], [progress] and [line] is
    reported with the defaults of the code: machine type
    ["Unknown xTool"], no MAC address, working state ["0"], and a
    snapshot with progress [0.0], working [0] and line [0] whose
    peripheral status is the object itself. *)
Theorem missing_fields_take_defaults (self : XToolApiClient) (status : Z)
    (fields : list (string * value)) (rank : nat -> nat) :
  status < 400 ->
  Forall (fun key => obj_lookup key fields = None)
         ["type"; "mac"; "working"; "progress"; "line"] ->
  let w := answering (Response status (inr (JObj fields))) rank in
  outcome (async_get_machine_type self) w = Ok "Unknown xTool" /\
  outcome (async_get_mac self) w = Ok None /\
  outcome (async_get_working_state self) w = Ok "0" /\
  outcome (async_get_snapshot self) w =
  Ok (list_to_map
        [("progress", JFloat float_zero); ("working", JInt 0); ("line", JInt 0);
         ("working_state", JStr "0"); ("machine_type", JStr "Unknown xTool");
         ("peripheral_status", JObj fields)]).
Proof.
  intros Hs Hmiss w.
  apply Forall_cons in Hmiss as [Htype Hmiss]. apply Forall_cons in Hmiss as [Hmac Hmiss].
  apply Forall_cons in Hmiss as [Hworking Hmiss].
  apply Forall_cons in Hmiss as [Hprogress Hmiss]. apply Forall_cons in Hmiss as [Hline _].
  assert (Hw : forall r, http_exchange (net w r) = inr (JObj fields)).
  { intros r. unfold w, answering. simpl. by apply http_exchange_accepted. }
  split; [|split; [|split]].
  - unfold async_get_machine_type.
    by rewrite (get_field_outcome _ _ _ _ _ _ _ fields), Htype by apply Hw.
  - unfold async_get_mac.
    rewrite (get_field_outcome _ _ _ _ _
               (fun mac => if py_truthy mac then Some (py_str mac) else None) _ fields)
      by apply Hw.
    by rewrite Hmac.
  - unfold async_get_working_state.
    by rewrite (get_field_outcome _ _ _ _ _ _ _ fields), Hworking by apply Hw.
  - rewrite (snapshot_assembled self w fields fields (JObj fields) fields float_zero 0 0);
      try apply Hw.
    + by rewrite Hworking, Htype.
    + by rewrite Hprogress.
    + by rewrite Hworking.
    + by rewrite Hline.
Qed.
End DefaultFacts.

(** ** Discovery *)

Section ListeningFacts.
Context {R : PyRuntime}.

Lemma receive_loop_timeout rid before after : forall found,
  receive_loop rid found (before ++ RecvTimeout :: after) = receive_loop rid found before.
Proof.
  induction before as [|r before IH]; intros found; [done|].
  destruct r as [[message|]| | |]; simpl; try done.
  destruct (accept rid message) as [e|[[h dev]|]]; by rewrite ?IH.
Qed.

(** X17. Discovery stops listening at the first time-out of the socket:
    whatever arrives afterwards, replies, malformed datagrams or socket
    errors, changes neither its result nor its failure. *)
Theorem nothing_after_timeout (u : udp) (before after : list recv_outcome) :
  _discover_devices_sync (hearing u (before ++ RecvTimeout :: after)) =
  _discover_devices_sync (hearing u before).
Proof.
  unfold _discover_devices_sync, hearing. simpl.
  destruct (socket_fails u); [done|].
  destruct (setup_failure u); [done|].
  by rewrite receive_loop_timeout.
Qed.

Lemma dict_set_elem {V} k (v : V) d entry :
  entry ∈ dict_set k v d -> entry = (k, v) \/ entry ∈ d.
Proof.
  induction d as [|[k' v'] rest IH]; simpl.
  - intros ->%list_elem_of_singleton. by left.
  - destruct (String.eqb k k').
    + intros [->|Hin]%elem_of_cons; [by left|]. right. by right.
    + intros [->|Hin]%elem_of_cons; [right; by left|].
      destruct (IH Hin) as [->|Hrest]; [by left|]. right. by right.
Qed.

Lemma accept_reply rid message h dev :
  accept rid message = Ok (Some (h, dev)) ->
  exists fields, message = JObj fields /\ h = host dev /\ reply_of rid fields dev.
Proof.
  destruct message as [| | | | | |fields]; try discriminate.
  unfold accept. cbn [py_get]. unfold Ok. cbn [rbind].
  destruct (py_eq_int _ rid) eqn:Hid; [|discriminate]. cbn [negb].
  match goal with
  | |- context [String.eqb ?s ""] => destruct (String.eqb_spec s "") as [Heq|Hne]
  end; [discriminate|].
  intros [= <- <-]. exists fields. by repeat split.
Qed.

Lemma receive_loop_sound rid (all : list recv_outcome) rs : forall found found',
  (forall r, r ∈ rs -> r ∈ all) ->
  (forall h dev, (h, dev) ∈ found ->
     exists fields, Datagram (Some (JObj fields)) ∈ all /\ reply_of rid fields dev) ->
  receive_loop rid found rs = Ok found' ->
  forall h dev, (h, dev) ∈ found' ->
    exists fields, Datagram (Some (JObj fields)) ∈ all /\ reply_of rid fields dev.
Proof.
  induction rs as [|r rest IH]; intros found found' Hsub Hinv; simpl.
  - by intros [= <-].
  - assert (Hrest : forall r', r' ∈ rest -> r' ∈ all) by (intros r' Hr'; apply Hsub; by right).
    destruct r as [[message|]| | |]; try discriminate.
    + destruct (accept rid message) as [e|[[h1 dev1]|]] eqn:Ha; [discriminate| |].
      * apply IH; [done|]. intros h dev [[= -> ->]|Hin]%dict_set_elem; [|by eauto].
        apply accept_reply in Ha as (fields & -> & _ & Hreply).
        exists fields. split; [|done]. apply Hsub. by left.
      * by apply IH.
    + by apply IH.
    + by intros [= <-].
Qed.

(** X18. Every device that discovery reports comes from a datagram it
    received that decodes to a JSON object carrying the request id of
    this discovery; the device's host is the stripped, non-empty [ip]
    of that object, its name and version are the object's [name] and
    [version] as strings, or ["xTool Laser"] and the empty string. *)
Theorem discovered_devices_answered_the_request (u : udp) (devs : list device)
    (dev : device) :
  _discover_devices_sync u = Ok devs ->
  dev ∈ devs ->
  exists fields,
    Datagram (Some (JObj fields)) ∈ received u /\
    reply_of (request_id u) fields dev.
Proof.
  unfold _discover_devices_sync.
  destruct (socket_fails u); [discriminate|].
  destruct (setup_failure u).
  { intros [= <-] Hin. by apply elem_of_nil in Hin. }
  destruct (receive_loop (request_id u) [] (received u)) as [e|found] eqn:Hloop.
  { destruct e; try discriminate. intros [= <-] Hin. by apply elem_of_nil in Hin. }
  intros [= <-] Hin. unfold dict_values in Hin.
  apply list_elem_of_fmap in Hin as ([h dev'] & -> & Hin). simpl.
  eapply (receive_loop_sound _ (received u)); [| |exact Hloop|exact Hin]; [done|].
  intros h' dev'' Hnil. by apply elem_of_nil in Hnil.
Qed.
End ListeningFacts.

(** ** Service calls and buttons *)

Section TargetFacts.
Context {R : PyRuntime}.

Lemma handler_untargeted (reg : registry) id action e w :
  _get_target_entries reg id = Raise e ->
  _async_handle_job_service reg id action w = (Raise e, []).
Proof. intros Ht. unfold _async_handle_job_service. by rewrite Ht. Qed.

(** X21. A service call that resolves no target contacts no device: it
    raises [HomeAssistantError] with the message "No xTool integrations
    are loaded" when no entry is loaded, whatever entry id is given,
    and with "Unknown xTool entry_id: <id>" when a non-empty id is given
    that is not loaded. An empty entry id is not such an error: it is
    treated as an omitted one. *)
Theorem untargeted_call_contacts_no_device (entries : list (string * item))
    (id : option string) (i action : string) (w : world) :
  _async_handle_job_service None id action w =
    (Raise (HomeAssistantError "No xTool integrations are loaded"), []) /\
  _async_handle_job_service (Some []) id action w =
    (Raise (HomeAssistantError "No xTool integrations are loaded"), []) /\
  (entries ≠ [] -> i ≠ "" -> i ∉ dict_keys entries ->
   _async_handle_job_service (Some entries) (Some i) action w =
     (Raise (HomeAssistantError ("Unknown xTool entry_id: " +:+ i)), [])) /\
  _async_handle_job_service (Some entries) (Some "") action w =
    _async_handle_job_service (Some entries) None action w.
Proof.
  split; [by apply handler_untargeted|]. split; [by apply handler_untargeted|].
  split.
  - intros Hne Hi Hnotin. apply handler_untargeted.
    unfold _get_target_entries. destruct entries as [|entry entries]; [done|].
    destruct (String.eqb_spec i "") as [->|_]; [done|]. cbn [negb].
    destruct (dict_lookup i (entry :: entries)) as [it|] eqn:Hit; [|done].
    destruct Hnotin. apply dict_lookup_elem. by rewrite Hit.
  - unfold _async_handle_job_service, _get_target_entries.
    by destruct entries.
Qed.

End TargetFacts.

(** ** Binary sensors *)

Section BinarySensorFacts.
Context {R : PyRuntime}.

(** The peripheral status of a poll result is the payload of
    [/peripherystatus]. *)
Lemma update_data_peripheral c w d per :
  outcome (_async_update_data c) w = Ok d ->
  http_exchange (net w (request_of (api c) "/peripherystatus" [])) = inr per ->
  d !! "peripheral_status" = Some per.
Proof.
  intros Hok Hper.
  destruct (update_data_returned _ _ _ Hok) as (fresh & raw & Hs & _ & _ & ->).
  destruct (snapshot_returned _ _ _ Hs) as (p & wk & ln & ws & mt & per' & _ & _ & Hp & ->).
  unfold async_get_peripheral_status in Hp. apply get_json_accepted in Hp.
  rewrite Hper in Hp. injection Hp as <-.
  cbv zeta. destruct (ws_state c); by rewrite !lookup_insert_ne.
Qed.

Lemma pushes_keep_no_status msgs : forall c,
  current_data c !! "peripheral_status" = None ->
  current_data (run c (Push <$> msgs)) !! "peripheral_status" = None.
Proof.
  induction msgs as [|m rest IH]; intros c Hc; [done|].
  change (run c (Push <$> m :: rest)) with (run (_async_handle_ws_message c m) (Push <$> rest)).
  apply IH. unfold _async_handle_ws_message, current_data in *. simpl.
  rewrite lookup_insert_ne by done.
  destruct (data c) as [d|]; [|done]. by destruct (dict_truthy d).
Qed.

(** X23. After a successful refresh, a binary sensor reads the payload
    that the device gave for [/peripherystatus]: for a JSON object it
    is on exactly when its flag is there and truthy; for [null] and the
    other falsy payloads it is off; for any other payload, such as a
    non-empty array, reading it raises [AttributeError]. Before the
    first refresh it is off, whatever push messages have arrived. *)
Theorem binary_sensor_reads_the_payload (c : coordinator) (w : world) (per : value)
    (flag : string) (client : XToolApiClient) (id : string) (ws : bool)
    (msgs : list string) :
  (returns (outcome (_async_update_data c) w) ->
   http_exchange (net w (request_of (api c) "/peripherystatus" [])) = inr per ->
   is_on (fst (async_refresh c w)) flag =
   match per with
   | JObj fields => Ok (py_truthy (default (JInt 0) (obj_lookup flag fields)))
   | _ => if py_truthy per then Raise AttributeError else Ok false
   end) /\
  is_on (run (new_coordinator client id ws) (Push <$> msgs)) flag = Ok false.
Proof.
  split.
  - intros [d Hd] Hper.
    destruct (refresh_succeeded c w d Hd) as [Hdata _].
    unfold is_on, flag_value_fn, current_data. rewrite Hdata.
    rewrite (update_data_peripheral _ _ _ _ Hd Hper). unfold or_empty_dict.
    destruct per as [|b|n|x|s|items|fields]; simpl; try done.
    + by destruct b.
    + by destruct (n =? 0).
    + by destruct (float_truthy x).
    + by destruct (String.eqb s "").
    + by destruct items.
    + by destruct fields.
  - unfold is_on, flag_value_fn.
    by rewrite (pushes_keep_no_status msgs (new_coordinator client id ws)).
Qed.
End BinarySensorFacts.

(** ** The configuration flow *)

Section ConfigFlowFacts.
Context {R : PyRuntime}.

Lemma ping_trace client w :
  trace (async_ping client) w = [HttpGet (request_of client "/ping" [])].
Proof. unfold async_ping. apply one_request_trace. intros p. apply field_trace. Qed.

Lemma machine_type_trace client w :
  trace (async_get_machine_type client) w = [HttpGet (request_of client "/getmachinetype" [])].
Proof. unfold async_get_machine_type. apply one_request_trace. intros p. apply field_trace. Qed.

Lemma mac_trace client w :
  trace (async_get_mac client) w =
  [HttpGet (request_of client "/system" [("action", "mac")])].
Proof.
  unfold async_get_mac. apply one_request_trace. intros p.
  apply (field_trace p "mac" JNull
           (fun mac => if py_truthy mac then Some (py_str mac) else None)).
Qed.

(** Validation that stops at the ping. *)
Lemma validate_stops_at_ping host_input name_input w :
  outcome (async_ping (new_client host_input)) w ≠ Ok true ->
  _validate_input host_input name_input w =
  (match outcome (async_ping (new_client host_input)) w with
   | inl e => Raise e
   | inr _ => Ok (inl CannotConnect)
   end, [HttpGet (request_of (new_client host_input) "/ping" [])]).
Proof.
  intros Hping. rewrite io_eta. unfold _validate_input.
  rewrite outcome_bind.
  destruct (outcome (async_ping (new_client host_input)) w) as [e|[|]] eqn:Hp.
  - by rewrite (trace_bind_raise _ _ _ _ Hp), ping_trace.
  - done.
  - by rewrite (trace_bind_ok _ _ _ _ Hp), ping_trace.
Qed.

(** Validation that succeeds. *)
Lemma validate_returned host_input name_input w i :
  outcome (_validate_input host_input name_input) w = Ok (inr i) ->
  let client := new_client host_input in
  outcome (async_ping client) w = Ok true /\
  outcome (async_get_machine_type client) w = Ok (info_machine_type i) /\
  outcome (async_get_mac client) w = Ok (info_mac i) /\
  info_title i = name_input /\
  trace (_validate_input host_input name_input) w =
  [HttpGet (request_of client "/ping" []);
   HttpGet (request_of client "/getmachinetype" []);
   HttpGet (request_of client "/system" [("action", "mac")])].
Proof.
  intros Hok client. revert Hok. unfold _validate_input. fold client.
  rewrite outcome_bind.
  destruct (outcome (async_ping client) w) as [e|[|]] eqn:Hp; [discriminate| |discriminate].
  rewrite rbind_ok. cbn [negb]. rewrite outcome_bind.
  destruct (outcome (async_get_machine_type client) w) as [e|mt] eqn:Hmt; [discriminate|].
  rewrite rbind_ok, outcome_bind.
  destruct (outcome (async_get_mac client) w) as [e|mac] eqn:Hmac; [discriminate|].
  rewrite rbind_ok, outcome_ret. intros [= <-]. simpl.
  repeat (split; [done|]).
  rewrite (trace_bind_ok _ _ _ _ Hp), ping_trace. cbn [negb].
  rewrite (trace_bind_ok _ _ _ _ Hmt), machine_type_trace.
  by rewrite (trace_bind_ok _ _ _ _ Hmac), mac_trace.
Qed.

(** X24. The manual step creates an entry only for a device that
    answered the ping with a JSON object whose [result] is ["ok"], and
    only after the three requests [/ping], [/getmachinetype] and
    [/system?action=mac] to port 8080 of the stripped host. The unique
    id of the entry is that of no flow in progress and of no configured
    entry; its data are the host and the name as they were entered, and
    its options a scan interval of 3 with the push channel enabled. *)
Theorem entry_only_for_an_answering_device (fl : flows) (host_input name_input : string)
    (w : world) (uid title : string) (entry_data : list (string * string))
    (interval : Z) (push : bool) :
  outcome (async_step_manual fl (Some (host_input, name_input))) w =
    Ok (inr (CreateEntry uid title entry_data interval push)) ->
  let client := new_client host_input in
  (exists fields,
     http_exchange (net w (request_of client "/ping" [])) = inr (JObj fields) /\
     obj_lookup "result" fields = Some (JStr "ok")) /\
  trace (async_step_manual fl (Some (host_input, name_input))) w =
    [HttpGet {| url := base_url client +:+ "/ping"; query := [] |};
     HttpGet {| url := base_url client +:+ "/getmachinetype"; query := [] |};
     HttpGet {| url := base_url client +:+ "/system"; query := [("action", "mac")] |}] /\
  _host client = str_strip host_input /\
  (uid ∉ in_progress fl) /\ (uid ∉ configured fl) /\
  entry_data =[("host", host_input); ("name", name_input)] /\
  interval = 3 /\ push = true.
Proof.
  unfold outcome at 1, trace at 1, async_step_manual, try_validate.
  rewrite (io_eta (_validate_input host_input name_input) w).
  destruct (outcome (_validate_input host_input name_input) w) as [e|[fe|i]] eqn:Hv.
  - by destruct e.
  - by destruct fe.
  - simpl. unfold create_entry, set_unique_id.
    destruct (bool_decide (mac_or (info_mac i) host_input ∈ in_progress fl)) eqn:Hprog;
      [discriminate|].
    destruct (bool_decide (mac_or (info_mac i) host_input ∈ configured fl)) eqn:Hconf;
      [discriminate|].
    intros [= <- <- <- <- <-].
    apply validate_returned in Hv as (Hping & _ & _ & _ & Htrace).
    split; [by apply result_is_ok_iff in Hping|].
    split; [by rewrite Htrace|]. split; [done|].
    apply bool_decide_eq_false in Hprog, Hconf. done.
Qed.
End ConfigFlowFacts.

Section FlowErrorFacts.
Context {R : PyRuntime}.

Lemma manual_step_stops_at_ping fl host_input name_input w :
  outcome (async_ping (new_client host_input)) w ≠ Ok true ->
  async_step_manual fl (Some (host_input, name_input)) w =
  (Ok (inr (manual_form
              [("base", match outcome (async_ping (new_client host_input)) w with
                        | inl XToolApiError | inr _ => "cannot_connect"
                        | inl _ => "unknown"
                        end)])),
   [HttpGet (request_of (new_client host_input) "/ping" [])]).
Proof.
  intros Hping. unfold async_step_manual, try_validate.
  rewrite (validate_stops_at_ping _ _ _ Hping).
  destruct (outcome (async_ping (new_client host_input)) w) as [e|b]; [|done].
  by destruct e.
Qed.

(** X25. The manual step reports a device that does not answer the
    ping properly in its form, after that one request and no other:
    with the error [cannot_connect] when the request is turned down or
    the answer is a JSON object whose [result] is not ["ok"], and with
    the error [unknown] when the answer is JSON of another type. *)
Theorem manual_step_reports_the_ping (fl : flows) (host_input name_input : string)
    (w : world) :
  let ping := request_of (new_client host_input) "/ping" [] in
  let form reason :=
    (Ok (inr (ShowForm "manual" None [("name", "xTool Laser")] [("base", reason)])),
     [HttpGet ping]) in
  (rejected (net w ping) ->
   async_step_manual fl (Some (host_input, name_input)) w = form "cannot_connect") /\
  (forall fields,
     http_exchange (net w ping) = inr (JObj fields) ->
     obj_lookup "result" fields ≠ Some (JStr "ok") ->
     async_step_manual fl (Some (host_input, name_input)) w = form "cannot_connect") /\
  (forall p,
     http_exchange (net w ping) = inr p ->
     (forall fields, p ≠ JObj fields) ->
     async_step_manual fl (Some (host_input, name_input)) w = form "unknown").
Proof.
  intros ping form. split; [|split].
  - intros Hrej.
    assert (Hp : outcome (async_ping (new_client host_input)) w = Raise XToolApiError).
    { unfold async_ping. by apply request_then_rejected. }
    rewrite manual_step_stops_at_ping; by rewrite Hp.
  - intros fields Hacc Hres.
    assert (Hp : outcome (async_ping (new_client host_input)) w = Ok false).
    { destruct (outcome (async_ping (new_client host_input)) w) as [e|[|]] eqn:Hp.
      - unfold async_ping in Hp.
        rewrite (get_field_outcome _ _ _ _ _ _ _ fields) in Hp by done. discriminate.
      - apply result_is_ok_iff in Hp as (fields' & Hacc' & Hres').
        fold ping in Hacc'. rewrite Hacc in Hacc'. injection Hacc' as <-. done.
      - done. }
    rewrite manual_step_stops_at_ping; by rewrite Hp.
  - intros p Hacc Hno.
    assert (Hp : outcome (async_ping (new_client host_input)) w = Raise AttributeError).
    { unfold async_ping. apply get_json_accepted in Hacc.
      rewrite outcome_bind, Hacc, rbind_ok, outcome_bind, outcome_lift.
      destruct p; try done. by destruct (Hno fields). }
    rewrite manual_step_stops_at_ping; by rewrite Hp.
Qed.
End FlowErrorFacts.

Section DiscoverStepFacts.
Context {R : PyRuntime}.

Lemma dict_set_fresh {V} k (v : V) d : k ∉ dict_keys d -> dict_set k v d = d ++ [(k, v)].
Proof.
  induction d as [|[k' v'] rest IH]; intros Hk; [done|]. simpl in *.
  apply not_elem_of_cons in Hk as [Hne Hk].
  destruct (String.eqb_spec k k') as [->|_]; [done|]. by rewrite IH.
Qed.

Lemma dict_set_wf h dev found :
  host dev = h -> h ≠ "" -> found_wf found -> found_wf (dict_set h dev found).
Proof.
  intros Hh Hne [Hnd Hall]. split; [by apply dict_set_nodup|].
  apply Forall_forall. intros entry [->|Hin]%dict_set_elem; [done|].
  by apply (proj1 (Forall_forall _ _) Hall).
Qed.

Lemma receive_loop_wf rid rs : forall found found',
  receive_loop rid found rs = Ok found' -> found_wf found -> found_wf found'.
Proof.
  induction rs as [|r rest IH]; intros found found'; simpl.
  - by intros [= <-].
  - destruct r as [[message|]| | |]; try discriminate.
    + destruct (accept rid message) as [e|[[h dev]|]] eqn:Ha; [discriminate| |by apply IH].
      intros Hloop Hwf. apply (IH _ _ Hloop).
      apply accept_reply in Ha as (fields & _ & -> & _ & _ & Hne & _).
      by apply dict_set_wf.
    + by apply IH.
    + by intros [= <-].
Qed.

Lemma index_of_found found : forall acc,
  found_wf found ->
  (forall k, k ∈ dict_keys found -> k ∉ dict_keys acc) ->
  foldl (fun d item =>
           if negb (String.eqb (host item) "") then dict_set (host item) item d else d)
        acc (dict_values found) = acc ++ found.
Proof.
  induction found as [|[h dev] rest IH]; intros acc [Hnd Hall] Hfresh.
  - by rewrite app_nil_r.
  - apply Forall_cons in Hall as [[Hh Hne] Hall]. simpl in *.
    apply NoDup_cons in Hnd as [Hnotin Hnd]. subst h.
    destruct (String.eqb_spec (host dev) "") as [|_]; [done|]. cbn [negb].
    rewrite dict_set_fresh by (apply Hfresh; by left).
    rewrite IH.
    + by rewrite <- app_assoc.
    + done.
    + intros k Hk. unfold dict_keys. rewrite map_app. simpl.
      intros [Hacc|Hlast%list_elem_of_singleton]%elem_of_app.
      * by apply (Hfresh k); [right|].
      * by subst k.
Qed.

(** X20. Discovery never reports a host twice, nor an empty host; so
    the index by host that the discover step builds from its result
    holds every reported device, in the order of the result. *)
Theorem discovered_hosts_are_distinct (u : udp) (devs : list device) :
  _discover_devices_sync u = Ok devs ->
  NoDup (host <$> devs) /\
  Forall (fun dev => host dev ≠ "") devs /\
  index_by_host devs = (fun dev => (host dev, dev)) <$> devs.
Proof.
  intros Hok.
  assert (Hfound : exists found, found_wf found /\ devs = dict_values found).
  { revert Hok. unfold _discover_devices_sync.
    destruct (socket_fails u); [discriminate|].
    destruct (setup_failure u).
    { intros [= <-]. exists []. split; [|done]. split; constructor. }
    destruct (receive_loop (request_id u) [] (received u)) as [e|found] eqn:Hloop.
    { destruct e; try discriminate. intros [= <-]. exists []. split; [|done].
      split; constructor. }
    intros [= <-]. exists found. split; [|done].
    apply (receive_loop_wf _ _ _ _ Hloop). split; constructor. }
  destruct Hfound as (found & Hwf & ->).
  assert (Hpairs : (fun dev => (host dev, dev)) <$> dict_values found = found).
  { destruct Hwf as [_ Hall]. clear Hok. unfold dict_values.
    induction Hall as [|[h dev] rest [Hh _] _ IH]; [done|].
    simpl in Hh. subst h. cbn. by f_equal. }
  assert (Hkeys : host <$> dict_values found = dict_keys found).
  { rewrite <- Hpairs at 2. unfold dict_keys.
    rewrite <- list_fmap_compose. by apply list_fmap_ext. }
  split; [|split].
  - rewrite Hkeys. by destruct Hwf.
  - destruct Hwf as [_ Hall]. unfold dict_values. apply Forall_fmap.
    eapply Forall_impl; [exact Hall|]. intros [h dev] [Hh Hne]. simpl in *. by rewrite Hh.
  - rewrite Hpairs. unfold index_by_host. rewrite index_of_found; [done|done|].
    intros k _ Hin. by apply elem_of_nil in Hin.
Qed.

(** X26. A discover step that has to discover and hears of no device
    aborts the flow with [no_devices_found] without contacting any:
    when a socket call fails once the socket exists, be it one of the
    calls that prepare it or a [recvfrom] that raises [OSError] after
    datagrams that are JSON objects or raise [JSONDecodeError] (the
    devices heard before it are lost), and when up to the time-out only
    such datagrams arrive and none of them is kept, in particular when
    none arrives. When creating the socket fails, the step raises
    [OSError]. In all these cases nothing is remembered, so that the
    next call discovers again. *)
Theorem discover_step_without_devices (fl : flows) (u : udp)
    (user_input : option (string * option string)) (w : world) :
  (socket_fails u = false ->
   is_Some (setup_failure u) \/
   (exists before after,
      received u = before ++ RecvOSError :: after /\ Forall object_or_garbage before) \/
   (Forall object_or_garbage (heard (received u)) /\
    omap (kept (request_id u)) (heard (received u)) = []) ->
   async_step_discover [] fl u user_input w =
     (Ok (inr (AbortResult "no_devices_found")), [], [])) /\
  (socket_fails u = true ->
   async_step_discover [] fl u user_input w = (Raise OSError, [], [])).
Proof.
  split.
  - intros Hsock Hnone.
    assert (Hd : _discover_devices_sync u = Ok []).
    { destruct Hnone as [Hsetup|[Hrecv|[Hwf Hkept]]].
      - apply discovery_swallows_oserror; [done|by left].
      - apply discovery_swallows_oserror; [done|by right].
      - unfold _discover_devices_sync. rewrite Hsock.
        destruct (setup_failure u); [done|].
        rewrite receive_loop_returns, Hkept; [done|done|].
        intros Hin. by apply (proj1 (Forall_forall _ _) Hwf) in Hin. }
    unfold async_step_discover. by rewrite Hd.
  - intros Hsock. unfold async_step_discover, _discover_devices_sync. by rewrite Hsock.
Qed.

Lemma str_le_total : Total str_le.
Proof. intros a b. apply String.leb_total. Qed.

(** X27. Once devices are discovered, a discover step without input
    shows the form of the step without rediscovering and without
    contacting a device: the form offers exactly the discovered hosts,
    in sorted order, and proposes one of them, with the name that its
    device announced or ["xTool Laser"] when that name is empty. *)
Theorem discover_form_offers_every_host (discovered : list (string * device))
    (fl : flows) (u : udp) (w : world) :
  discovered ≠ [] ->
  exists hosts proposed dev,
    async_step_discover discovered fl u None w =
      (Ok (inr (ShowForm "discover" (Some hosts)
                  [("host", proposed);
                   ("name", if String.eqb (name dev) "" then "xTool Laser" else name dev)]
                  [])),
       [], discovered) /\
    hosts ≡ₚ dict_keys discovered /\
    Sorted str_le hosts /\
    proposed ∈ hosts /\
    dict_lookup proposed discovered = Some dev.
Proof.
  intros Hne. destruct discovered as [|[h0 d0] rest]; [done|].
  set (found := (h0, d0) :: rest).
  set (hosts := sorted (dict_keys found)).
  assert (Hperm : hosts ≡ₚ dict_keys found) by apply merge_sort_Permutation.
  assert (Hin : hd h0 hosts ∈ hosts).
  { destruct hosts as [|h hs] eqn:Hh; [|by left].
    apply Permutation_nil_l in Hperm. discriminate. }
  assert (Hdev : is_Some (dict_lookup (hd h0 hosts) found)).
  { apply dict_lookup_elem. by rewrite <- Hperm. }
  destruct Hdev as [dev Hdev].
  exists hosts, (hd h0 hosts), dev.
  split; [|split; [done|split; [|done]]].
  - subst hosts found. unfold async_step_discover, Ok. cbv beta iota zeta.
    by rewrite Hdev.
  - apply Sorted_merge_sort, str_le_total.
Qed.
End DiscoverStepFacts.

(** ** Setting up and unloading entries *)

Section SetupFacts.
Context {R : PyRuntime}.

Lemma refresh_trace c w : (async_refresh c w).2 = HttpGet <$> subcall_requests (api c).
Proof.
  unfold async_refresh. rewrite (io_eta (_async_update_data c) w).
  assert (Hu : trace (_async_update_data c) w = HttpGet <$> subcall_requests (api c)).
  { unfold _async_update_data.
    assert (Ht : trace (as_update_failed (async_get_snapshot (api c))) w
                 = HttpGet <$> subcall_requests (api c)).
    { rewrite <- snapshot_trace with (w := w). unfold trace, as_update_failed.
      destruct (async_get_snapshot (api c) w) as [[e|a] t]; [|done]. by destruct e. }
    destruct (outcome (as_update_failed (async_get_snapshot (api c))) w) as [e|fresh] eqn:Hout.
    - by rewrite (trace_bind_raise _ _ _ _ Hout).
    - rewrite (trace_bind_ok _ _ _ _ Hout), Ht.
      rewrite <- (app_nil_r (HttpGet <$> subcall_requests (api c))) at 2. f_equal.
      unfold trace, bind, lift, ret. by destruct (table_get _ _ _). }
  rewrite Hu. by destruct (outcome (_async_update_data c) w).
Qed.

Lemma refresh_keeps_identity c w :
  api (async_refresh c w).1 = api c /\
  entry_id (async_refresh c w).1 = entry_id c /\
  use_websocket (async_refresh c w).1 = use_websocket c.
Proof. unfold async_refresh. by destruct (_async_update_data c w) as [[e|d] t]. Qed.

Lemma refresh_success_iff c w :
  last_update_success (async_refresh c w).1 = true <->
  returns (outcome (async_get_snapshot (api c)) w).
Proof.
  destruct (outcome (_async_update_data c) w) as [e|d] eqn:Hout.
  - destruct (refresh_failed c w) as [_ ->]; [by exists e|].
    split; [done|]. intros [fresh Hs].
    destruct (update_data_of_snapshot _ _ _ Hs) as [d Hd]. rewrite Hout in Hd. discriminate.
  - destruct (refresh_succeeded c w d Hout) as [_ ->]. split; [|done]. intros _.
    destruct (update_data_returned _ _ _ Hout) as (fresh & _ & Hs & _). by exists fresh.
Qed.

Lemma start_keeps_identity c tasks :
  entry_id (async_start c tasks).1 = entry_id c /\
  _host (api (async_start c tasks).1) = _host (api c).
Proof.
  unfold async_start. destruct (use_websocket c); [|done].
  unfold async_start_ws. by destruct (task_running tasks (api c)).
Qed.

Lemma register_services_all registered s :
  s ∈ JOB_SERVICES -> s ∈ _async_register_services registered.
Proof.
  assert (Hkeep : forall reg x y, x ∈ reg -> x ∈ register_service reg y).
  { intros reg x y Hx. unfold register_service. case_bool_decide; [done|].
    apply elem_of_app. by left. }
  assert (Hadd : forall reg y, y ∈ register_service reg y).
  { intros reg y. unfold register_service. case_bool_decide; [done|].
    apply elem_of_app. right. by left. }
  unfold _async_register_services, JOB_SERVICES. simpl.
  intros Hs. repeat (apply elem_of_cons in Hs as [->|Hs]); auto.
  by apply elem_of_nil in Hs.
Qed.

(** X28. [async_setup_entry] puts the entry into [hass.data] and
    registers the three job services before the first refresh, and
    removes neither when that refresh fails. It returns exactly when
    the first snapshot succeeds; otherwise it raises
    [ConfigEntryNotReady] after the four requests of the poll cycle,
    starts no push-channel task, and leaves the entry loaded, so that
    a job service call with its id still targets it. *)
Theorem failed_setup_leaves_the_entry (h : hass) (entry : ConfigEntry) (w : world) :
  let r := (async_setup_entry h entry w).1.1 in
  let h' := (async_setup_entry h entry w).1.2 in
  let client := new_client (config_host entry) in
  (r = SetupDone <-> returns (outcome (async_get_snapshot client) w)) /\
  (async_setup_entry h entry w).2 = HttpGet <$> subcall_requests client /\
  (forall s, s ∈ JOB_SERVICES -> s ∈ services h') /\
  (exists it,
     dict_lookup (config_entry_id entry) (loaded h') = Some it /\
     entry_id (item_coordinator it) = config_entry_id entry /\
     _host (item_api it) = str_strip (config_host entry)) /\
  (r = ConfigEntryNotReady ->
   loop_tasks h' = loop_tasks h /\
   (config_entry_id entry ≠ "" ->
    _get_target_entries (hass_data h') (Some (config_entry_id entry)) =
      Ok [config_entry_id entry])).
Proof.
  intros r h' client. subst r h'. unfold async_setup_entry. fold client.
  set (c := new_coordinator client (config_entry_id entry)
              (default true (option_use_websocket entry))).
  pose proof (refresh_trace c w) as Htrace.
  pose proof (refresh_keeps_identity c w) as (Hapi & Hid & _).
  pose proof (refresh_success_iff c w) as Hiff.
  destruct (async_refresh c w) as [c1 t]. simpl in Htrace, Hapi, Hid, Hiff.
  destruct (last_update_success c1) eqn:Hlast.
  - pose proof (start_keeps_identity c1 (loop_tasks h)) as [Hid2 Hhost2].
    destruct (async_start c1 (loop_tasks h)) as [c2 tasks']. simpl in *.
    split; [split; [intros _; by apply Hiff|done]|].
    split; [done|]. split; [by apply register_services_all|].
    split; [|done].
    exists (item_of c2). unfold loaded. simpl. rewrite dict_lookup_set, String.eqb_refl.
    split; [done|]. split; [by rewrite Hid2, Hid|]. by rewrite Hhost2, Hapi.
  - simpl. split.
    { split; [done|]. intros Hret. apply Hiff in Hret. discriminate. }
    split; [done|]. split; [by apply register_services_all|].
    split.
    { exists (item_of c1). unfold loaded. simpl. rewrite dict_lookup_set, String.eqb_refl.
      split; [done|]. split; [done|]. by rewrite Hapi. }
    intros _. split; [done|]. intros Hne.
    unfold _get_target_entries.
    destruct (dict_set (config_entry_id entry) (item_of c1) (default [] (hass_data h)))
      as [|first others] eqn:Hset.
    { by destruct (default [] (hass_data h)) as [|[k v] rest];
        simpl in Hset; [|destruct (String.eqb _ _)]. }
    rewrite <- Hset.
    destruct (String.eqb_spec (config_entry_id entry) "") as [|_]; [done|]. cbn [negb].
    by rewrite dict_lookup_set, String.eqb_refl.
Qed.
End SetupFacts.

Section UnloadFacts.
Context {R : PyRuntime}.

Lemma dict_set_fresh_pop {V} k (v : V) d : k ∉ dict_keys d -> dict_pop k (dict_set k v d) = d.
Proof.
  induction d as [|[k' v'] rest IH]; intros Hk; simpl.
  - by rewrite String.eqb_refl.
  - simpl in Hk. apply not_elem_of_cons in Hk as [Hne Hk].
    destruct (String.eqb_spec k k') as [->|_]; [done|]. simpl.
    destruct (String.eqb_spec k k') as [->|_]; [done|]. by rewrite IH.
Qed.

Lemma dict_set_twice {V} k (v v' : V) d : dict_set k v' (dict_set k v d) = dict_set k v' d.
Proof.
  induction d as [|[k1 v1] rest IH]; simpl.
  - by rewrite String.eqb_refl.
  - destruct (String.eqb_spec k k1) as [->|Hne]; simpl.
    + by rewrite String.eqb_refl.
    + destruct (String.eqb_spec k k1) as [->|_]; [done|]. by rewrite IH.
Qed.

Lemma remove_service_elem s x registered :
  x ∈ remove_service s registered <-> x ∈ registered /\ x ≠ s.
Proof.
  induction registered as [|y rest IH]; simpl.
  - split; [by intros ?%elem_of_nil|by intros [?%elem_of_nil _]].
  - destruct (String.eqb_spec y s) as [->|Hne].
    + rewrite IH, elem_of_cons. tauto.
    + rewrite !elem_of_cons, IH. intuition congruence.
Qed.

Lemma unregister_services_none registered s :
  s ∈ JOB_SERVICES -> s ∉ _async_unregister_services registered.
Proof.
  assert (Hgone : forall reg y, y ∉ (if bool_decide (y ∈ reg) then remove_service y reg else reg)).
  { intros reg y. case_bool_decide; [|done]. rewrite remove_service_elem.
    intros [_ Hne]. by apply Hne. }
  assert (Hstay : forall reg x y,
    x ∉ reg -> x ∉ (if bool_decide (y ∈ reg) then remove_service y reg else reg)).
  { intros reg x y Hx. case_bool_decide; [|done]. rewrite remove_service_elem.
    by intros [Hin _]. }
  unfold _async_unregister_services, JOB_SERVICES. simpl.
  intros Hs. repeat (apply elem_of_cons in Hs as [->|Hs]); auto.
  by apply elem_of_nil in Hs.
Qed.

(** X29. Setting up an entry that was not loaded and unloading it
    right away brings the integration back: the unload returns [True],
    the loaded entries are those from before, the push-channel task
    that the setup started, if the entry uses the push channel, is
    cancelled and no other task of the loop is touched, and the job
    services are gone when no other entry is loaded and all there
    otherwise. *)
Theorem setup_then_unload (h : hass) (entry : ConfigEntry) (w : world) :
  config_entry_id entry ∉ dict_keys (loaded h) ->
  (async_setup_entry h entry w).1.1 = SetupDone ->
  exists h2,
    async_unload_entry (async_setup_entry h entry w).1.2 entry true = Some (Ok true, h2) /\
    loaded h2 = loaded h /\
    loop_tasks h2 =
      loop_tasks h ++
      (if default true (option_use_websocket entry) then [Done Cancelled] else []) /\
    (forall s, s ∈ JOB_SERVICES ->
       if bool_decide (loaded h = []) then s ∉ services h2 else s ∈ services h2).
Proof.
  intros Hfresh. unfold async_setup_entry.
  set (use_ws := default true (option_use_websocket entry)).
  set (c := new_coordinator (new_client (config_host entry)) (config_entry_id entry) use_ws).
  pose proof (refresh_keeps_identity c w) as (Hapi & _ & Huse).
  destruct (async_refresh c w) as [c1 t]. simpl in Hapi, Huse.
  destruct (last_update_success c1); [|discriminate]. intros _.
  unfold loaded in *. set (entries := default [] (hass_data h)) in *.
  assert (Hservices : forall c' s, s ∈ JOB_SERVICES ->
    if bool_decide (entries = []) then
      s ∉ match dict_pop (config_entry_id entry)
                  (dict_set (config_entry_id entry) c' entries) with
          | [] => _async_unregister_services (_async_register_services (services h))
          | _ => _async_register_services (services h)
          end
    else
      s ∈ match dict_pop (config_entry_id entry)
                  (dict_set (config_entry_id entry) c' entries) with
          | [] => _async_unregister_services (_async_register_services (services h))
          | _ => _async_register_services (services h)
          end).
  { intros c' s Hs. rewrite dict_set_fresh_pop by done. case_bool_decide as Hempty.
    - rewrite Hempty. by apply unregister_services_none.
    - destruct entries; [done|]. by apply register_services_all. }
  unfold async_start. rewrite Huse. subst use_ws. simpl.
  destruct (default true (option_use_websocket entry)) eqn:Hws.
  - unfold async_start_ws, task_running. rewrite Hapi. simpl.
    eexists. unfold async_unload_entry. simpl.
    rewrite dict_lookup_set, String.eqb_refl. simpl.
    unfold async_stop, async_stop_ws. simpl.
    rewrite list_lookup_middle by done. simpl.
    rewrite dict_set_twice. split; [reflexivity|]. simpl.
    split; [by rewrite dict_set_fresh_pop|]. split.
    + rewrite <- (Nat.add_0_r (length (loop_tasks h))). by rewrite insert_app_r.
    + apply Hservices.
  - eexists. unfold async_unload_entry. simpl.
    rewrite dict_lookup_set, String.eqb_refl. simpl.
    unfold async_stop, async_stop_ws. rewrite Hapi. simpl.
    rewrite dict_set_twice. split; [reflexivity|]. simpl.
    split; [by rewrite dict_set_fresh_pop|]. split.
    + by rewrite app_nil_r.
    + apply Hservices.
Qed.

Lemma dict_set_not_nil {V} k (v : V) d : dict_set k v d ≠ [].
Proof. destruct d as [|[k' v'] rest]; simpl; [done|]. by destruct (String.eqb k k'). Qed.

(** X30. Through any sequence of setups and unloads, successful or
    not, the three job services are registered exactly when an entry
    is loaded: the services of the domain are [pause_job], [resume_job]
    and [stop_job] while [hass.data] holds an entry, and none
    otherwise. *)
Theorem services_follow_entries (ops : list hass_op) :
  services (hass_run ops) =
  match loaded (hass_run ops) with
  | [] => []
  | _ => ["pause_job"; "resume_job"; "stop_job"]
  end.
Proof.
  unfold hass_run.
  assert (Hstep : forall h op,
    services h = match loaded h with [] => [] | _ => JOB_SERVICES end ->
    services (hass_step h op) =
    match loaded (hass_step h op) with [] => [] | _ => JOB_SERVICES end).
  { intros h op Hinv. destruct op as [entry w|entry unload_ok]; simpl.
    - assert (Hreg : _async_register_services (services h) = JOB_SERVICES).
      { rewrite Hinv. by destruct (loaded h). }
      unfold async_setup_entry. destruct (async_refresh _ w) as [c1 t].
      destruct (last_update_success c1).
      + destruct (async_start c1 (loop_tasks h)) as [c2 tasks']. unfold loaded. simpl.
        by destruct (dict_set _ _ _) eqn:Hset; [apply dict_set_not_nil in Hset|].
      + unfold loaded. simpl.
        by destruct (dict_set _ _ _) eqn:Hset; [apply dict_set_not_nil in Hset|].
    - unfold async_unload_entry. fold (loaded h).
      destruct (dict_lookup (config_entry_id entry) (loaded h)) as [it|] eqn:Hit; [|done].
      assert (Hjob : services h = JOB_SERVICES).
      { rewrite Hinv. destruct (loaded h); [discriminate|done]. }
      destruct (async_stop (item_coordinator it) (loop_tasks h)) as [[[r c'] tasks']|]; [|done].
      destruct r as [e|[]].
      + unfold loaded at 1. simpl.
        by destruct (dict_set _ _ _) eqn:Hset; [apply dict_set_not_nil in Hset|].
      + destruct unload_ok; unfold loaded at 1; simpl.
        * destruct (dict_pop _ _); [by rewrite Hjob|done].
        * by destruct (dict_set _ _ _) eqn:Hset; [apply dict_set_not_nil in Hset|]. }
  change ["pause_job"; "resume_job"; "stop_job"] with JOB_SERVICES.
  generalize no_hass (eq_refl : services no_hass =
    match loaded no_hass with [] => [] | _ => JOB_SERVICES end).
  induction ops as [|op rest IH]; intros h Hinv; [done|].
  simpl. apply IH. by apply Hstep.
Qed.
End UnloadFacts.

(** * The further properties at work *)

(** The snapshot of the device at work, from its four answers. *)
Lemma snapshot_assembles_the_answers_witness :
  exists fresh,
    outcome (async_get_snapshot laser) (serving laser_answers) = Ok fresh /\
    fresh !! "progress" = Some (JFloat f45) /\
    fresh !! "working" = Some (JInt 120000) /\
    fresh !! "line" = Some (JInt 30) /\
    fresh !! "working_state" = Some (JStr "1") /\
    fresh !! "machine_type" = Some (JStr "xTool D1") /\
    fresh !! "peripheral_status" =
      Some (JObj [("sdCard", JInt 1); ("limitStopFlag", JInt 0)]) /\
    size fresh = 6%nat.
Proof.
  apply (snapshot_assembles_the_answers laser (serving laser_answers)
           [("progress", JFloat f45); ("working", JInt 120000); ("line", JInt 30)]
           [("result", JStr "ok"); ("working", JStr "1")]
           [("result", JStr "ok"); ("type", JStr "xTool D1")]
           (JObj [("sdCard", JInt 1); ("limitStopFlag", JInt 0)])
           f45 120000 30); vm_compute; reflexivity.
Defined.

(** The shape of the snapshot of the end-to-end example. *)
Lemma poll_result_shape_witness :
  outcome (_async_update_data laser_coordinator) (serving laser_answers) = Ok laser_snapshot /\
  dom laser_snapshot =
    list_to_set POLL_KEYS ∪
    (match ws_state laser_coordinator with
     | Some _ => {[ATTR_WS_STATE]}
     | None => ∅
     end : gset string) /\
  laser_snapshot !! ATTR_WS_STATE = ws_state laser_coordinator /\
  (exists p, laser_snapshot !! "progress" = Some (JFloat p)) /\
  (exists n, laser_snapshot !! "working" = Some (JInt n)) /\
  (exists n, laser_snapshot !! "line" = Some (JInt n)) /\
  (exists s, laser_snapshot !! "working_state" = Some (JStr s)) /\
  (exists s, laser_snapshot !! "machine_type" = Some (JStr s)).
Proof.
  split.
  - vm_compute. reflexivity.
  - apply (poll_result_shape laser_coordinator (serving laser_answers) laser_snapshot).
    vm_compute. reflexivity.
Defined.

(** The progress survives a push message and a failed poll cycle. *)
Lemma poll_fields_persist_witness :
  is_Some (current_data
             (run laser_coordinator
                [Poll (serving laser_answers); Push "WORK_STARTED";
                 Poll (serving silent_answers)]) !! "progress").
Proof.
  apply (poll_fields_persist laser_coordinator (serving laser_answers)
           [Push "WORK_STARTED"; Poll (serving silent_answers)] "progress").
  - exists laser_snapshot. vm_compute. reflexivity.
  - apply list_elem_of_here.
Defined.

(** A device that answers every request with [{"result": "ok"}]. *)
Lemma missing_fields_take_defaults_witness :
  let w := answering (Response 200 (inr (JObj [("result", JStr "ok")]))) id in
  outcome (async_get_machine_type laser) w = Ok "Unknown xTool" /\
  outcome (async_get_mac laser) w = Ok None /\
  outcome (async_get_working_state laser) w = Ok "0" /\
  outcome (async_get_snapshot laser) w =
  Ok (list_to_map
        [("progress", JFloat float_zero); ("working", JInt 0); ("line", JInt 0);
         ("working_state", JStr "0"); ("machine_type", JStr "Unknown xTool");
         ("peripheral_status", JObj [("result", JStr "ok")])]).
Proof.
  apply (missing_fields_take_defaults laser 200 [("result", JStr "ok")] id).
  - lia.
  - repeat constructor.
Defined.

(** A task that meets a refused connection and a close frame. *)
Lemma loop_outlives_failures_witness :
  task_done (ws_run false Pending
               [Start; Failure; Wake; Connected; Message (TEXT "a"); Message CLOSED]).1
  = false.
Proof.
  apply (loop_outlives_failures Pending
           [Start; Failure; Wake; Connected; Message (TEXT "a"); Message CLOSED]).
  - reflexivity.
  - repeat constructor.
Defined.

(** Stopping the listening client twice. *)
Lemma stop_twice_witness :
  async_stop_ws {| _host := "192.168.1.50"; _ws_task := None; _ws_stop := true |}
    [Done Cancelled] =
  Some (Ok tt, {| _host := "192.168.1.50"; _ws_task := None; _ws_stop := true |},
        [Done Cancelled]).
Proof.
  apply (stop_twice listening _ [Receiving]). vm_compute. reflexivity.
Defined.


(** The device that discovery reports after one advertisement. *)
Lemma discovered_devices_answered_the_request_witness :
  exists fields,
    Datagram (Some (JObj fields)) ∈ received one_advert /\
    reply_of (request_id one_advert) fields laser_device.
Proof.
  apply (discovered_devices_answered_the_request one_advert [laser_device] laser_device).
  - vm_compute. reflexivity.
  - apply list_elem_of_here.
Defined.

Lemma discovered_hosts_are_distinct_witness :
  NoDup (host <$> [laser_device]) /\
  Forall (fun dev => host dev ≠ "") [laser_device] /\
  index_by_host [laser_device] = (fun dev => (host dev, dev)) <$> [laser_device].
Proof.
  apply (discovered_hosts_are_distinct one_advert [laser_device]).
  vm_compute. reflexivity.
Defined.

(** Two advertisements of one host, a malformed datagram between them. *)
Lemma discovery_keeps_last_per_host_witness :
  let u := quiet_udp [advert 123456 "192.168.1.50" "first"; Datagram None;
                      advert 123456 " 192.168.1.50 " "second"; RecvTimeout] in
  let entries := omap (kept (request_id u)) (heard (received u)) in
  exists found,
    _discover_devices_sync u = Ok (dict_values found) /\
    NoDup (dict_keys found) /\
    (forall h, dict_lookup h found = last_binding h entries) /\
    (forall h dev, dict_lookup h found = Some dev -> host dev = h /\ h ≠ "").
Proof.
  apply (discovery_keeps_last_per_host
           (quiet_udp [advert 123456 "192.168.1.50" "first"; Datagram None;
                       advert 123456 " 192.168.1.50 " "second"; RecvTimeout])).
  - reflexivity.
  - reflexivity.
  - repeat constructor.
  - intros Hin. repeat (apply elem_of_cons in Hin as [Hin|Hin]; [discriminate|]).
    by apply elem_of_nil in Hin.
Defined.

(** The manual step at the device at work: its entry. *)
Lemma entry_only_for_an_answering_device_witness :
  let client := new_client " 192.168.1.50 " in
  (exists fields,
     http_exchange (net (serving validating_answers) (request_of client "/ping" []))
       = inr (JObj fields) /\
     obj_lookup "result" fields = Some (JStr "ok")) /\
  trace (async_step_manual no_flows (Some (" 192.168.1.50 ", "Laser")))
    (serving validating_answers) =
    [HttpGet {| url := base_url client +:+ "/ping"; query := [] |};
     HttpGet {| url := base_url client +:+ "/getmachinetype"; query := [] |};
     HttpGet {| url := base_url client +:+ "/system"; query := [("action", "mac")] |}] /\
  _host client = str_strip " 192.168.1.50 " /\
  (" 192.168.1.50 " ∉ in_progress no_flows) /\ (" 192.168.1.50 " ∉ configured no_flows) /\
  [("host", " 192.168.1.50 "); ("name", "Laser")] =
    [("host", " 192.168.1.50 "); ("name", "Laser")] /\
  3 = 3 /\ true = true.
Proof.
  apply (entry_only_for_an_answering_device no_flows " 192.168.1.50 " "Laser"
           (serving validating_answers) " 192.168.1.50 " "Laser (xTool D1)"
           [("host", " 192.168.1.50 "); ("name", "Laser")] 3 true).
  vm_compute. reflexivity.
Defined.

(** The form of the discover step once the device is discovered. *)
Lemma discover_form_offers_every_host_witness :
  exists hosts proposed dev,
    async_step_discover [("192.168.1.50", laser_device)] no_flows one_advert None
      (serving laser_answers) =
      (Ok (inr (ShowForm "discover" (Some hosts)
                  [("host", proposed);
                   ("name", if String.eqb (name dev) "" then "xTool Laser" else name dev)]
                  [])),
       [], [("192.168.1.50", laser_device)]) /\
    hosts ≡ₚ dict_keys [("192.168.1.50", laser_device)] /\
    Sorted str_le hosts /\
    proposed ∈ hosts /\
    dict_lookup proposed [("192.168.1.50", laser_device)] = Some dev.
Proof.
  apply (discover_form_offers_every_host [("192.168.1.50", laser_device)] no_flows
           one_advert (serving laser_answers)).
  discriminate.
Defined.

(** Setting up the device at work and unloading it. *)
Lemma setup_then_unload_witness :
  exists h2,
    async_unload_entry (async_setup_entry no_hass laser_entry (serving laser_answers)).1.2
      laser_entry true = Some (Ok true, h2) /\
    loaded h2 = loaded no_hass /\
    loop_tasks h2 =
      loop_tasks no_hass ++
      (if default true (option_use_websocket laser_entry) then [Done Cancelled] else []) /\
    (forall s, s ∈ JOB_SERVICES ->
       if bool_decide (loaded no_hass = []) then s ∉ services h2 else s ∈ services h2).
Proof.
  apply (setup_then_unload no_hass laser_entry (serving laser_answers)).
  - apply not_elem_of_nil.
  - vm_compute. reflexivity.
Defined.

(** A call for an entry that is not loaded. *)
Lemma untargeted_call_contacts_no_device_witness :
  _async_handle_job_service (Some one_entry) (Some "entry-9") "pause" (serving laser_answers) =
    (Raise (HomeAssistantError "Unknown xTool entry_id: entry-9"), []).
Proof.
  pose proof (untargeted_call_contacts_no_device one_entry None "entry-9" "pause"
                (serving laser_answers)) as (_ & _ & H & _).
  apply H; [discriminate|discriminate|].
  intros Hin. repeat (apply elem_of_cons in Hin as [Hin|Hin]; [discriminate|]).
  by apply elem_of_nil in Hin.
Defined.


(** The SD card sensor of the device at work. *)
Lemma binary_sensor_reads_the_payload_witness :
  is_on (fst (async_refresh laser_coordinator (serving laser_answers))) "sdCard" = Ok true.
Proof.
  pose proof (binary_sensor_reads_the_payload laser_coordinator (serving laser_answers)
                (JObj [("sdCard", JInt 1); ("limitStopFlag", JInt 0)]) "sdCard"
                laser "entry-1" true []) as [H _].
  apply H.
  - exists laser_snapshot. vm_compute. reflexivity.
  - vm_compute. reflexivity.
Defined.

(** The manual step at a device that does not answer. *)
Lemma manual_step_reports_the_ping_witness :
  async_step_manual no_flows (Some ("192.168.1.50", "Laser")) (serving []) =
    (Ok (inr (ShowForm "manual" None [("name", "xTool Laser")]
                [("base", "cannot_connect")])),
     [HttpGet (request_of (new_client "192.168.1.50") "/ping" [])]).
Proof.
  pose proof (manual_step_reports_the_ping no_flows "192.168.1.50" "Laser" (serving []))
    as H.
  cbv zeta in H. destruct H as [H _]. apply H. exact I.
Defined.

(** The discover step when [recvfrom] fails after a device was heard. *)
Lemma discover_step_without_devices_witness :
  async_step_discover [] no_flows
    (quiet_udp [advert 123456 "192.168.1.50" "first"; RecvOSError])
    None (serving laser_answers) =
    (Ok (inr (AbortResult "no_devices_found")), [], []).
Proof.
  pose proof (discover_step_without_devices no_flows
                (quiet_udp [advert 123456 "192.168.1.50" "first"; RecvOSError])
                None (serving laser_answers)) as [H _].
  apply H; [reflexivity|]. right. left.
  exists [advert 123456 "192.168.1.50" "first"], []. split; [reflexivity|].
  repeat constructor.
Defined.

(** A setup at a device that does not answer [/progress]: the entry
    stays a target of the job services. *)
Lemma failed_setup_leaves_the_entry_witness :
  (async_setup_entry no_hass laser_entry (serving silent_answers)).1.1 = ConfigEntryNotReady /\
  _get_target_entries
    (hass_data (async_setup_entry no_hass laser_entry (serving silent_answers)).1.2)
    (Some "entry-1") = Ok ["entry-1"].
Proof.
  pose proof (failed_setup_leaves_the_entry no_hass laser_entry (serving silent_answers)) as H.
  cbv zeta in H. destruct H as (_ & _ & _ & _ & H).
  split; [vm_compute; reflexivity|].
  destruct H as [_ H]; [vm_compute; reflexivity|]. apply H. discriminate.
Defined.

(** * Control actions and the refresh they ask for *)

Section RefreshFacts.
Context {R : PyRuntime}.





End RefreshFacts.


